(** * Entity risk assessment: risk scorer, anomaly detectors, entity classifier

    A shallow embedding of the scoring core of the repository
    (models/entity.py, services/risk_scorer.py, services/anomaly_detector.py,
    services/entity_extractor.py and the anomaly rules of
    services/fake_data_generator.py), followed by the properties of the
    specification that were checked against it.

    Numbers.  The program computes on Python floats.  Every function below is
    written once, over an abstract number type [F] with the operations the
    source uses ([PyFloat]), and is then read in two ways:
    - at [Q], exact rational arithmetic, for statements about ranges;
    - at [float], IEEE 754 binary64 as the interpreter runs it, for
      statements about concrete values and for the non-numbers (NaN,
      infinities) that rationals do not have.

    The builtin [sum] on doubles is read both ways: as the compensated
    summation of CPython 3.12 and later ([float_sum], in [PyFloat_float])
    and as the left-to-right addition of earlier interpreters
    ([float_sum_ltr], in [PyFloat_float_ltr]).

    Strings.  A [str] is a string of ASCII characters; [lower] maps the
    letters A to Z.

    Time.  A naive [datetime] is a number of microseconds on a linear time
    line, a [date] is a day number; the current time is an explicit argument
    of every function that reads the clock.

    Exceptions.  Code that may raise returns a [result]; the library
    function [strptime] is an argument of the functions that call it.

    Further code.  The second part of the definitions embeds the rest of
    the extractor (the company patterns with a backtracking matcher for the
    regular expressions the source compiles, the confidence score), the
    entity and transaction generator of services/fake_data_generator.py
    with its cache, the confidence update of services/entity_enricher.py
    and the endpoints of main.py that call them.  The calls into [random],
    [Faker], [uuid] and [strftime] are the fields of a [Library]; the random
    source is an explicit state, and the documented ranges of the draws are
    hypotheses of the theorems that need them. *)

From Stdlib Require Import ZArith QArith Qround Qabs Lqa Lia List String Ascii Bool Floats.
From stdpp Require Import gmap strings list fin_maps.

Set Warnings "-inexact-float".
Local Open Scope Z_scope.

(** ** Numbers *)

(** The operations of Python's [float] that the source uses.  [lit q] is the
    value of the decimal or integer literal [q]; [fsum] is the builtin [sum]
    over an iterable of numbers (start value the integer 0). *)
Class PyFloat (F : Type) := {
  lit  : Q -> F;
  fadd : F -> F -> F;
  fsub : F -> F -> F;
  fmul : F -> F -> F;
  fdiv : F -> F -> F;
  fmod : F -> F -> F;
  flt  : F -> F -> bool;
  feq  : F -> F -> bool;
  fsum : list F -> F
}.
Arguments lit {F _} q%_Q.

Infix ".+" := fadd (at level 50, left associativity).
Infix ".-" := fsub (at level 50, left associativity).
Infix ".*" := fmul (at level 40, left associativity).
Infix "./" := fdiv (at level 40, left associativity).
Infix ".%" := fmod (at level 40, left associativity).
Infix ".<" := flt (at level 70, no associativity).
Infix ".==" := feq (at level 70, no associativity).
Notation "x .> y" := (flt y x) (at level 70, no associativity, only parsing).

(** The builtins [max(a, b)] and [min(a, b)]: the first argument is kept
    unless the second compares strictly greater (smaller). *)
Definition py_max {F} `{PyFloat F} (a b : F) : F := if b .> a then b else a.
Definition py_min {F} `{PyFloat F} (a b : F) : F := if b .< a then b else a.

(** [len(l)] converted to a number, as in [x / len(l)]. *)
Definition len {F A} `{PyFloat F} (l : list A) : F :=
  lit (inject_Z (Z.of_nat (length l))).

(** *** Exact arithmetic *)

Definition Q_ltb (x y : Q) : bool := negb (Qle_bool y x).

(** [x % y]: the remainder has the sign of the divisor. *)
Definition Q_mod (x y : Q) : Q := (x - y * inject_Z (Qfloor (x / y)))%Q.

Definition Q_sum (l : list Q) : Q := fold_left Qplus l 0%Q.

#[export] Instance PyFloat_Q : PyFloat Q := {|
  lit q := q;
  fadd := Qplus;
  fsub := Qminus;
  fmul := Qmult;
  fdiv := Qdiv;
  fmod := Q_mod;
  flt := Q_ltb;
  feq := Qeq_bool;
  fsum := Q_sum
|}.

(** *** Binary64 *)

(** An integer converted to the nearest double (ties to even). *)
Definition float_of_Z (z : Z) : float := SF2Prim (binary_normalize prec emax z 0 false).

(** A literal [n/d] with [n] and [d] exactly representable denotes the double
    nearest to it, which is what the correctly rounded quotient is. *)
Definition float_lit (q : Q) : float :=
  PrimFloat.div (float_of_Z (Qnum q)) (float_of_Z (Zpos (Qden q))).

(** C's [fmod(x, y)] on the specification of doubles: exact, with the sign of
    [x]; not a number when [x] is infinite or [y] is zero. *)
Definition SF_fmod (x y : spec_float) : spec_float :=
  match x, y with
  | S754_nan, _ | _, S754_nan => S754_nan
  | S754_infinity _, _ => S754_nan
  | _, S754_zero _ => S754_nan
  | _, S754_infinity _ => x
  | S754_zero _, S754_finite _ _ _ => x
  | S754_finite sx mx ex, S754_finite _ my ey =>
      let e := Z.min ex ey in
      let r := (Zpos mx * 2 ^ (ex - e)) mod (Zpos my * 2 ^ (ey - e)) in
      if (r =? 0)%Z then S754_zero sx
      else binary_normalize prec emax (cond_Zopp sx r) e false
  end.

Definition float_fmod (x y : float) : float := SF2Prim (SF_fmod (Prim2SF x) (Prim2SF y)).

Definition float_is_zero (x : float) : bool := PrimFloat.eqb x 0%float.

(** [float.__mod__] (CPython's float_rem): [fmod], then the remainder is
    given the sign of the divisor.  The source only divides by the constant
    1000, so the ZeroDivisionError of a zero divisor is not modelled. *)
Definition float_rem (vx wx : float) : float :=
  let m := float_fmod vx wx in
  if PrimFloat.is_nan m then m
  else if float_is_zero m then (if PrimFloat.ltb wx 0%float then (-0)%float else 0%float)
  else if xorb (PrimFloat.ltb wx 0%float) (PrimFloat.ltb m 0%float)
       then PrimFloat.add m wx else m.

(** One step of the compensated summation of the builtin [sum]
    (CPython 3.12 and later): running sum and running compensation. *)
Definition sum_step (st : float * float) (x : float) : float * float :=
  let '(f_result, c) := st in
  let t := PrimFloat.add f_result x in
  let c' :=
    if PrimFloat.leb (PrimFloat.abs x) (PrimFloat.abs f_result)
    then PrimFloat.add c (PrimFloat.add (PrimFloat.sub f_result t) x)
    else PrimFloat.add c (PrimFloat.add (PrimFloat.sub x t) f_result) in
  (t, c').

Definition float_is_finite (x : float) : bool :=
  negb (PrimFloat.is_nan x) && negb (PrimFloat.is_infinity x).

(** The builtin [sum] on floats: the integer start value 0 is added to the
    first item, the remaining items are accumulated with [sum_step], and the
    compensation is added at the end when it is non-zero and finite. *)
Definition float_sum (l : list float) : float :=
  match l with
  | [] => 0%float
  | x :: r =>
      let '(f_result, c) := fold_left sum_step r (PrimFloat.add 0%float x, 0%float) in
      if negb (float_is_zero c) && float_is_finite c then PrimFloat.add f_result c
      else f_result
  end.

(** Interpreters before CPython 3.12 add the items from left to right. *)
Definition float_sum_ltr (l : list float) : float := fold_left PrimFloat.add l 0%float.

#[export] Instance PyFloat_float : PyFloat float := {|
  lit := float_lit;
  fadd := PrimFloat.add;
  fsub := PrimFloat.sub;
  fmul := PrimFloat.mul;
  fdiv := PrimFloat.div;
  fmod := float_rem;
  flt := PrimFloat.ltb;
  feq := PrimFloat.eqb;
  fsum := float_sum
|}.

(** ** Strings *)

Local Open Scope string_scope.

(** [str.lower] on ASCII text: the letters A to Z are mapped, every other
    character is kept. *)
Definition lower_ascii (c : ascii) : ascii :=
  let n := nat_of_ascii c in
  if ((65 <=? n)%nat && (n <=? 90)%nat)%bool then ascii_of_nat (n + 32) else c.

Fixpoint lower (s : string) : string :=
  match s with
  | EmptyString => EmptyString
  | String c r => String (lower_ascii c) (lower r)
  end.

(** [sep.join(l)]. *)
Fixpoint join (sep : string) (l : list string) : string :=
  match l with
  | [] => ""
  | [x] => x
  | x :: r => x +:+ sep +:+ join sep r
  end.

(** [w in s] for strings: [w] occurs in [s] as a substring. *)
Fixpoint contains (s w : string) : bool :=
  String.prefix w s ||
  match s with
  | EmptyString => false
  | String _ r => contains r w
  end.

(** Truth value of an optional string: [None] and the empty string are false. *)
Definition truthy (o : option string) : bool :=
  match o with
  | Some (String _ _) => true
  | _ => false
  end.

(** ** Data model (models/entity.py) *)

Inductive EntityType :=
  | CORPORATION
  | NON_PROFIT
  | SHELL_COMPANY
  | GOVERNMENT_AGENCY
  | FINANCIAL_INTERMEDIARY
  | UNKNOWN.

#[export] Instance EntityType_eq_dec : EqDecision EntityType.
Proof. solve_decision. Defined.

Module Entity.
Record t (F : Type) := mk {
  name : string;
  type : EntityType;
  confidence_score : F;
  evidence_sources : list string;
  registration_number : option string;
  jurisdiction : option string;
  incorporation_date : option string;
  directors : option (list string);
  shareholders : option (list string);
  sanctions_status : option bool;
  risk_factors : option (gmap string F);
  reputation_score : option F
}.
Arguments mk {F}.
Arguments name {F}.
Arguments type {F}.
Arguments confidence_score {F}.
Arguments evidence_sources {F}.
Arguments registration_number {F}.
Arguments jurisdiction {F}.
Arguments incorporation_date {F}.
Arguments directors {F}.
Arguments shareholders {F}.
Arguments sanctions_status {F}.
Arguments risk_factors {F}.
Arguments reputation_score {F}.

(** [Entity(name=..., type=..., confidence_score=..., evidence_sources=...)]:
    the four required fields, every other field at its declared default. *)
Definition init {F} `{PyFloat F} (name : string) (type : EntityType)
    (confidence_score : F) (evidence_sources : list string) : t F :=
  {| name := name;
     type := type;
     confidence_score := confidence_score;
     evidence_sources := evidence_sources;
     registration_number := None;
     jurisdiction := None;
     incorporation_date := None;
     directors := None;
     shareholders := None;
     sanctions_status := Some false;
     risk_factors := None;
     reputation_score := Some (lit 0.0) |}.
End Entity.

Module Anomaly.
Record t (F : Type) := mk {
  type : string;
  severity : F;
  description : string;
  evidence : list string
}.
Arguments mk {F}.
Arguments type {F}.
Arguments severity {F}.
Arguments description {F}.
Arguments evidence {F}.
End Anomaly.

(** ** RiskScorer (services/risk_scorer.py) *)

Module RiskScorer.

(** The keys of [self.weights] and of the local [risk_scores]. *)
Inductive factor := entity_type | sanctions | reputation | anomalies | geographic.

(** The keys of [self.weights] in insertion order, as [for factor in
    self.weights] visits them. *)
Definition factors : list factor :=
  [entity_type; sanctions; reputation; anomalies; geographic].

Section WithNumbers.
Context {F : Type} `{PyFloat F}.

Definition weights (k : factor) : F :=
  match k with
  | entity_type => lit 0.3
  | sanctions => lit 0.25
  | reputation => lit 0.2
  | anomalies => lit 0.15
  | geographic => lit 0.1
  end.

Definition entity_type_risk (ty : EntityType) : option F :=
  match ty with
  | SHELL_COMPANY => Some (lit 0.8)
  | FINANCIAL_INTERMEDIARY => Some (lit 0.6)
  | CORPORATION => Some (lit 0.4)
  | NON_PROFIT => Some (lit 0.3)
  | GOVERNMENT_AGENCY => Some (lit 0.2)
  | UNKNOWN => Some (lit 0.5)
  end.

Definition high_risk_jurisdictions : gmap string F :=
  list_to_map
    [("ru", lit 0.8); ("cn", lit 0.7); ("ir", lit 0.9); ("kp", lit 0.9);
     ("sy", lit 0.8); ("ve", lit 0.7); ("mm", lit 0.7); ("zw", lit 0.6)].

Definition _calculate_anomaly_risk
    (anomalies : option (list (Anomaly.t F))) (transaction_amount : option F) : F :=
  match anomalies with
  | None | Some [] => lit 0.0
  | Some l =>
      let severity_scores := map Anomaly.severity l in
      let avg_severity := fsum severity_scores ./ len severity_scores in
      match transaction_amount with
      | Some amount =>
          let amount_factor := py_min (amount ./ lit 1000000) (lit 1.0) in
          (avg_severity .+ amount_factor) ./ lit 2
      | None => avg_severity
      end
  end.

Definition _calculate_geographic_risk (jurisdiction : option string) : F :=
  if truthy jurisdiction
  then
    let jurisdiction := lower (default "" jurisdiction) in
    default (lit 0.5) (high_risk_jurisdictions !! jurisdiction)
  else lit 0.5.

(** The local dictionary [risk_scores] of [calculate_risk_score]. *)
Definition risk_scores (entity : Entity.t F)
    (anomalies : option (list (Anomaly.t F))) (transaction_amount : option F)
    (k : factor) : F :=
  match k with
  | entity_type => default (lit 0.5) (entity_type_risk (Entity.type entity))
  | sanctions =>
      if default false (Entity.sanctions_status entity) then lit 0.8 else lit 0.0
  | reputation =>
      match Entity.reputation_score entity with
      | Some r => lit 1.0 .- r
      | None => lit 0.5
      end
  | anomalies => _calculate_anomaly_risk anomalies transaction_amount
  | geographic => _calculate_geographic_risk (Entity.jurisdiction entity)
  end.

(** The weighted sum, before it is clamped. *)
Definition total_risk (entity : Entity.t F)
    (anomalies : option (list (Anomaly.t F))) (transaction_amount : option F) : F :=
  fsum (map (fun k => risk_scores entity anomalies transaction_amount k .* weights k)
            factors).

Definition calculate_risk_score (entity : Entity.t F)
    (anomalies : option (list (Anomaly.t F))) (transaction_amount : option F) : F :=
  py_min (py_max (total_risk entity anomalies transaction_amount) (lit 0.0)) (lit 1.0).

(** [reasons.append(x)]. *)
Definition append (reasons : list string) (x : string) : list string :=
  (reasons ++ [x])%list.

Definition generate_risk_reason (entity : Entity.t F) (risk_score : F)
    (anomalies : option (list (Anomaly.t F))) : string :=
  let reasons := [] in
  let reasons :=
    if decide (Entity.type entity = SHELL_COMPANY)
    then append reasons "Entity is classified as a shell company"
    else if decide (Entity.type entity = FINANCIAL_INTERMEDIARY)
    then append reasons "Entity is a financial intermediary"
    else reasons in
  let reasons :=
    if default false (Entity.sanctions_status entity)
    then append reasons "Entity is on sanctions list"
    else reasons in
  let reasons :=
    match Entity.reputation_score entity with
    | Some r =>
        if r .< lit 0.3
        then append reasons "Entity has poor reputation based on news analysis"
        else reasons
    | None => reasons
    end in
  let reasons :=
    match anomalies with
    | Some l =>
        fold_left
          (fun reasons anomaly =>
             append reasons ("Anomaly detected: " +:+ Anomaly.description anomaly))
          l reasons
    | None => reasons
    end in
  let reasons :=
    let j := default "" (Entity.jurisdiction entity) in
    if truthy (Entity.jurisdiction entity)
       && bool_decide (is_Some (high_risk_jurisdictions !! lower j))
    then append reasons ("Entity is based in a high-risk jurisdiction (" +:+ j +:+ ")")
    else reasons in
  let reasons :=
    match reasons with
    | [] => append reasons "Risk score based on standard entity assessment"
    | _ => reasons
    end in
  join " | " reasons.

End WithNumbers.
End RiskScorer.

(** ** Time *)

(** A [datetime] is a number of microseconds, a [date] a number of days, a
    [timedelta] a difference of datetimes. *)
Abbreviation datetime := Z (only parsing).
Abbreviation date := Z (only parsing).

Definition us_per_day : Z := 86400000000.

(** [t.date()]. *)
Definition date_of (t : datetime) : date := t / us_per_day.

(** [timedelta(days=n)]. *)
Definition timedelta_days (n : Z) : Z := n * us_per_day.

(** [delta.days]: whole days, rounded towards minus infinity. *)
Definition days (delta : Z) : Z := delta / us_per_day.

(** ** AnomalyDetector (services/anomaly_detector.py) *)

Module AnomalyDetector.

(** [self.thresholds]. *)
Module thresholds.
Definition amount : Z := 1000000.
Definition frequency : Z := 5.
Definition velocity : Z := 100000.
Definition round_amount : Z := 1000.
Definition new_entity : Z := 30.
End thresholds.

(** One entry of [transactions]: the keys "time", "amount", "currency". *)
Record transaction (F : Type) := mk_transaction {
  time : datetime;
  amount : F;
  currency : string
}.
Arguments mk_transaction {F}.
Arguments time {F}.
Arguments amount {F}.
Arguments currency {F}.

(** One value of [self.transaction_history]: the keys "transactions",
    "daily_amounts", "first_seen". *)
Record history (F : Type) := mk_history {
  transactions : list (transaction F);
  daily_amounts : gmap date F;
  first_seen : datetime
}.
Arguments mk_history {F}.
Arguments transactions {F}.
Arguments daily_amounts {F}.
Arguments first_seen {F}.

Section WithNumbers.
Context {F : Type} `{PyFloat F}.

(** The text an f-string puts for a float; a library function. *)
Variable format_float : F -> string.

(** [self.transaction_history], keyed by entity name. *)
Abbreviation state := (gmap string (history F)).

Definition int (z : Z) : F := lit (inject_Z z).

Definition _is_round_number (amount : F) : bool :=
  amount .% int thresholds.round_amount .== int 0.

Definition set_transactions (l : list (transaction F)) (h : history F) : history F :=
  {| transactions := l; daily_amounts := daily_amounts h; first_seen := first_seen h |}.

Definition set_daily_amounts (m : gmap date F) (h : history F) : history F :=
  {| transactions := transactions h; daily_amounts := m; first_seen := first_seen h |}.

Definition _cleanup_transaction_history (current_time : datetime)
    (entity_name : string) (st : state) : state :=
  let cutoff_time := current_time - timedelta_days 30 in
  let st :=
    alter (fun h =>
             set_transactions
               (filter (fun t => cutoff_time < time t) (transactions h)) h)
          entity_name st in
  let cutoff_date := date_of cutoff_time in
  alter (fun h =>
           set_daily_amounts
             (filter (fun da : date * F => cutoff_date < da.1) (daily_amounts h)) h)
        entity_name st.

Definition _update_transaction_history (current_time : datetime)
    (entity_name : string) (amount : F) (currency : string) (st : state) : state :=
  let st :=
    match st !! entity_name with
    | None =>
        <[entity_name :=
            {| transactions := []; daily_amounts := ∅; first_seen := current_time |}]> st
    | Some _ => st
    end in
  let st :=
    alter (fun h =>
             set_transactions
               (transactions h ++
                [{| time := current_time; amount := amount; currency := currency |}]) h)
          entity_name st in
  let date_key := date_of current_time in
  let st :=
    alter (fun h =>
             match daily_amounts h !! date_key with
             | None => set_daily_amounts (<[date_key := int 0]> (daily_amounts h)) h
             | Some _ => h
             end)
          entity_name st in
  let st :=
    alter (fun h =>
             set_daily_amounts (alter (fun v => v .+ amount) date_key (daily_amounts h)) h)
          entity_name st in
  _cleanup_transaction_history current_time entity_name st.

Definition _check_transaction_frequency (current_time : datetime)
    (entity_name : string) (st : state) : bool :=
  match st !! entity_name with
  | None => false
  | Some h =>
      let today := date_of current_time in
      let today_transactions :=
        length (filter (fun t => date_of (time t) = today) (transactions h)) in
      bool_decide (thresholds.frequency < Z.of_nat today_transactions)
  end.

Definition _check_transaction_velocity (current_time : datetime)
    (entity_name : string) (st : state) : bool :=
  match st !! entity_name with
  | None => false
  | Some h =>
      let today := date_of current_time in
      let today_amount := default (int 0) (daily_amounts h !! today) in
      today_amount .> int thresholds.velocity
  end.

Definition _is_new_entity (current_time : datetime)
    (entity_name : string) (st : state) : bool :=
  match st !! entity_name with
  | None => true
  | Some h => bool_decide (days (current_time - first_seen h) < thresholds.new_entity)
  end.

(** [anomalies.append(x)]. *)
Definition append (anomalies : list (Anomaly.t F)) (x : Anomaly.t F)
    : list (Anomaly.t F) :=
  (anomalies ++ [x])%list.

(** The body of the loop [for entity in entities] of [detect_anomalies]. *)
Definition detect_entity (current_time : datetime) (amount : F) (currency : string)
    (acc : list (Anomaly.t F) * state) (entity : Entity.t F)
    : list (Anomaly.t F) * state :=
  let '(anomalies, st) := acc in
  let name := Entity.name entity in
  let st := _update_transaction_history current_time name amount currency st in
  let anomalies :=
    if _check_transaction_frequency current_time name st
    then append anomalies
           {| Anomaly.type := "high_frequency";
              Anomaly.severity := lit 0.8;
              Anomaly.description := "High transaction frequency for " +:+ name;
              Anomaly.evidence := ["Transaction frequency exceeds threshold"] |}
    else anomalies in
  let anomalies :=
    if _check_transaction_velocity current_time name st
    then append anomalies
           {| Anomaly.type := "high_velocity";
              Anomaly.severity := lit 0.8;
              Anomaly.description := "High transaction velocity for " +:+ name;
              Anomaly.evidence := ["Transaction velocity exceeds threshold"] |}
    else anomalies in
  let anomalies :=
    if _is_new_entity current_time name st
    then append anomalies
           {| Anomaly.type := "new_entity";
              Anomaly.severity := lit 0.6;
              Anomaly.description := "New entity detected: " +:+ name;
              Anomaly.evidence := ["Entity is new to the system"] |}
    else anomalies in
  (anomalies, st).

(** [detect_anomalies]: the anomalies returned and the history left
    behind.  [current_time] is what [datetime.now()] reads during the
    call. *)
Definition detect_anomalies (current_time : datetime) (amount : F) (currency : string)
    (entities : list (Entity.t F)) (st : state) : list (Anomaly.t F) * state :=
  let anomalies := [] in
  let anomalies :=
    if amount .> int thresholds.amount
    then append anomalies
           {| Anomaly.type := "large_transaction";
              Anomaly.severity := py_min (amount ./ int thresholds.amount) (lit 1.0);
              Anomaly.description :=
                "Large transaction amount: " +:+ format_float amount +:+ " " +:+ currency;
              Anomaly.evidence := ["Transaction amount exceeds threshold"] |}
    else anomalies in
  let anomalies :=
    if _is_round_number amount
    then append anomalies
           {| Anomaly.type := "round_amount";
              Anomaly.severity := lit 0.7;
              Anomaly.description :=
                "Round number transaction: " +:+ format_float amount +:+ " " +:+ currency;
              Anomaly.evidence := ["Transaction amount is a round number"] |}
    else anomalies in
  fold_left (detect_entity current_time amount currency) entities (anomalies, st).

End WithNumbers.
End AnomalyDetector.

(** ** Exceptions *)

Inductive exn := ValueError | TypeError.

(** The outcome of code that may raise. *)
Inductive result (A : Type) :=
  | Ok (a : A)
  | Raise (e : exn).
Arguments Ok {A} a.
Arguments Raise {A} e.

(** Sequencing: the rest runs on the value, a raised exception goes through. *)
#[export] Instance result_bind : MBind result :=
  fun A B (k : A -> result B) (m : result A) =>
    match m with
    | Ok a => k a
    | Raise e => Raise e
    end.

(** [try: body  except ValueError: handler]. *)
Definition try_except_ValueError {A} (body : result A) (handler : result A) : result A :=
  match body with
  | Raise ValueError => handler
  | other => other
  end.

(** A loop [for x in l: acc = body(acc, x)] whose body may raise. *)
Fixpoint for_each {A B} (body : A -> B -> result A) (l : list B) (acc : A) : result A :=
  match l with
  | [] => Ok acc
  | x :: r => acc' ← body acc x; for_each body r acc'
  end.

(** ** The anomaly rules of FakeDataGenerator (services/fake_data_generator.py) *)

Module FakeDataGenerator.
Section WithNumbers.
Context {F : Type} `{PyFloat F}.

(** The text an f-string puts for a float; a library function. *)
Variable format_float : F -> string.

(** [datetime.strptime(text, format)]; a library function, which raises
    ValueError when [text] does not match [format]. *)
Variable strptime : string -> string -> result datetime.

Definition country_risk : gmap string F :=
  list_to_map
    [("RU", lit 0.8); ("CN", lit 0.7); ("IR", lit 0.9); ("KP", lit 0.9);
     ("SY", lit 0.8); ("VE", lit 0.7); ("MM", lit 0.7); ("ZW", lit 0.6);
     ("US", lit 0.2); ("GB", lit 0.2); ("DE", lit 0.2); ("FR", lit 0.2);
     ("CA", lit 0.2)].

(** [anomalies.append(x)]. *)
Definition append (anomalies : list (Anomaly.t F)) (x : Anomaly.t F)
    : list (Anomaly.t F) :=
  (anomalies ++ [x])%list.

(** The rules on the amount, before the loop over the entities. *)
Definition amount_anomalies (amount : F) : list (Anomaly.t F) :=
  let anomalies := [] in
  let anomalies :=
    if amount .> lit 1000000
    then
      let severity := py_min (amount ./ lit 1000000) (lit 1.0) in
      append anomalies
        {| Anomaly.type := "large_transaction";
           Anomaly.severity := severity;
           Anomaly.description := "Large transaction amount: " +:+ format_float amount;
           Anomaly.evidence := ["Transaction amount exceeds threshold"] |}
    else anomalies in
  let anomalies :=
    if (amount .% lit 1000 .== lit 0) && (amount .> lit 10000)
    then
      append anomalies
        {| Anomaly.type := "round_amount";
           Anomaly.severity := lit 0.7;
           Anomaly.description := "Round number transaction: " +:+ format_float amount;
           Anomaly.evidence := ["Transaction amount is a round number"] |}
    else anomalies in
  anomalies.

(** The body of the loop [for entity in entities]. *)
Definition entity_anomalies (current_time : datetime)
    (anomalies : list (Anomaly.t F)) (entity : Entity.t F)
    : result (list (Anomaly.t F)) :=
  let anomalies :=
    match Entity.jurisdiction entity with
    | Some j =>
        match country_risk !! j with
        | Some risk =>
            if risk .> lit 0.6
            then
              append anomalies
                {| Anomaly.type := "high_risk_jurisdiction";
                   Anomaly.severity := risk;
                   Anomaly.description := "Entity in high-risk jurisdiction: " +:+ j;
                   Anomaly.evidence := ["Entity jurisdiction is " +:+ j] |}
            else anomalies
        | None => anomalies
        end
    | None => anomalies
    end in
  let anomalies :=
    if decide (Entity.type entity = SHELL_COMPANY)
    then
      append anomalies
        {| Anomaly.type := "shell_company";
           Anomaly.severity := lit 0.8;
           Anomaly.description :=
             "Entity appears to be a shell company: " +:+ Entity.name entity;
           Anomaly.evidence := ["Entity classification"; "Structure analysis"] |}
    else anomalies in
  if truthy (Entity.incorporation_date entity)
  then
    let text := default "" (Entity.incorporation_date entity) in
    try_except_ValueError
      (incorporation_date ← strptime text "%Y-%m-%d";
       let days_since_incorporation := days (current_time - incorporation_date) in
       if bool_decide (days_since_incorporation < 180)
       then
         Ok (append anomalies
               {| Anomaly.type := "new_entity";
                  Anomaly.severity := lit 0.6;
                  Anomaly.description := "Recently formed entity: " +:+ Entity.name entity;
                  Anomaly.evidence := ["Incorporation date: " +:+ text] |})
       else Ok anomalies)
      (Ok anomalies)
  else Ok anomalies.

(** The list that the body of [generate_fake_anomalies] has built in its
    local variable [anomalies] when it reaches its last line. *)
Definition generate_fake_anomalies_list (current_time : datetime) (amount : F)
    (entities : list (Entity.t F)) : result (list (Anomaly.t F)) :=
  for_each (entity_anomalies current_time) entities (amount_anomalies amount).

(** [generate_fake_anomalies] as a caller sees it.  The function ends
    after the loop without a [return] statement, so the value it hands
    back is [None], whatever the list holds. *)
Definition generate_fake_anomalies (current_time : datetime) (amount : F)
    (entities : list (Entity.t F)) : result (option (list (Anomaly.t F))) :=
  generate_fake_anomalies_list current_time amount entities ≫= fun _ => Ok None.

End WithNumbers.
End FakeDataGenerator.

(** *** A model of [datetime.strptime(text, "%Y-%m-%d")] on ASCII text

    Four digits, a hyphen, a month (one or two digits, 1 to 12), a hyphen, a
    day (one or two digits, or a space and one digit, 1 to 31), nothing
    after; the date must exist (year at least 1, day within the month).  The
    result is midnight of that day; anything else raises ValueError. *)

Definition digit (c : ascii) : option Z :=
  let n := nat_of_ascii c in
  if ((48 <=? n)%nat && (n <=? 57)%nat)%bool then Some (Z.of_nat n - 48) else None.

(** One or two digits up to the hyphen or the end of the text. *)
Definition one_or_two_digits (s : string) : option (Z * string) :=
  match s with
  | String a r =>
      match digit a with
      | Some x =>
          match r with
          | String b r' =>
              match digit b with
              | Some y => Some (10 * x + y, r')
              | None => Some (x, r)
              end
          | EmptyString => Some (x, r)
          end
      | None => None
      end
  | EmptyString => None
  end.

(** The day: as the month, or a space and one digit. *)
Definition day_field (s : string) : option (Z * string) :=
  match s with
  | String " " (String c r) =>
      match digit c with
      | Some x => Some (x, r)
      | None => None
      end
  | _ => one_or_two_digits s
  end.

Definition is_leap (y : Z) : bool :=
  ((y mod 4 =? 0)%Z && negb (y mod 100 =? 0)%Z) || (y mod 400 =? 0)%Z.

Definition days_in_month (y m : Z) : Z :=
  if (m =? 2)%Z then (if is_leap y then 29 else 28)
  else if (m =? 4)%Z || (m =? 6)%Z || (m =? 9)%Z || (m =? 11)%Z then 30 else 31.

(** Days of the year that precede the first day of month [m]. *)
Definition days_before_month (y m : Z) : Z :=
  nth (Z.to_nat (m - 1)) [0; 31; 59; 90; 120; 151; 181; 212; 243; 273; 304; 334] 0
  + (if (2 <? m)%Z && is_leap y then 1 else 0).

(** The proleptic Gregorian ordinal of a date: day 1 is 0001-01-01. *)
Definition ordinal (y m d : Z) : Z :=
  let y' := y - 1 in
  y' * 365 + y' / 4 - y' / 100 + y' / 400 + days_before_month y m + d.

Definition strptime_ymd (text : string) : result datetime :=
  match text with
  | String a (String b (String c (String d (String "-" r)))) =>
      match digit a, digit b, digit c, digit d with
      | Some a, Some b, Some c, Some d =>
          let y := 1000 * a + 100 * b + 10 * c + d in
          match one_or_two_digits r with
          | Some (m, String "-" r') =>
              match day_field r' with
              | Some (dd, EmptyString) =>
                  if (1 <=? y)%Z && (1 <=? m)%Z && (m <=? 12)%Z && (1 <=? dd)%Z
                     && (dd <=? days_in_month y m)%Z
                  then Ok (ordinal y m dd * us_per_day)
                  else Raise ValueError
              | _ => Raise ValueError
              end
          | _ => Raise ValueError
          end
      | _, _, _, _ => Raise ValueError
      end
  | _ => Raise ValueError
  end.

Definition strptime_model (text format : string) : result datetime :=
  if String.eqb format "%Y-%m-%d" then strptime_ymd text else Raise ValueError.

(** ** Regular expressions, as far as the patterns of the extractor go

    The patterns are sequences of literal characters, of characters escaped
    with a backslash, of a character followed by [?], and of [$]. *)

Inductive atom :=
  | Lit (c : ascii)      (** the character [c] *)
  | Opt (c : ascii)      (** [c?]: the character [c], or nothing *)
  | Eos.                 (** [$] *)

(** The atoms of a pattern written as in the source (a raw string). *)
Fixpoint compile (p : string) : list atom :=
  match p with
  | EmptyString => []
  | String c r =>
      if Ascii.eqb c "$" then Eos :: compile r
      else if Ascii.eqb c "\" then
        match r with
        | String c' r' =>
            match r' with
            | String "?" r'' => Opt c' :: compile r''
            | _ => Lit c' :: compile r'
            end
        | EmptyString => []
        end
      else
        match r with
        | String "?" r' => Opt c :: compile r'
        | _ => Lit c :: compile r
        end
  end.

(** [$] matches at the end of the text and just before a newline that ends
    the text. *)
Definition at_end (s : string) : bool :=
  match s with
  | EmptyString => true
  | String c EmptyString => Ascii.eqb c "010"
  | _ => false
  end.

(** The atoms match a prefix of [s]. *)
Fixpoint match_here (p : list atom) (s : string) : bool :=
  match p with
  | [] => true
  | Lit c :: p' =>
      match s with
      | String d s' => Ascii.eqb c d && match_here p' s'
      | EmptyString => false
      end
  | Opt c :: p' =>
      match s with
      | String d s' => (Ascii.eqb c d && match_here p' s') || match_here p' s
      | EmptyString => match_here p' s
      end
  | Eos :: p' => at_end s && match_here p' s
  end.

Fixpoint search_atoms (p : list atom) (s : string) : bool :=
  match_here p s ||
  match s with
  | EmptyString => false
  | String _ s' => search_atoms p s'
  end.

(** [re.search(pattern, s)] as a truth value: the pattern matches somewhere. *)
Definition re_search (pattern s : string) : bool := search_atoms (compile pattern) s.

(** [any(f(x) for x in l)]. *)
Definition any {A} (f : A -> bool) (l : list A) : bool := existsb f l.

(** ** EntityExtractor (services/entity_extractor.py) *)

Module EntityExtractor.

Definition company_suffixes : list string :=
  ["inc\.?$"; "corp\.?$"; "corporation$"; "ltd\.?$"; "limited$";
   "llc$"; "gmbh$"; "s\.a\.$"; "s\.p\.a\.$"; "plc$"].

Definition nonprofit_indicators : list string :=
  ["foundation$"; "charity$"; "ngo$"; "non-profit$"; "nonprofit$";
   "association$"; "society$"; "trust$"].

Definition shell_indicators : list string :=
  ["holdings$"; "investments$"; "group$"; "capital$"; "partners$";
   "management$"; "consulting$"; "advisory$"].

Definition _classify_entity_type (entity_name : string) : EntityType :=
  let entity_name := lower entity_name in
  if any (fun pattern => re_search pattern entity_name) nonprofit_indicators
  then NON_PROFIT
  else if any (fun pattern => re_search pattern entity_name) shell_indicators
  then SHELL_COMPANY
  else if any (fun pattern => re_search pattern entity_name) company_suffixes
  then CORPORATION
  else if any (fun word => contains entity_name word)
              ["government"; "ministry"; "department"; "agency"]
  then GOVERNMENT_AGENCY
  else if any (fun word => contains entity_name word)
              ["bank"; "financial"; "investment"; "fund"]
  then FINANCIAL_INTERMEDIARY
  else UNKNOWN.

End EntityExtractor.

(** ** Vocabulary of the properties *)

(** Some anomaly of the list carries the tag [ty]. *)
Definition has_type {F} (ty : string) (l : list (Anomaly.t F)) : bool :=
  existsb (fun a => String.eqb (Anomaly.type a) ty) l.

(** Binary64 with the summation of interpreters before CPython 3.12. *)
Definition PyFloat_float_ltr : PyFloat float := {|
  lit := float_lit;
  fadd := PrimFloat.add;
  fsub := PrimFloat.sub;
  fmul := PrimFloat.mul;
  fdiv := PrimFloat.div;
  fmod := float_rem;
  flt := PrimFloat.ltb;
  feq := PrimFloat.eqb;
  fsum := float_sum_ltr
|}.

(** The stated ranges of the inputs of the score, in exact arithmetic. *)
Definition in_stated_ranges (entity : Entity.t Q)
    (anomalies : option (list (Anomaly.t Q))) (transaction_amount : option Q) : Prop :=
  (forall r, Entity.reputation_score entity = Some r -> (0 <= r <= 1)%Q)
  /\ (forall l a, anomalies = Some l -> In a l -> (0 <= Anomaly.severity a <= 1)%Q)
  /\ (forall x, transaction_amount = Some x -> (0 <= x)%Q).


(** The clauses of the reason, in the order of the specification. *)
Section Clauses.
Context {F : Type} `{PyFloat F}.

Definition type_clause (entity : Entity.t F) : list string :=
  match Entity.type entity with
  | SHELL_COMPANY => ["Entity is classified as a shell company"]
  | FINANCIAL_INTERMEDIARY => ["Entity is a financial intermediary"]
  | _ => []
  end.

Definition sanctions_clause (entity : Entity.t F) : list string :=
  match Entity.sanctions_status entity with
  | Some true => ["Entity is on sanctions list"]
  | _ => []
  end.

Definition reputation_clause (entity : Entity.t F) : list string :=
  match Entity.reputation_score entity with
  | Some r =>
      if r .< lit 0.3 then ["Entity has poor reputation based on news analysis"] else []
  | None => []
  end.

Definition anomaly_clauses (anomalies : option (list (Anomaly.t F))) : list string :=
  map (fun a => "Anomaly detected: " +:+ Anomaly.description a) (default [] anomalies).

Definition jurisdiction_clause (entity : Entity.t F) : list string :=
  match Entity.jurisdiction entity with
  | Some j =>
      if bool_decide (is_Some (RiskScorer.high_risk_jurisdictions (F:=F) !! lower j))
      then ["Entity is based in a high-risk jurisdiction (" +:+ j +:+ ")"]
      else []
  | None => []
  end.

Definition clauses (entity : Entity.t F) (anomalies : option (list (Anomaly.t F)))
    : list string :=
  (type_clause entity ++ sanctions_clause entity ++ reputation_clause entity
   ++ anomaly_clauses anomalies ++ jurisdiction_clause entity)%list.

Definition fallback_clause : string := "Risk score based on standard entity assessment".
End Clauses.

(** A sequence of calls of [detect_anomalies] on one detector. *)
Module Run.
Record call (F : Type) := mk_call {
  now : datetime;
  amount : F;
  currency : string;
  entities : list (Entity.t F)
}.
Arguments mk_call {F}.
Arguments now {F}.
Arguments amount {F}.
Arguments currency {F}.
Arguments entities {F}.

(** The lists of anomalies that the calls return, in order, and the
    history after the last one. *)
Fixpoint run {F} `{PyFloat F} (format_float : F -> string) (calls : list (call F))
    (st : gmap string (AnomalyDetector.history F))
    : list (list (Anomaly.t F)) * gmap string (AnomalyDetector.history F) :=
  match calls with
  | [] => ([], st)
  | c :: r =>
      let '(out, st') :=
        AnomalyDetector.detect_anomalies format_float (now c) (amount c) (currency c)
          (entities c) st in
      let '(outs, st'') := run format_float r st' in
      (out :: outs, st'')
  end.
End Run.

(** The entries of a history lie in the 30 days before [current_time]. *)
Definition within_window {F} (current_time : datetime) (h : AnomalyDetector.history F) : Prop :=
  Forall (fun t => current_time - timedelta_days 30 < AnomalyDetector.time t)
         (AnomalyDetector.transactions h)
  /\ (forall d v, AnomalyDetector.daily_amounts h !! d = Some v ->
                  date_of (current_time - timedelta_days 30) < d).

(** The incorporation-date rule of the generator holds for the entity: the
    date is given, parses, and is fewer than 180 days old. *)
Definition recently_formed (strptime : string -> string -> result datetime)
    {F} (current_time : datetime) (entity : Entity.t F) : bool :=
  match Entity.incorporation_date entity with
  | Some (String _ _ as text) =>
      match strptime text "%Y-%m-%d" with
      | Ok d => bool_decide (current_time - d < timedelta_days 180)
      | Raise _ => false
      end
  | _ => false
  end.

(** The library contract of [strptime]: the only exception is ValueError. *)
Definition raises_only_ValueError (strptime : string -> string -> result datetime) : Prop :=
  forall text format e, strptime text format = Raise e -> e = ValueError.


(** The severities that the rules of the detector give by tag. *)
Definition fixed_severity {F} `{PyFloat F} (a : Anomaly.t F) : Prop :=
  (Anomaly.type a = "round_amount" -> Anomaly.severity a = lit 0.7)
  /\ (Anomaly.type a = "high_frequency" -> Anomaly.severity a = lit 0.8)
  /\ (Anomaly.type a = "high_velocity" -> Anomaly.severity a = lit 0.8)
  /\ (Anomaly.type a = "new_entity" -> Anomaly.severity a = lit 0.6).

(** The severities that the rules of the generator give by tag. *)
Definition generator_severity {F} `{PyFloat F} (a : Anomaly.t F) : Prop :=
  (Anomaly.type a = "round_amount" -> Anomaly.severity a = lit 0.7)
  /\ (Anomaly.type a = "shell_company" -> Anomaly.severity a = lit 0.8)
  /\ (Anomaly.type a = "new_entity" -> Anomaly.severity a = lit 0.6).

(** *** The history of the detector *)

Section HistoryVocabulary.
Context {F : Type} `{PyFloat F}.
Import AnomalyDetector.

(** The history of an entity before it has been seen. *)
Definition fresh_history (current_time : datetime) : history F :=
  {| transactions := []; daily_amounts := ∅; first_seen := current_time |}.

(** What one update makes of the history of the entity. *)
Definition updated_history (current_time : datetime) (amount : F) (currency : string)
    (h : history F) : history F :=
  let cutoff_time := current_time - timedelta_days 30 in
  let date_key := date_of current_time in
  let recorded :=
    match daily_amounts h !! date_key with
    | None => <[date_key := int 0]> (daily_amounts h)
    | Some _ => daily_amounts h
    end in
  {| transactions :=
       filter (fun t => cutoff_time < time t)
              (transactions h ++
               [{| time := current_time; amount := amount; currency := currency |}])%list;
     daily_amounts :=
       filter (fun da : date * F => date_of cutoff_time < da.1)
              (alter (fun v => v .+ amount) date_key recorded);
     first_seen := first_seen h |}.

(** The anomalies that the loop body appends for one entity, given the
    history after the update. *)
Definition entity_flags (current_time : datetime) (name : string)
    (st : gmap string (history F)) : list (Anomaly.t F) :=
  ((if _check_transaction_frequency current_time name st
    then [{| Anomaly.type := "high_frequency";
             Anomaly.severity := lit 0.8;
             Anomaly.description := "High transaction frequency for " +:+ name;
             Anomaly.evidence := ["Transaction frequency exceeds threshold"] |}]
    else [])
   ++ (if _check_transaction_velocity current_time name st
       then [{| Anomaly.type := "high_velocity";
                Anomaly.severity := lit 0.8;
                Anomaly.description := "High transaction velocity for " +:+ name;
                Anomaly.evidence := ["Transaction velocity exceeds threshold"] |}]
       else [])
   ++ (if _is_new_entity current_time name st
       then [{| Anomaly.type := "new_entity";
                Anomaly.severity := lit 0.6;
                Anomaly.description := "New entity detected: " +:+ name;
                Anomaly.evidence := ["Entity is new to the system"] |}]
       else []))%list.

(** The entity has [k] recorded transactions, all dated [D]. *)
Definition same_day_history (D : date) (k : nat) (name : string)
    (st : gmap string (history F)) : Prop :=
  let l := default [] (transactions <$> st !! name) in
  length l = k /\ Forall (fun t => date_of (time t) = D) l.

(** A call at a time of day [D] for the one entity [name]. *)
Definition single_entity_call (D : date) (name : string) (c : Run.call F) : Prop :=
  date_of (Run.now c) = D /\ exists e, Run.entities c = [e] /\ Entity.name e = name.
End HistoryVocabulary.

(** *** The rules of the generator on one entity *)

Section GeneratorVocabulary.
Context {F : Type} `{PyFloat F}.
Variable strptime : string -> string -> result datetime.
Import FakeDataGenerator.

Definition jurisdiction_rule (entity : Entity.t F) : list (Anomaly.t F) :=
  match Entity.jurisdiction entity with
  | Some j =>
      match country_risk !! j with
      | Some risk =>
          if risk .> lit 0.6
          then [{| Anomaly.type := "high_risk_jurisdiction";
                   Anomaly.severity := risk;
                   Anomaly.description := "Entity in high-risk jurisdiction: " +:+ j;
                   Anomaly.evidence := ["Entity jurisdiction is " +:+ j] |}]
          else []
      | None => []
      end
  | None => []
  end.

Definition shell_rule (entity : Entity.t F) : list (Anomaly.t F) :=
  if decide (Entity.type entity = SHELL_COMPANY)
  then [{| Anomaly.type := "shell_company";
           Anomaly.severity := lit 0.8;
           Anomaly.description :=
             "Entity appears to be a shell company: " +:+ Entity.name entity;
           Anomaly.evidence := ["Entity classification"; "Structure analysis"] |}]
  else [].

Definition incorporation_rule (current_time : datetime) (entity : Entity.t F)
    : list (Anomaly.t F) :=
  if recently_formed strptime current_time entity
  then [{| Anomaly.type := "new_entity";
           Anomaly.severity := lit 0.6;
           Anomaly.description := "Recently formed entity: " +:+ Entity.name entity;
           Anomaly.evidence :=
             ["Incorporation date: " +:+ default "" (Entity.incorporation_date entity)] |}]
  else [].

Definition entity_rules (current_time : datetime) (entity : Entity.t F)
    : list (Anomaly.t F) :=
  (jurisdiction_rule entity ++ shell_rule entity
   ++ incorporation_rule current_time entity)%list.
End GeneratorVocabulary.

(** *** The patterns of the classifier *)

Definition matches_any (patterns : list string) (entity_name : string) : bool :=
  any (fun pattern => re_search pattern (lower entity_name)) patterns.

(** [s.endswith(w)]. *)
Fixpoint ends_with (s w : string) : bool :=
  String.eqb s w ||
  match s with
  | EmptyString => false
  | String _ r => ends_with r w
  end.

Definition newline : string := String "010" EmptyString.

(** The text ends with the word, or with the word and a final newline. *)
Definition ends_with_word (s w : string) : bool :=
  ends_with s w || ends_with s (w +:+ newline).

Definition nonprofit_words : list string :=
  ["foundation"; "charity"; "ngo"; "non-profit"; "nonprofit";
   "association"; "society"; "trust"].

(** The atoms of a pattern of literal characters closed by [$]. *)
Definition literal_pattern (w : string) : list atom :=
  (map Lit (list_ascii_of_string w) ++ [Eos])%list.

(** A clause starts with a character, and not with the R that the fallback
    clause starts with. *)
Definition starts_unlike_fallback (s : string) : Prop :=
  exists c r, s = String c r /\ c <> "R"%char.

(** *** Example inputs *)

(** A sanctioned shell company in "ru" whose reputation is absent. *)
Definition sanctioned_shell_ru {F} (entity : Entity.t F) : Prop :=
  Entity.type entity = SHELL_COMPANY
  /\ Entity.sanctions_status entity = Some true
  /\ Entity.jurisdiction entity = Some "ru"
  /\ Entity.reputation_score entity = None.

Definition example_shell {F} `{PyFloat F} : Entity.t F :=
  {| Entity.name := "Volga Holdings";
     Entity.type := SHELL_COMPANY;
     Entity.confidence_score := lit 0.9;
     Entity.evidence_sources := ["Company Registry"];
     Entity.registration_number := None;
     Entity.jurisdiction := Some "ru";
     Entity.incorporation_date := None;
     Entity.directors := None;
     Entity.shareholders := None;
     Entity.sanctions_status := Some true;
     Entity.risk_factors := None;
     Entity.reputation_score := None |}.



(** An entity as the generator registers it: a jurisdiction and an
    incorporation date, the other optional fields absent. *)
Definition registered {F} `{PyFloat F} (name : string) (type : EntityType)
    (jurisdiction : string) (incorporation_date : string) : Entity.t F :=
  {| Entity.name := name;
     Entity.type := type;
     Entity.confidence_score := lit 0.9;
     Entity.evidence_sources := ["Company Registry"];
     Entity.registration_number := None;
     Entity.jurisdiction := Some jurisdiction;
     Entity.incorporation_date := Some incorporation_date;
     Entity.directors := None;
     Entity.shareholders := None;
     Entity.sanctions_status := Some false;
     Entity.risk_factors := None;
     Entity.reputation_score := Some (lit 0.5) |}.

(** A stand-in for the text of a float in a description. *)
Definition format_stub {F} (x : F) : string := "<amount>".

(** Noon of 2024-06-01, and the same day later in steps of a minute. *)
Definition noon : datetime := ordinal 2024 6 1 * us_per_day + 43200000000.

Definition acme_call (minute : Z) : Run.call float :=
  {| Run.now := noon + minute * 60000000;
     Run.amount := lit 1250.5;
     Run.currency := "USD";
     Run.entities := [Entity.init "Acme Corp" CORPORATION (lit 0.9) ["NLP Extraction"]] |}.

Definition six_calls : list (Run.call float) :=
  [acme_call 0; acme_call 1; acme_call 2; acme_call 3; acme_call 4; acme_call 5].

(** ** The rest of EntityExtractor (services/entity_extractor.py) *)

(** *** Character classes on ASCII text *)

(** [[A-Z]]. *)
Definition is_upper (c : ascii) : bool :=
  let n := nat_of_ascii c in ((65 <=? n)%nat && (n <=? 90)%nat)%bool.

(** [[a-z]]. *)
Definition is_lower (c : ascii) : bool :=
  let n := nat_of_ascii c in ((97 <=? n)%nat && (n <=? 122)%nat)%bool.

(** [char.isdigit()]. *)
Definition isdigit (c : ascii) : bool :=
  let n := nat_of_ascii c in ((48 <=? n)%nat && (n <=? 57)%nat)%bool.

(** [\s]: tab, line feed, vertical tab, form feed, carriage return, the
    four separators 28 to 31, and the space. *)
Definition is_space (c : ascii) : bool :=
  let n := nat_of_ascii c in
  (((9 <=? n)%nat && (n <=? 13)%nat) || ((28 <=? n)%nat && (n <=? 32)%nat))%bool.

(** [\w]: letters, digits and the underscore. *)
Definition is_word (c : ascii) : bool :=
  (is_upper c || is_lower c || isdigit c || Ascii.eqb c "_")%bool.

(** [[a-zA-Z\s]]. *)
Definition is_letter_or_space (c : ascii) : bool :=
  (is_lower c || is_upper c || is_space c)%bool.

(** [\b] between the character before the position, if any, and the rest of
    the text: exactly one side is a word character. *)
Definition word_boundary (prev : option ascii) (s : string) : bool :=
  xorb (from_option is_word false prev)
       (match s with String c _ => is_word c | EmptyString => false end).

(** *** The pattern of [_extract_entities_by_pattern]

    [\b[A-Z][a-zA-Z\s]+(?:p1|...|pn)\b] with the company suffixes for
    [p1 ... pn], matched as the backtracking matcher of [re] does: the
    repetition is greedy and gives characters back one at a time, the
    alternatives are tried in order, and [c?] is tried with the character
    first.  Each function returns the text that is left after the match. *)

(** The atoms of one alternative, then the closing [\b]. *)
Fixpoint match_suffix (p : list atom) (prev : option ascii) (s : string) : option string :=
  match p with
  | [] => if word_boundary prev s then Some s else None
  | Lit c :: p' =>
      match s with
      | String d s' => if Ascii.eqb c d then match_suffix p' (Some d) s' else None
      | EmptyString => None
      end
  | Opt c :: p' =>
      match s with
      | String d s' =>
          if Ascii.eqb c d
          then match match_suffix p' (Some d) s' with
               | Some r => Some r
               | None => match_suffix p' prev s
               end
          else match_suffix p' prev s
      | EmptyString => match_suffix p' prev s
      end
  | Eos :: p' => if at_end s then match_suffix p' prev s else None
  end.

(** [(?:p1|...|pn)\b]. *)
Fixpoint match_alternatives (ps : list (list atom)) (prev : option ascii) (s : string)
    : option string :=
  match ps with
  | [] => None
  | p :: ps' =>
      match match_suffix p prev s with
      | Some r => Some r
      | None => match_alternatives ps' prev s
      end
  end.

(** [[a-zA-Z\s]*(?:p1|...|pn)\b]: the longest run first. *)
Fixpoint match_letters (ps : list (list atom)) (prev : option ascii) (s : string)
    : option string :=
  match s with
  | String d s' =>
      if is_letter_or_space d
      then match match_letters ps (Some d) s' with
           | Some r => Some r
           | None => match_alternatives ps prev s
           end
      else match_alternatives ps prev s
  | EmptyString => match_alternatives ps prev s
  end.

(** The whole pattern at one position of the text. *)
Definition match_company (ps : list (list atom)) (prev : option ascii) (s : string)
    : option string :=
  if word_boundary prev s
  then match s with
       | String c (String d s') =>
           if (is_upper c && is_letter_or_space d)%bool
           then match_letters ps (Some d) s'
           else None
       | _ => None
       end
  else None.

(** The first [n] characters of a text. *)
Fixpoint take_string (n : nat) (s : string) : string :=
  match n, s with
  | S k, String c r => String c (take_string k r)
  | _, _ => EmptyString
  end.

(** [m.group() for m in re.finditer(pattern, text)]: the matches from left
    to right, each search starting where the previous match ended; [skip]
    counts the characters of the last match that are still to be passed.
    No match starts at the end of the text, since the pattern needs two
    characters at least. *)
Fixpoint finditer_from (ps : list (list atom)) (prev : option ascii) (s : string)
    (skip : nat) : list string :=
  match s with
  | EmptyString => []
  | String c s' =>
      match skip with
      | S k => finditer_from ps (Some c) s' k
      | O =>
          match match_company ps prev s with
          | Some r =>
              let m := take_string (String.length s - String.length r) s in
              m :: finditer_from ps (Some c) s' (String.length m - 1)
          | None => finditer_from ps (Some c) s' 0
          end
      end
  end.

Module Extractor.
Import EntityExtractor.

Section WithNumbers.
Context {F : Type} `{PyFloat F}.

(** [self.nlp(text).ents], each entity as its text and its label; the
    language model is a library. *)
Variable nlp_ents : string -> list (string * string).

Definition _calculate_confidence_score (entity_name : string) (entity_type : EntityType)
    : F :=
  let base_score := lit 0.5 in
  let base_score :=
    if decide (entity_type <> UNKNOWN) then base_score .+ lit 0.3 else base_score in
  let base_score :=
    if any is_upper (list_ascii_of_string entity_name)
    then base_score .+ lit 0.1 else base_score in
  let base_score :=
    if any isdigit (list_ascii_of_string entity_name)
    then base_score .+ lit 0.1 else base_score in
  py_min base_score (lit 1.0).

(** The alternatives of [company_pattern]: the company suffixes, in order. *)
Definition company_pattern : list (list atom) := map compile company_suffixes.

Definition _extract_entities_by_pattern (text : string) : list (Entity.t F) :=
  map (fun entity_name =>
         let entity_type := _classify_entity_type entity_name in
         let confidence_score := _calculate_confidence_score entity_name entity_type in
         Entity.init entity_name entity_type confidence_score ["Pattern Matching"])
      (finditer_from company_pattern None text 0).

Definition extract_entities (text : string) : list (Entity.t F) :=
  let entities :=
    map (fun ent : string * string =>
           let entity_type := _classify_entity_type ent.1 in
           let confidence_score := _calculate_confidence_score ent.1 entity_type in
           Entity.init ent.1 entity_type confidence_score ["NLP Extraction"])
        (filter (fun ent : string * string => ent.2 = "ORG") (nlp_ents text)) in
  (entities ++ _extract_entities_by_pattern text)%list.

End WithNumbers.
End Extractor.

(** The words that the patterns of the classifier accept before the end of
    the text: one word for a pattern of literal characters, two for a
    pattern with an optional character. *)
Fixpoint words_of (p : list atom) : list string :=
  match p with
  | [] => [""]
  | Lit c :: p' => map (String c) (words_of p')
  | Opt c :: p' => (map (String c) (words_of p') ++ words_of p')%list
  | Eos :: p' => words_of p'
  end.

Definition shell_words : list string :=
  ["holdings"; "investments"; "group"; "capital"; "partners";
   "management"; "consulting"; "advisory"].

Definition company_words : list string :=
  ["inc."; "inc"; "corp."; "corp"; "corporation"; "ltd."; "ltd"; "limited";
   "llc"; "gmbh"; "s.a."; "s.p.a."; "plc"].

(** The company suffixes that end with a letter. *)
Definition plain_company_words : list string :=
  ["inc"; "corp"; "corporation"; "ltd"; "limited"; "llc"; "gmbh"; "plc"].

(** The classifier as a list of suffix and substring tests. *)
Definition classify_by_words (entity_name : string) : EntityType :=
  let s := lower entity_name in
  if any (ends_with_word s) nonprofit_words then NON_PROFIT
  else if any (ends_with_word s) shell_words then SHELL_COMPANY
  else if any (ends_with_word s) company_words then CORPORATION
  else if any (contains s) ["government"; "ministry"; "department"; "agency"]
  then GOVERNMENT_AGENCY
  else if any (contains s) ["bank"; "financial"; "investment"; "fund"]
  then FINANCIAL_INTERMEDIARY
  else UNKNOWN.

(** ** The rest of FakeDataGenerator (services/fake_data_generator.py) *)

(** The library calls of the generator: [random], [Faker], [uuid] and
    [strftime].  [R] is the state of the random sources; every call that
    draws from them returns its value and the state after the draw.
    [random.choice] is only called on lists that are not empty, given here
    as the first item and the other items. *)
Class Library (R F : Type) := {
  random_random : R -> F * R;
  random_uniform : F -> F -> R -> F * R;
  random_randint : Z -> Z -> R -> Z * R;
  random_choice : forall A : Type, A -> list A -> R -> A * R;
  random_sample : forall A : Type, list A -> Z -> R -> list A * R;
  faker_name : R -> string * R;
  faker_company : R -> string * R;
  faker_last_name : R -> string * R;
  faker_word : R -> string * R;
  faker_bothify : string -> R -> string * R;
  faker_date_time_between : datetime -> datetime -> R -> datetime * R;
  uuid4_hex : R -> string * R;
  strftime : datetime -> string -> string;
  str_exception : exn -> string
}.
Arguments random_choice {R F _ A} x l g.
Arguments random_sample {R F _ A} population k g.

(** [[draw() for _ in range(n)]]. *)
Fixpoint repeat_draw {R A} (draw : R -> A * R) (n : nat) (g : R) : list A * R :=
  match n with
  | O => ([], g)
  | S k =>
      let '(x, g) := draw g in
      let '(l, g) := repeat_draw draw k g in
      (x :: l, g)
  end.

(** [str.upper] and [str.capitalize] on ASCII text. *)
Definition upper_ascii (c : ascii) : ascii :=
  let n := nat_of_ascii c in
  if ((97 <=? n)%nat && (n <=? 122)%nat)%bool then ascii_of_nat (n - 32) else c.

Fixpoint upper (s : string) : string :=
  match s with
  | EmptyString => EmptyString
  | String c r => String (upper_ascii c) (upper r)
  end.

Definition capitalize (s : string) : string :=
  match s with
  | EmptyString => EmptyString
  | String c r => String (upper_ascii c) (lower r)
  end.

(** [round(amount, -3)] on an [int]: the nearest multiple of 1000, a tie
    going to the even number of thousands. *)
Definition round_to_thousands (amount : Z) : Z :=
  let q := amount / 1000 in
  let r := amount mod 1000 in
  if ((500 <? r)%Z || ((r =? 500)%Z && Z.odd q))%bool then (q + 1) * 1000 else q * 1000.

Module FakeData.
Import FakeDataGenerator.

Definition _determine_entity_type (entity_name : string) : EntityType :=
  let entity_name_lower := lower entity_name in
  if any (fun word => contains entity_name_lower word)
         ["holdings"; "investments"; "group"; "capital"; "partners"]
  then SHELL_COMPANY
  else if any (fun word => contains entity_name_lower word)
              ["bank"; "financial"; "invest"; "capital"; "fund"]
  then FINANCIAL_INTERMEDIARY
  else if any (fun word => contains entity_name_lower word)
              ["government"; "ministry"; "agency"; "department"]
  then GOVERNMENT_AGENCY
  else if any (fun word => contains entity_name_lower word)
              ["foundation"; "charity"; "trust"; "association"]
  then NON_PROFIT
  else CORPORATION.

(** [list(self.country_risk.keys())]: the keys in insertion order. *)
Definition country_risk_keys : list string :=
  ["RU"; "CN"; "IR"; "KP"; "SY"; "VE"; "MM"; "ZW"; "US"; "GB"; "DE"; "FR"; "CA"].

(** The dictionary that [_generate_registration_data] returns. *)
Record registration_data := mk_registration_data {
  registration_number : string;
  jurisdiction : string;
  incorporation_date : string;
  directors : list string;
  shareholders : list string
}.

(** The dictionary that [generate_fake_transaction] returns; the amount is
    an [int]. *)
Record fake_transaction := mk_fake_transaction {
  transaction_id : string;
  transaction_data : string;
  amount : Z;
  currency : string;
  date : string
}.

(** The generator: the random sources and the cache [self.fake_entity_db]. *)
Record world (R F : Type) := mk_world {
  rng : R;
  fake_entity_db : gmap string (Entity.t F)
}.
Arguments mk_world {R F}.
Arguments rng {R F}.
Arguments fake_entity_db {R F}.

Section WithLibrary.
Context {R F : Type} `{PyFloat F} `{Library R F}.

Definition _generate_registration_data (current_time : datetime) (entity_name : string)
    (entity_type : EntityType) (g : R) : registration_data * R :=
  let '(country_code, g) :=
    random_choice "RU"
      ["CN"; "IR"; "KP"; "SY"; "VE"; "MM"; "ZW"; "US"; "GB"; "DE"; "FR"; "CA"] g in
  let '(country_code, g) :=
    if decide (entity_type = SHELL_COMPANY)
    then random_choice "RU" ["CN"; "IR"; "VE"; "MM"; "ZW"; "KP"; "SY"] g
    else (country_code, g) in
  let '(n, g) := random_randint 1 5 g in
  let '(directors, g) := repeat_draw faker_name (Z.to_nat n) g in
  let '(shareholders, g) :=
    if decide (entity_type = SHELL_COMPANY)
    then let '(n, g) := random_randint 0 2 g in repeat_draw faker_name (Z.to_nat n) g
    else let '(n, g) := random_randint 1 8 g in repeat_draw faker_name (Z.to_nat n) g in
  let '(years_ago, g) := random_randint 1 30 g in
  let incorporation_date :=
    strftime (current_time - timedelta_days (365 * years_ago)) "%Y-%m-%d" in
  let '(incorporation_date, g) :=
    if decide (entity_type = SHELL_COMPANY)
    then
      let '(r, g) := random_random g in
      if r .< lit 0.4
      then
        let '(d, g) := random_randint 30 180 g in
        (strftime (current_time - timedelta_days d) "%Y-%m-%d", g)
      else (incorporation_date, g)
    else (incorporation_date, g) in
  let '(digits, g) := faker_bothify "#######" g in
  ({| registration_number := country_code +:+ digits;
      jurisdiction := country_code;
      incorporation_date := incorporation_date;
      directors := directors;
      shareholders := shareholders |}, g).

Definition _determine_sanctions_status (entity_name : string) (entity_type : EntityType)
    (jurisdiction : string) (g : R) : bool * R :=
  let base_probability := lit 0.05 in
  let base_probability :=
    if decide (entity_type = SHELL_COMPANY)
    then base_probability .+ lit 0.1 else base_probability in
  let base_probability :=
    if bool_decide (jurisdiction ∈ ["RU"; "IR"; "KP"; "SY"])
    then base_probability .+ lit 0.2 else base_probability in
  let '(r, g) := random_random g in
  (r .< base_probability, g).

Definition all_sources : list string :=
  ["Company Registry"; "SEC EDGAR"; "LEI Database"; "Wikipedia"; "News Analysis";
   "Sanctions List"].

Definition _generate_evidence_sources (g : R) : list string * R :=
  let '(num_sources, g) := random_randint 1 (Z.of_nat (length all_sources)) g in
  random_sample all_sources num_sources g.

Definition _generate_risk_factors (entity_type : EntityType) (g : R) : gmap string F * R :=
  let risk_factors : gmap string F := ∅ in
  let '(risk_factors, g) :=
    if decide (entity_type = SHELL_COMPANY)
    then
      let '(x, g) := random_uniform (lit 0.6) (lit 0.9) g in
      let risk_factors := <["shell_structure" := x]> risk_factors in
      let '(y, g) := random_uniform (lit 0.5) (lit 0.8) g in
      (<["complex_ownership" := y]> risk_factors, g)
    else (risk_factors, g) in
  let '(risk_factors, g) :=
    if decide (entity_type = FINANCIAL_INTERMEDIARY)
    then
      let '(x, g) := random_uniform (lit 0.4) (lit 0.7) g in
      (<["high_volume" := x]> risk_factors, g)
    else (risk_factors, g) in
  let '(r, g) := random_random g in
  let '(risk_factors, g) :=
    if r .< lit 0.2
    then
      let '(x, g) := random_uniform (lit 0.3) (lit 0.7) g in
      (<["news_mention" := x]> risk_factors, g)
    else (risk_factors, g) in
  let '(r, g) := random_random g in
  let '(risk_factors, g) :=
    if r .< lit 0.1
    then
      let '(x, g) := random_uniform (lit 0.5) (lit 0.9) g in
      (<["regulatory_issue" := x]> risk_factors, g)
    else (risk_factors, g) in
  (risk_factors, g).

(** [base_range] of [_generate_reputation_score]. *)
Definition base_range (entity_type : EntityType) : F * F :=
  if decide (entity_type = SHELL_COMPANY) then (lit 0.2, lit 0.5)
  else if decide (entity_type = FINANCIAL_INTERMEDIARY) then (lit 0.3, lit 0.7)
  else if decide (entity_type = GOVERNMENT_AGENCY) then (lit 0.5, lit 0.8)
  else (lit 0.4, lit 0.9).

Definition _generate_reputation_score (entity_type : EntityType) (g : R) : F * R :=
  let base_range := base_range entity_type in
  random_uniform base_range.1 base_range.2 g.

Definition get_fake_entity_data (current_time : datetime) (entity_name : string)
    (w : world R F) : Entity.t F * world R F :=
  match fake_entity_db w !! entity_name with
  | Some entity => (entity, w)
  | None =>
      let g := rng w in
      let entity_type := _determine_entity_type entity_name in
      let '(registration_data, g) :=
        _generate_registration_data current_time entity_name entity_type g in
      let '(confidence_score, g) := random_uniform (lit 0.7) (lit 1.0) g in
      let '(evidence_sources, g) := _generate_evidence_sources g in
      let '(sanctions_status, g) :=
        _determine_sanctions_status entity_name entity_type
          (jurisdiction registration_data) g in
      let '(risk_factors, g) := _generate_risk_factors entity_type g in
      let '(reputation_score, g) := _generate_reputation_score entity_type g in
      let entity :=
        {| Entity.name := entity_name;
           Entity.type := entity_type;
           Entity.confidence_score := confidence_score;
           Entity.evidence_sources := evidence_sources;
           Entity.registration_number := Some (registration_number registration_data);
           Entity.jurisdiction := Some (jurisdiction registration_data);
           Entity.incorporation_date := Some (incorporation_date registration_data);
           Entity.directors := Some (directors registration_data);
           Entity.shareholders := Some (shareholders registration_data);
           Entity.sanctions_status := Some sanctions_status;
           Entity.risk_factors := Some risk_factors;
           Entity.reputation_score := Some reputation_score |} in
      (entity, {| rng := g; fake_entity_db := <[entity_name := entity]> (fake_entity_db w) |})
  end.

(** The five [name_patterns], in order. *)
Definition name_pattern_company (g : R) : string * R := faker_company g.

Definition name_pattern_suffix (g : R) : string * R :=
  let '(last_name, g) := faker_last_name g in
  let '(suffix, g) := random_choice "Inc" ["LLC"; "Corp"; "Group"] g in
  (last_name +:+ " " +:+ suffix, g).

Definition name_pattern_partners (g : R) : string * R :=
  let '(first, g) := faker_last_name g in
  let '(second, g) := faker_last_name g in
  let '(suffix, g) := random_choice "Associates" ["Partners"] g in
  (first +:+ " & " +:+ second +:+ " " +:+ suffix, g).

Definition name_pattern_holdings (g : R) : string * R :=
  let '(word, g) := faker_word g in
  let '(suffix, g) := random_choice "Holdings" ["Investments"; "Capital"; "Industries"] g in
  (capitalize word +:+ " " +:+ suffix, g).

Definition name_pattern_global (g : R) : string * R :=
  let '(prefix, g) := random_choice "Global" ["International"; "United"; "National"] g in
  let '(word, g) := faker_word g in
  let '(suffix, g) := random_choice "Corp" ["Inc"; "Co"; "Ltd"] g in
  (prefix +:+ " " +:+ capitalize word +:+ " " +:+ suffix, g).

Definition _generate_entity_name (g : R) : string * R :=
  let '(pattern, g) :=
    random_choice name_pattern_company
      [name_pattern_suffix; name_pattern_partners; name_pattern_holdings;
       name_pattern_global] g in
  pattern g.

(** The amount of [generate_fake_transaction] before it is rounded. *)
Definition draw_amount (g : R) : Z * R :=
  let '(normal, g) := random_randint 1000 50000 g in
  let '(medium, g) := random_randint 50000 200000 g in
  let '(large, g) := random_randint 500000 2000000 g in
  let '(weight, g) := random_randint 1000 50000 g in
  random_choice normal ([medium; large] ++ replicate 8 weight)%list g.

Definition generate_fake_transaction (current_time : datetime) (g : R)
    : fake_transaction * R :=
  let '(amount, g) := draw_amount g in
  let '(r, g) := random_random g in
  let amount := if r .< lit 0.2 then round_to_thousands amount else amount in
  let '(transaction_type, g) :=
    random_choice "Payment" ["Transfer"; "Invoice"; "Service fee"; "Consulting fee"] g in
  let '(sender, g) := _generate_entity_name g in
  let '(recipient, g) := _generate_entity_name g in
  let transaction_data := transaction_type +:+ " from " +:+ sender +:+ " to " +:+ recipient in
  let '(hex, g) := uuid4_hex g in
  let '(currency, g) := random_choice "USD" ["EUR"; "GBP"; "JPY"; "CHF"] g in
  let '(t, g) :=
    faker_date_time_between (current_time - timedelta_days 30) current_time g in
  ({| transaction_id := "TXN" +:+ upper (take_string 8 hex);
      transaction_data := transaction_data;
      amount := amount;
      currency := currency;
      date := strftime t "%Y-%m-%d" |}, g).

End WithLibrary.
End FakeData.

(** ** The endpoints (main.py) *)

(** [TransactionRequest]. *)
Module TransactionRequest.
Record t (F : Type) := mk {
  transaction_id : string;
  transaction_data : string;
  amount : F;
  currency : string;
  date : string
}.
Arguments mk {F}.
Arguments transaction_id {F}.
Arguments transaction_data {F}.
Arguments amount {F}.
Arguments currency {F}.
Arguments date {F}.
End TransactionRequest.

(** [AnalysisResult] (models/entity.py). *)
Module AnalysisResult.
Record t (F : Type) := mk {
  transaction_id : string;
  extracted_entity : list string;
  entity_type : list EntityType;
  risk_score : F;
  supporting_evidence : list string;
  confidence_score : F;
  reason : string
}.
Arguments mk {F}.
Arguments transaction_id {F}.
Arguments extracted_entity {F}.
Arguments entity_type {F}.
Arguments risk_score {F}.
Arguments supporting_evidence {F}.
Arguments confidence_score {F}.
Arguments reason {F}.
End AnalysisResult.

(** What an endpoint hands to the framework: a value, or an
    [HTTPException] with its status code and detail. *)
Inductive response (A : Type) :=
  | Respond (a : A)
  | HTTPException (status_code : Z) (detail : string).
Arguments Respond {A} a.
Arguments HTTPException {A} status_code detail.

Module Api.
Import FakeData.

Section WithLibrary.
Context {R F : Type} `{PyFloat F} `{Library R F}.
Variable format_float : F -> string.
Variable strptime : string -> string -> result datetime.
Variable nlp_ents : string -> list (string * string).

(** The loop that enriches the extracted entities with fake data. *)
Definition enrich (current_time : datetime) (entities : list (Entity.t F))
    (w : world R F) : list (Entity.t F) * world R F :=
  fold_left
    (fun (acc : list (Entity.t F) * world R F) entity =>
       let '(enriched_entities, w) := acc in
       let '(enriched_entity, w) :=
         get_fake_entity_data current_time (Entity.name entity) w in
       ((enriched_entities ++ [enriched_entity])%list, w))
    entities ([], w).

(** The loop that scores the enriched entities. *)
Definition score (request : TransactionRequest.t F)
    (anomalies : option (list (Anomaly.t F))) (enriched_entities : list (Entity.t F))
    : list (AnalysisResult.t F) :=
  fold_left
    (fun results entity =>
       let risk_score :=
         RiskScorer.calculate_risk_score entity anomalies
           (Some (TransactionRequest.amount request)) in
       let result :=
         {| AnalysisResult.transaction_id := TransactionRequest.transaction_id request;
            AnalysisResult.extracted_entity := [Entity.name entity];
            AnalysisResult.entity_type := [Entity.type entity];
            AnalysisResult.risk_score := risk_score;
            AnalysisResult.supporting_evidence := Entity.evidence_sources entity;
            AnalysisResult.confidence_score := Entity.confidence_score entity;
            AnalysisResult.reason :=
              RiskScorer.generate_risk_reason entity risk_score anomalies |} in
       (results ++ [result])%list)
    enriched_entities [].

(** [analyze_transaction]: the response, and the generator after the call.
    An exception raised in the body becomes an [HTTPException] with status
    500. *)
Definition analyze_transaction (current_time : datetime)
    (request : TransactionRequest.t F) (w : world R F)
    : response (list (AnalysisResult.t F)) * world R F :=
  let entities :=
    Extractor.extract_entities nlp_ents (TransactionRequest.transaction_data request) in
  let '(enriched_entities, w) := enrich current_time entities w in
  match
    FakeDataGenerator.generate_fake_anomalies format_float strptime current_time
      (TransactionRequest.amount request) enriched_entities
  with
  | Ok anomalies => (Respond (score request anomalies enriched_entities), w)
  | Raise e => (HTTPException 500 (str_exception e), w)
  end.

(** [get_entity_details]. *)
Definition get_entity_details (current_time : datetime) (entity_id : string)
    (w : world R F) : response (Entity.t F) * world R F :=
  let '(entity, w) := get_fake_entity_data current_time entity_id w in
  (Respond entity, w).

(** [get_entity_risk_score]: the dictionary with the keys "entity_id" and
    "risk_score". *)
Definition get_entity_risk_score (current_time : datetime) (entity_id : string)
    (w : world R F) : response (string * F) * world R F :=
  let '(entity, w) := get_fake_entity_data current_time entity_id w in
  let risk_score := RiskScorer.calculate_risk_score entity None None in
  (Respond (entity_id, risk_score), w).

(** The [TransactionRequest] built from the dictionary of a generated
    transaction: the integer amount becomes a float. *)
Definition request_of (transaction : fake_transaction) : TransactionRequest.t F :=
  {| TransactionRequest.transaction_id := transaction_id transaction;
     TransactionRequest.transaction_data := transaction_data transaction;
     TransactionRequest.amount := lit (inject_Z (amount transaction));
     TransactionRequest.currency := currency transaction;
     TransactionRequest.date := date transaction |}.

(** The loop [for _ in range(n)] of [batch_analyze]; an [HTTPException] of
    [analyze_transaction] ends the call. *)
Fixpoint batch_loop (n : nat) (current_time : datetime)
    (results : list (AnalysisResult.t F)) (w : world R F)
    : response (list (AnalysisResult.t F)) * world R F :=
  match n with
  | O => (Respond results, w)
  | S k =>
      let '(transaction, g) := generate_fake_transaction current_time (rng w) in
      let w := {| rng := g; fake_entity_db := fake_entity_db w |} in
      let request := request_of transaction in
      match analyze_transaction current_time request w with
      | (Respond transaction_results, w) =>
          batch_loop k current_time (results ++ transaction_results)%list w
      | (HTTPException status_code detail, w) => (HTTPException status_code detail, w)
      end
  end.

Definition batch_analyze (current_time : datetime) (w : world R F)
    : response (list (AnalysisResult.t F)) * world R F :=
  batch_loop 5 current_time [] w.

End WithLibrary.
End Api.

(** ** EntityEnricher (services/entity_enricher.py) *)

(** Truth value of an optional list: [None] and the empty list are false. *)
Definition truthy_list {A} (o : option (list A)) : bool :=
  match o with
  | Some (_ :: _) => true
  | _ => false
  end.

Module EntityEnricher.
Section WithNumbers.
Context {F : Type} `{PyFloat F}.

Definition _update_confidence_score (entity : Entity.t F) : F :=
  let base_score := Entity.confidence_score entity in
  let evidence_bonus := len (Entity.evidence_sources entity) .* lit 0.1 in
  let base_score := base_score .+ evidence_bonus in
  let base_score :=
    if truthy (Entity.registration_number entity)
    then base_score .+ lit 0.1 else base_score in
  let base_score :=
    if truthy (Entity.jurisdiction entity) then base_score .+ lit 0.1 else base_score in
  let base_score :=
    if truthy (Entity.incorporation_date entity)
    then base_score .+ lit 0.1 else base_score in
  let base_score :=
    if truthy_list (Entity.directors entity) then base_score .+ lit 0.1 else base_score in
  let base_score :=
    if truthy_list (Entity.shareholders entity)
    then base_score .+ lit 0.1 else base_score in
  py_min base_score (lit 1.0).

End WithNumbers.
End EntityEnricher.

(** ** Vocabulary of the further properties *)

(** *** Patterns and suffixes *)

(** The pattern is literal and optional characters closed by one [$]. *)
Fixpoint closed_by_eos (p : list atom) : bool :=
  match p with
  | [Eos] => true
  | Lit _ :: p' | Opt _ :: p' => closed_by_eos p'
  | _ => false
  end.

(** The last character of a word, or the character before it when the
    word is empty. *)
Fixpoint last_char (prev : option ascii) (w : string) : option ascii :=
  match w with
  | EmptyString => prev
  | String c r => last_char (Some c) r
  end.

(** Neither word is an ending of the other. *)
Definition incomparable (a b : string) : bool :=
  negb (ends_with a b) && negb (ends_with b a).

(** The words, and the words followed by a newline. *)
Definition with_newline (ws : list string) : list string :=
  (ws ++ map (fun x => x +:+ newline) ws)%list.

(** The shell indicators that the extractor and the generator share. *)
Definition common_shell_words : list string :=
  ["holdings"; "investments"; "group"; "capital"; "partners"].

(** *** The inputs of the score *)

(** Two entities agree on what the scorer reads: the type, the truth value
    of the sanctions status, the reputation score and the jurisdiction up
    to case. *)
Definition same_risk_inputs {F} (e1 e2 : Entity.t F) : Prop :=
  Entity.type e1 = Entity.type e2
  /\ default false (Entity.sanctions_status e1) = default false (Entity.sanctions_status e2)
  /\ Entity.reputation_score e1 = Entity.reputation_score e2
  /\ lower (default "" (Entity.jurisdiction e1)) = lower (default "" (Entity.jurisdiction e2)).

(** The entity with another reputation score. *)
Definition with_reputation {F} (r : option F) (e : Entity.t F) : Entity.t F :=
  {| Entity.name := Entity.name e;
     Entity.type := Entity.type e;
     Entity.confidence_score := Entity.confidence_score e;
     Entity.evidence_sources := Entity.evidence_sources e;
     Entity.registration_number := Entity.registration_number e;
     Entity.jurisdiction := Entity.jurisdiction e;
     Entity.incorporation_date := Entity.incorporation_date e;
     Entity.directors := Entity.directors e;
     Entity.shareholders := Entity.shareholders e;
     Entity.sanctions_status := Entity.sanctions_status e;
     Entity.risk_factors := Entity.risk_factors e;
     Entity.reputation_score := r |}.

(** The entity with another sanctions status. *)
Definition with_sanctions {F} (s : option bool) (e : Entity.t F) : Entity.t F :=
  {| Entity.name := Entity.name e;
     Entity.type := Entity.type e;
     Entity.confidence_score := Entity.confidence_score e;
     Entity.evidence_sources := Entity.evidence_sources e;
     Entity.registration_number := Entity.registration_number e;
     Entity.jurisdiction := Entity.jurisdiction e;
     Entity.incorporation_date := Entity.incorporation_date e;
     Entity.directors := Entity.directors e;
     Entity.shareholders := Entity.shareholders e;
     Entity.sanctions_status := s;
     Entity.risk_factors := Entity.risk_factors e;
     Entity.reputation_score := Entity.reputation_score e |}.

(** The number of tenths that [_update_confidence_score] adds. *)
Definition evidence_count {F} (entity : Entity.t F) : Z :=
  Z.of_nat (length (Entity.evidence_sources entity))
  + (if truthy (Entity.registration_number entity) then 1 else 0)
  + (if truthy (Entity.jurisdiction entity) then 1 else 0)
  + (if truthy (Entity.incorporation_date entity) then 1 else 0)
  + (if truthy_list (Entity.directors entity) then 1 else 0)
  + (if truthy_list (Entity.shareholders entity) then 1 else 0).

(** *** The history of the detector, continued *)

Section FurtherHistoryVocabulary.
Context {F : Type} `{PyFloat F}.
Import AnomalyDetector.

(** The time at which the entity was first seen; the current time for an
    entity without history. *)
Definition first_seen_at (current_time : datetime) (st : gmap string (history F))
    (name : string) : datetime :=
  from_option first_seen current_time (st !! name).

(** The amount recorded for the entity on day [d]; 0 when there is none. *)
Definition day_total (d : date) (st : gmap string (history F)) (name : string) : F :=
  default (int 0) (st !! name ≫= fun h => daily_amounts h !! d).

(** The anomaly that [detect_anomalies] appends for a new entity. *)
Definition new_entity_anomaly (name : string) : Anomaly.t F :=
  {| Anomaly.type := "new_entity";
     Anomaly.severity := lit 0.6;
     Anomaly.description := "New entity detected: " +:+ name;
     Anomaly.evidence := ["Entity is new to the system"] |}.

(** The totals after each amount of the list, counted from [acc]. *)
Fixpoint running_totals (acc : F) (amounts : list F) : list F :=
  match amounts with
  | [] => []
  | x :: l => (acc .+ x) :: running_totals (acc .+ x) l
  end.

(** The anomalies of [detect_anomalies] that depend on the amount alone. *)
Definition amount_flags (format_float : F -> string) (amount : F) (currency : string)
    : list (Anomaly.t F) :=
  ((if amount .> int thresholds.amount
    then [{| Anomaly.type := "large_transaction";
             Anomaly.severity := py_min (amount ./ int thresholds.amount) (lit 1.0);
             Anomaly.description :=
               "Large transaction amount: " +:+ format_float amount +:+ " " +:+ currency;
             Anomaly.evidence := ["Transaction amount exceeds threshold"] |}]
    else [])
   ++ (if _is_round_number amount
       then [{| Anomaly.type := "round_amount";
                Anomaly.severity := lit 0.7;
                Anomaly.description :=
                  "Round number transaction: " +:+ format_float amount +:+ " " +:+ currency;
                Anomaly.evidence := ["Transaction amount is a round number"] |}]
       else []))%list.

(** The two histories hold the same for every entity of the list. *)
Definition agree_on (entities : list (Entity.t F)) (st st' : gmap string (history F)) : Prop :=
  forall e, In e entities -> st !! Entity.name e = st' !! Entity.name e.
End FurtherHistoryVocabulary.

(** *** The generator and the endpoints *)

(** The amount factor of the anomaly risk, in exact arithmetic. *)
Definition amount_factor (amount : Q) : Q := py_min (amount ./ lit 1000000) (lit 1.0).

(** The library contracts of [random.uniform], [random.choice] and
    [random.randint]: the value lies in the given range or list. *)
Definition uniform_in_range {R} (L : Library R Q) : Prop :=
  forall a b g, (a <= b)%Q -> (a <= (random_uniform a b g).1 <= b)%Q.

Definition choice_in_list {R F} (L : Library R F) : Prop :=
  forall (A : Type) (x : A) (l : list A) (g : R), In (random_choice x l g).1 (x :: l).

Definition randint_in_range {R F} (L : Library R F) : Prop :=
  forall a b (g : R), a <= b -> a <= (random_randint a b g).1 <= b.

(** The jurisdictions that [_generate_registration_data] draws for a shell
    company. *)
Definition high_risk_codes : list string :=
  ["RU"; "CN"; "IR"; "VE"; "MM"; "ZW"; "KP"; "SY"].

(** The cache holds every entity under its own name. *)
Definition keyed_by_name {R F} (w : FakeData.world R F) : Prop :=
  forall n e, FakeData.fake_entity_db w !! n = Some e -> Entity.name e = n.

(** A sequence of requests for entity data, each with the time it is made
    at: the generator after the last one. *)
Definition get_all {R F} `{PyFloat F} `{Library R F} (requests : list (datetime * string))
    (w : FakeData.world R F) : FakeData.world R F :=
  fold_left (fun w request => (FakeData.get_fake_entity_data request.1 request.2 w).2)
            requests w.

(** What [get_fake_entity_data] makes for a name, in exact arithmetic: the
    type that the name determines, a sanctions status, a reputation score in
    the range of the type, a confidence between 0.7 and 1, a jurisdiction of
    [country_risk] that starts the registration number and is a high-risk
    one for a shell company, and directors and shareholders in the drawn
    numbers. *)
Definition generated (name : string) (e : Entity.t Q) : Prop :=
  Entity.name e = name
  /\ Entity.type e = FakeData._determine_entity_type name
  /\ is_Some (Entity.sanctions_status e)
  /\ (exists r, Entity.reputation_score e = Some r
                /\ ((FakeData.base_range (Entity.type e)).1 <= r
                    <= (FakeData.base_range (Entity.type e)).2)%Q)
  /\ (0.7 <= Entity.confidence_score e <= 1)%Q
  /\ (exists j digits,
         Entity.jurisdiction e = Some j
         /\ Entity.registration_number e = Some (j +:+ digits)
         /\ In j FakeData.country_risk_keys
         /\ (Entity.type e = SHELL_COMPANY -> In j high_risk_codes))
  /\ (exists d s,
         Entity.directors e = Some d /\ Entity.shareholders e = Some s
         /\ (1 <= length d <= 5)%nat
         /\ (if decide (Entity.type e = SHELL_COMPANY)
             then (length s <= 2)%nat else (1 <= length s <= 8)%nat)).

(** Every entity of the cache is one that the generator makes for its key. *)
Definition all_generated {R} (w : FakeData.world R Q) : Prop :=
  forall n e, FakeData.fake_entity_db w !! n = Some e -> generated n e.

(** The result that [analyze_transaction] builds for an entity when no
    anomalies are given. *)
Definition result_without_anomalies {F} `{PyFloat F} (transaction_id : string)
    (entity : Entity.t F) : AnalysisResult.t F :=
  {| AnalysisResult.transaction_id := transaction_id;
     AnalysisResult.extracted_entity := [Entity.name entity];
     AnalysisResult.entity_type := [Entity.type entity];
     AnalysisResult.risk_score := RiskScorer.calculate_risk_score entity None None;
     AnalysisResult.supporting_evidence := Entity.evidence_sources entity;
     AnalysisResult.confidence_score := Entity.confidence_score entity;
     AnalysisResult.reason :=
       RiskScorer.generate_risk_reason entity
         (RiskScorer.calculate_risk_score entity None None) None |}.

(** The score of a result lies between 0.15 and 0.69. *)
Definition score_in_range (r : AnalysisResult.t Q) : Prop :=
  (0.15 <= AnalysisResult.risk_score r <= 0.69)%Q.

(** *** Example inputs, continued *)

(** A library whose draws always return the lower end of the range or the
    first item of the list; its state counts the draws. *)
Definition first_choice_library {F} `{PyFloat F} : Library nat F := {|
  random_random g := (lit 0.5, S g);
  random_uniform a b g := (a, S g);
  random_randint a b g := (a, S g);
  random_choice A x l g := (x, S g);
  random_sample A population k g := (take (Z.to_nat k) population, S g);
  faker_name g := ("Ana Ito", S g);
  faker_company g := ("Ito Group", S g);
  faker_last_name g := ("Ito", S g);
  faker_word g := ("river", S g);
  faker_bothify text g := ("1234567", S g);
  faker_date_time_between start finish g := (start, S g);
  uuid4_hex g := ("0123456789abcdef0123456789abcdef", S g);
  strftime t format := "2001-05-17";
  str_exception e := "error"
|}.

(** A language model that finds one organisation and one place in every
    text. *)
Definition one_organisation (text : string) : list (string * string) :=
  [("Nova Holdings", "ORG"); ("Lisbon", "GPE")].

(** A generator that has not been asked for anything yet. *)
Definition new_world {F} : FakeData.world nat F :=
  {| FakeData.rng := 0%nat; FakeData.fake_entity_db := ∅ |}.

Definition payment_request {F} `{PyFloat F} (amount : F) : TransactionRequest.t F :=
  {| TransactionRequest.transaction_id := "TXN0001";
     TransactionRequest.transaction_data := "Payment from Nova Holdings to Lisbon";
     TransactionRequest.amount := amount;
     TransactionRequest.currency := "USD";
     TransactionRequest.date := "2024-06-01" |}.

(** Two calls of 60000.5 for "Acme Corp" at noon and a minute later. *)
Definition velocity_call (minute : Z) : Run.call float :=
  {| Run.now := noon + minute * 60000000;
     Run.amount := lit 60000.5;
     Run.currency := "USD";
     Run.entities := [Entity.init "Acme Corp" CORPORATION (lit 0.9) ["NLP Extraction"]] |}.

Definition velocity_calls : list (Run.call float) := [velocity_call 0; velocity_call 1].

(** * Properties *)

(** ** Numbers *)


Local Open Scope list_scope.

(** *** Comparison of doubles *)








(** *** Exact arithmetic *)

Lemma Q_ltb_true (x y : Q) : Q_ltb x y = true <-> (x < y)%Q.
Proof.
  unfold Q_ltb. rewrite negb_true_iff, <- not_true_iff_false, Qle_bool_iff.
  split; [apply Qnot_le_lt | apply Qlt_not_le].
Qed.

Lemma Q_ltb_false (x y : Q) : Q_ltb x y = false <-> (y <= x)%Q.
Proof. unfold Q_ltb. rewrite negb_false_iff, Qle_bool_iff. reflexivity. Qed.

Ltac case_Q_ltb :=
  match goal with
  | |- context [Q_ltb ?x ?y] =>
      let E := fresh "E" in
      destruct (Q_ltb x y) eqn:E;
      [apply Q_ltb_true in E | apply Q_ltb_false in E]
  end.


Lemma Q_clamp_id (t : Q) : (0 <= t <= 1)%Q -> py_min (py_max t (lit 0.0)) (lit 1.0) = t.
Proof.
  intros Ht. unfold py_max; simpl. case_Q_ltb; unfold py_min; simpl; try case_Q_ltb;
    try reflexivity; exfalso; lra.
Qed.

Lemma Q_sum_acc (l : list Q) (acc : Q) : (fold_left Qplus l acc == acc + Q_sum l)%Q.
Proof.
  unfold Q_sum. revert acc. induction l as [|x l IH]; intros acc; simpl.
  - lra.
  - rewrite (IH (acc + x)%Q), (IH (0 + x)%Q). lra.
Qed.

Lemma Q_sum_cons (x : Q) (l : list Q) : (Q_sum (x :: l) == x + Q_sum l)%Q.
Proof. unfold Q_sum at 1. simpl. rewrite Q_sum_acc. lra. Qed.



(** ** RiskScorer *)

Section ScoreBounds.
Import RiskScorer.



Lemma Q_geographic_risk_bounds (jurisdiction : option string) :
  (0 <= _calculate_geographic_risk (F:=Q) jurisdiction <= 0.9)%Q.
Proof.
  unfold _calculate_geographic_risk.
  destruct (truthy jurisdiction); [|simpl; lra].
  destruct (high_risk_jurisdictions !! _) as [w|] eqn:E; [|simpl; lra].
  apply elem_of_list_to_map_2 in E. simpl.
  repeat (apply elem_of_cons in E as [E|E]; [injection E as _ ->; lra|]).
  apply elem_of_nil in E. destruct E.
Qed.





(** C2 (as amended).  A sanctioned shell company in "ru" without reputation
    score and without anomalies scores the weighted sum
    0.30*0.8 + 0.25*0.8 + 0.20*0.5 + 0.15*0.0 + 0.10*0.8, which is 0.62 in
    exact arithmetic.  On doubles the score is the double nearest to 0.62
    when [sum] compensates (CPython 3.12 and later), and the next double
    above it, 0.6200000000000001, when [sum] adds from left to right. *)
Theorem sanctioned_shell_ru_score
    (entity_q : Entity.t Q) (amount_q : option Q)
    (entity_f : Entity.t float) (amount_f : option float) :
  sanctioned_shell_ru entity_q -> sanctioned_shell_ru entity_f ->
  (calculate_risk_score entity_q None amount_q
   == 0.30 * 0.8 + 0.25 * 0.8 + 0.20 * 0.5 + 0.15 * 0.0 + 0.10 * 0.8)%Q
  /\ (calculate_risk_score entity_q None amount_q == 0.62)%Q
  /\ calculate_risk_score entity_f None amount_f = 0.62%float
  /\ @calculate_risk_score float PyFloat_float_ltr entity_f None amount_f
     = 0.62000000000000011%float.
Proof.
  intros (Hty & Hsa & Hju & Hre) (Hty' & Hsa' & Hju' & Hre').
  unfold calculate_risk_score, total_risk, risk_scores, factors; cbn [map].
  rewrite Hty, Hsa, Hju, Hre, Hty', Hsa', Hju', Hre'.
  split; [|split; [|split]]; vm_compute; reflexivity.
Qed.

Lemma sanctioned_shell_ru_score_witness :
  (calculate_risk_score (F:=Q) example_shell None None == 0.62)%Q
  /\ calculate_risk_score (F:=float) example_shell None None = 0.62%float
  /\ @calculate_risk_score float PyFloat_float_ltr example_shell None None
     = 0.62000000000000011%float.
Proof.
  apply (sanctioned_shell_ru_score example_shell None example_shell None);
    repeat split; reflexivity.
Defined.

(** C2, the claim as stated fails on doubles: the sum of the claim, added
    as written, is 0.6200000000000001 and not 0.62.  The score is that
    double when [sum] adds from left to right, and it is 0.62, hence not the
    sum as written, when [sum] compensates: the two equations of the claim
    never hold together. *)
Lemma sanctioned_shell_ru_score_last_bit :
  (0.30 * 0.8 + 0.25 * 0.8 + 0.20 * 0.5 + 0.15 * 0.0 + 0.10 * 0.8)%float
  = 0.62000000000000011%float
  /\ PrimFloat.eqb 0.62000000000000011 0.62 = false
  /\ @calculate_risk_score float PyFloat_float_ltr example_shell None None
     = 0.62000000000000011%float
  /\ @calculate_risk_score float PyFloat_float example_shell None None = 0.62%float.
Proof. vm_compute. repeat split. Qed.
End ScoreBounds.

Section Reputation.
Import RiskScorer.

(** C10.  An entity built without a reputation score holds the default
    0.0, not an absent score, and so gets the reputation risk 1.0, the
    largest a score of the stated range can give; the neutral 0.5 is the
    risk of an absent (None) score only, any given score [r] gives
    [1.0 - r]. *)
Theorem default_reputation_is_maximum_risk :
  (forall (F : Type) (PF : PyFloat F) name type confidence_score evidence_sources,
      Entity.reputation_score
        (Entity.init (F:=F) name type confidence_score evidence_sources)
      = Some (lit 0.0))
  /\ (forall name type confidence_score evidence_sources anomalies transaction_amount,
         (risk_scores (Entity.init (F:=Q) name type confidence_score evidence_sources)
                      anomalies transaction_amount reputation == 1)%Q)
  /\ (forall name type confidence_score evidence_sources anomalies transaction_amount,
         risk_scores (Entity.init (F:=float) name type confidence_score evidence_sources)
                     anomalies transaction_amount reputation = 1%float)
  /\ (forall (F : Type) (PF : PyFloat F) (entity : Entity.t F) anomalies
             transaction_amount,
         risk_scores entity anomalies transaction_amount reputation
         = match Entity.reputation_score entity with
           | Some r => lit 1.0 .- r
           | None => lit 0.5
           end)
  /\ (forall (entity : Entity.t Q) anomalies transaction_amount,
         in_stated_ranges entity anomalies transaction_amount ->
         (risk_scores entity anomalies transaction_amount reputation <= 1)%Q).
Proof.
  split; [|split; [|split; [|split]]].
  - reflexivity.
  - intros. vm_compute. reflexivity.
  - intros. vm_compute. reflexivity.
  - reflexivity.
  - intros entity anomalies transaction_amount (Hrep & _). unfold risk_scores.
    destruct (Entity.reputation_score entity) as [r|]; simpl; [|lra].
    specialize (Hrep r eq_refl). lra.
Qed.

Lemma default_reputation_is_maximum_risk_witness :
  (risk_scores (Entity.init (F:=Q) "Acme Corp" CORPORATION 0.9%Q [])
               None None reputation <= 1)%Q.
Proof.
  apply (proj2 (proj2 (proj2 (proj2 default_reputation_is_maximum_risk)))).
  split; [|split].
  - intros r [= <-]. vm_compute. split; discriminate.
  - intros l a [=].
  - intros x [=].
Defined.
End Reputation.

Section Reason.
Context {F : Type} `{PyFloat F}.
Import RiskScorer.

Lemma fold_append {A} (f : A -> string) (l : list A) (reasons : list string) :
  fold_left (fun reasons a => append reasons (f a)) l reasons = reasons ++ map f l.
Proof.
  revert reasons. induction l as [|a l IH]; intros reasons; simpl.
  - rewrite app_nil_r. reflexivity.
  - rewrite IH. unfold append. rewrite <- app_assoc. reflexivity.
Qed.

Lemma empty_not_high_risk : high_risk_jurisdictions (F:=F) !! "" = None.
Proof. reflexivity. Qed.

(** The list that [generate_risk_reason] joins. *)
Lemma generate_risk_reason_clauses (entity : Entity.t F) (risk_score : F)
    (anomalies : option (list (Anomaly.t F))) :
  generate_risk_reason entity risk_score anomalies
  = join " | " (match clauses entity anomalies with
                | [] => [fallback_clause]
                | reasons => reasons
                end).
Proof.
  unfold generate_risk_reason, clauses.
  set (r1 := if decide (Entity.type entity = SHELL_COMPANY) then _ else _).
  assert (E1 : r1 = type_clause entity).
  { unfold r1, type_clause. destruct (Entity.type entity); reflexivity. }
  set (r2 := if default false (Entity.sanctions_status entity) then _ else _).
  assert (E2 : r2 = r1 ++ sanctions_clause entity).
  { unfold r2, sanctions_clause.
    destruct (Entity.sanctions_status entity) as [[]|]; simpl;
      rewrite ?app_nil_r; reflexivity. }
  set (r3 := match Entity.reputation_score entity with Some _ => _ | None => _ end).
  assert (E3 : r3 = r2 ++ reputation_clause entity).
  { unfold r3, reputation_clause.
    destruct (Entity.reputation_score entity) as [r|]; [destruct (r .< lit 0.3)|];
      rewrite ?app_nil_r; reflexivity. }
  set (r4 := match anomalies with Some _ => _ | None => _ end).
  assert (E4 : r4 = r3 ++ anomaly_clauses anomalies).
  { unfold r4, anomaly_clauses. destruct anomalies as [l|]; simpl.
    - apply fold_append.
    - rewrite app_nil_r. reflexivity. }
  set (r5 := if truthy (Entity.jurisdiction entity) && _ then _ else _).
  assert (E5 : r5 = r4 ++ jurisdiction_clause entity).
  { unfold r5, jurisdiction_clause.
    destruct (Entity.jurisdiction entity) as [[|c j]|]; simpl.
    - rewrite empty_not_high_risk.
      rewrite bool_decide_eq_false_2 by (intros [? ?]; discriminate).
      rewrite app_nil_r. reflexivity.
    - destruct (bool_decide _); rewrite ?app_nil_r; reflexivity.
    - rewrite app_nil_r. reflexivity. }
  rewrite E5, E4, E3, E2, E1, <- !app_assoc.
  clear. set (c := type_clause entity ++ _). destruct c; reflexivity.
Qed.

Lemma join_head (sep x : string) (l : list string) :
  starts_unlike_fallback x -> starts_unlike_fallback (join sep (x :: l)).
Proof.
  intros (c & r & -> & Hc). destruct l; simpl; eexists _, _; split; eauto.
Qed.

Lemma clauses_head (entity : Entity.t F) (anomalies : option (list (Anomaly.t F))) :
  Forall starts_unlike_fallback (clauses entity anomalies).
Proof.
  assert (Hlit : forall c r, c <> "R"%char -> Forall starts_unlike_fallback [String c r])
    by (intros c r Hc; repeat constructor; eexists _, _; eauto).
  unfold clauses. repeat apply Forall_app_2.
  - unfold type_clause.
    destruct (Entity.type entity); first [apply Hlit; discriminate | constructor].
  - unfold sanctions_clause.
    destruct (Entity.sanctions_status entity) as [[]|];
      first [apply Hlit; discriminate | constructor].
  - unfold reputation_clause.
    destruct (Entity.reputation_score entity) as [r|]; [destruct (r .< lit 0.3)|];
      first [apply Hlit; discriminate | constructor].
  - unfold anomaly_clauses. apply Forall_map, Forall_forall. intros a _.
    eexists _, _; split; [reflexivity | discriminate].
  - unfold jurisdiction_clause.
    destruct (Entity.jurisdiction entity) as [j|]; [destruct (bool_decide _)|];
      first [apply Hlit; discriminate | constructor].
Qed.

(** C8.  [generate_risk_reason] is a total function whose result is never
    the empty string; it is the clauses for entity type, sanctions,
    reputation, each anomaly in the given order, and jurisdiction, in this
    order and joined by " | "; and it is the fallback clause alone exactly
    when no clause applies. *)
Theorem generate_risk_reason_spec (entity : Entity.t F) (risk_score : F)
    (anomalies : option (list (Anomaly.t F))) :
  generate_risk_reason entity risk_score anomalies <> ""
  /\ generate_risk_reason entity risk_score anomalies
     = join " | " (match clauses entity anomalies with
                   | [] => [fallback_clause]
                   | reasons => reasons
                   end)
  /\ (clauses entity anomalies = [] <->
      generate_risk_reason entity risk_score anomalies = fallback_clause).
Proof.
  pose proof (generate_risk_reason_clauses entity risk_score anomalies) as E.
  pose proof (clauses_head entity anomalies) as Hhd.
  split; [|split; [exact E|]]; rewrite E; destruct (clauses entity anomalies) as [|x l].
  - discriminate.
  - inversion Hhd as [|? ? Hx _]; subst.
    destruct (join_head " | " x l Hx) as (c & r & -> & _). discriminate.
  - split; reflexivity.
  - inversion Hhd as [|? ? Hx _]; subst.
    destruct (join_head " | " x l Hx) as (c & r & -> & Hc).
    split; [discriminate|]. intros [= -> _]. congruence.
Qed.
End Reason.

(** ** EntityExtractor *)

Section Classifier.
Import EntityExtractor.

Lemma match_here_literal (w s : string) :
  match_here (literal_pattern w) s = String.eqb s w || String.eqb s (w +:+ newline).
Proof.
  unfold literal_pattern. revert s. induction w as [|c w IH]; intros s.
  - simpl. destruct s as [|d [|e s]]; simpl; try reflexivity.
    destruct (Ascii.eqb d "010"); reflexivity.
  - destruct s as [|d s]; simpl; [reflexivity|].
    rewrite IH, (Ascii.eqb_sym c d).
    destruct (Ascii.eqb d c); reflexivity.
Qed.

(** A pattern of literal characters closed by [$] is found in a text
    exactly when the text ends with the characters, up to a final newline. *)
Lemma search_literal (w s : string) :
  search_atoms (literal_pattern w) s = ends_with_word s w.
Proof.
  unfold ends_with_word. induction s as [|d s IH].
  - cbn [search_atoms ends_with]. rewrite match_here_literal, !orb_false_r. reflexivity.
  - cbn [search_atoms ends_with]. rewrite IH, match_here_literal.
    destruct (String d s =? w)%string, (String d s =? w +:+ newline)%string,
      (ends_with s w), (ends_with s (w +:+ newline)); reflexivity.
Qed.

Lemma nonprofit_patterns_literal :
  map compile nonprofit_indicators = map literal_pattern nonprofit_words.
Proof. reflexivity. Qed.

Lemma matches_any_nonprofit (entity_name : string) :
  matches_any nonprofit_indicators entity_name
  = any (ends_with_word (lower entity_name)) nonprofit_words.
Proof.
  unfold matches_any, any, re_search.
  transitivity (existsb (fun p => search_atoms p (lower entity_name))
                        (map compile nonprofit_indicators)).
  - generalize nonprofit_indicators. intros l.
    induction l as [|p l IH]; simpl; [reflexivity|]. rewrite IH. reflexivity.
  - rewrite nonprofit_patterns_literal. generalize nonprofit_words. intros l.
    induction l as [|p l IH]; simpl; [reflexivity|].
    rewrite IH, search_literal. reflexivity.
Qed.

(** C3, the claim as stated fails: "Example Foundation Inc" ends with
    "inc", no non-profit pattern matches it, and it is classified as a
    corporation. *)
Lemma classify_foundation_inc :
  _classify_entity_type "Example Foundation Inc" = CORPORATION
  /\ CORPORATION <> NON_PROFIT.
Proof. split; [vm_compute; reflexivity | discriminate]. Qed.

(** C3 (as amended).  The non-profit indicators are checked first and
    decide alone: a name is classified NON_PROFIT exactly when its
    lower-cased text ends with one of the eight non-profit words, whatever
    else it contains.  The indicators are anchored at the end of the name,
    so "Example Foundation Inc" is a corporation, while "Example Inc
    Foundation" and "First Bank Foundation" are non-profits. *)
Theorem classify_nonprofit_first :
  (forall entity_name,
      _classify_entity_type entity_name = NON_PROFIT
      <-> any (ends_with_word (lower entity_name)) nonprofit_words = true)
  /\ any (ends_with_word (lower "Example Foundation Inc")) nonprofit_words = false
  /\ _classify_entity_type "Example Foundation Inc" = CORPORATION
  /\ _classify_entity_type "Example Inc Foundation" = NON_PROFIT
  /\ _classify_entity_type "First Bank Foundation" = NON_PROFIT.
Proof.
  split; [|repeat split; vm_compute; reflexivity].
  intros entity_name. rewrite <- matches_any_nonprofit.
  unfold matches_any, _classify_entity_type.
  destruct (any _ nonprofit_indicators); [split; reflexivity|].
  split; [|discriminate].
  repeat match goal with |- context [if ?b then _ else _] => destruct b end; discriminate.
Qed.
End Classifier.

(** ** AnomalyDetector *)

Section Detector.
Context {F : Type} `{PyFloat F}.
Variable format_float : F -> string.
Import AnomalyDetector.

Abbreviation state := (gmap string (history F)).

Lemma update_lookup (current_time : datetime) (name : string) (amount : F)
    (currency : string) (st : state) :
  _update_transaction_history current_time name amount currency st !! name
  = Some (updated_history current_time amount currency
            (default (fresh_history current_time) (st !! name))).
Proof.
  unfold _update_transaction_history, _cleanup_transaction_history.
  rewrite !lookup_alter_eq.
  destruct (st !! name) as [h|] eqn:E; [rewrite E | rewrite lookup_insert_eq]; simpl;
    unfold updated_history; simpl.
  - destruct (daily_amounts h !! date_of current_time); reflexivity.
  - rewrite lookup_empty. reflexivity.
Qed.

(** An update leaves the histories of the other entities alone. *)
Lemma update_lookup_ne (current_time : datetime) (name other : string) (amount : F)
    (currency : string) (st : state) :
  name <> other ->
  _update_transaction_history current_time name amount currency st !! other = st !! other.
Proof.
  intros Hne. unfold _update_transaction_history, _cleanup_transaction_history.
  rewrite !lookup_alter_ne by exact Hne.
  destruct (st !! name); [reflexivity | apply lookup_insert_ne, Hne].
Qed.

Lemma updated_within_window (current_time : datetime) (amount : F) (currency : string)
    (h : history F) :
  within_window current_time (updated_history current_time amount currency h).
Proof.
  split; simpl.
  - apply Forall_forall. intros t Ht. apply list_elem_of_filter in Ht. apply Ht.
  - intros d v Hd. apply map_lookup_filter_Some in Hd. apply Hd.
Qed.

Lemma detect_entity_eq (current_time : datetime) (amount : F) (currency : string)
    (anomalies : list (Anomaly.t F)) (st : state) (entity : Entity.t F) :
  detect_entity current_time amount currency (anomalies, st) entity
  = (anomalies
     ++ entity_flags current_time (Entity.name entity)
          (_update_transaction_history current_time (Entity.name entity) amount currency st),
     _update_transaction_history current_time (Entity.name entity) amount currency st).
Proof.
  unfold detect_entity, entity_flags, append. cbv zeta.
  destruct (_check_transaction_frequency _ _ _), (_check_transaction_velocity _ _ _),
    (_is_new_entity _ _ _); simpl; rewrite <- ?app_assoc, ?app_nil_r; reflexivity.
Qed.

Lemma has_type_app (ty : string) (l1 l2 : list (Anomaly.t F)) :
  has_type ty (l1 ++ l2) = has_type ty l1 || has_type ty l2.
Proof. apply existsb_app. Qed.

Lemma entity_flags_high_frequency (current_time : datetime) (name : string) (st : state) :
  has_type "high_frequency" (entity_flags current_time name st)
  = _check_transaction_frequency current_time name st.
Proof.
  unfold entity_flags.
  destruct (_check_transaction_frequency _ _ _), (_check_transaction_velocity _ _ _),
    (_is_new_entity _ _ _); reflexivity.
Qed.

Lemma entity_flags_round_amount (current_time : datetime) (name : string) (st : state) :
  has_type "round_amount" (entity_flags current_time name st) = false.
Proof.
  unfold entity_flags.
  destruct (_check_transaction_frequency _ _ _), (_check_transaction_velocity _ _ _),
    (_is_new_entity _ _ _); reflexivity.
Qed.

Lemma entity_flags_severity (current_time : datetime) (name : string) (st : state) :
  Forall fixed_severity (entity_flags current_time name st).
Proof.
  unfold entity_flags.
  destruct (_check_transaction_frequency _ _ _), (_check_transaction_velocity _ _ _),
    (_is_new_entity _ _ _); repeat constructor; simpl; intros; congruence.
Qed.

(** The loop of [detect_anomalies] over the entities adds no round_amount
    anomaly. *)
Lemma detect_loop_round_amount (current_time : datetime) (amount : F) (currency : string)
    (entities : list (Entity.t F)) (anomalies : list (Anomaly.t F)) (st : state) :
  has_type "round_amount"
    (fold_left (detect_entity current_time amount currency) entities (anomalies, st)).1
  = has_type "round_amount" anomalies.
Proof.
  revert anomalies st. induction entities as [|e es IH]; intros anomalies st;
    cbn [fold_left].
  - reflexivity.
  - rewrite detect_entity_eq, IH, has_type_app, entity_flags_round_amount.
    apply orb_false_r.
Qed.

Lemma detect_loop_severity (current_time : datetime) (amount : F) (currency : string)
    (entities : list (Entity.t F)) (anomalies : list (Anomaly.t F)) (st : state) :
  Forall fixed_severity anomalies ->
  Forall fixed_severity
    (fold_left (detect_entity current_time amount currency) entities (anomalies, st)).1.
Proof.
  revert anomalies st. induction entities as [|e es IH]; intros anomalies st Ha;
    cbn [fold_left].
  - exact Ha.
  - rewrite detect_entity_eq. apply IH, Forall_app_2; [exact Ha|].
    apply entity_flags_severity.
Qed.

Lemma detect_anomalies_severity (current_time : datetime) (amount : F) (currency : string)
    (entities : list (Entity.t F)) (st : state) :
  Forall fixed_severity
    (detect_anomalies format_float current_time amount currency entities st).1.
Proof.
  unfold detect_anomalies. apply detect_loop_severity. unfold append.
  destruct (amount .> int thresholds.amount), (_is_round_number amount);
    repeat constructor; simpl; intros; congruence.
Qed.

Lemma detect_anomalies_round_amount (current_time : datetime) (amount : F)
    (currency : string) (entities : list (Entity.t F)) (st : state) :
  has_type "round_amount"
    (detect_anomalies format_float current_time amount currency entities st).1
  = _is_round_number amount.
Proof.
  unfold detect_anomalies. rewrite detect_loop_round_amount. unfold append.
  destruct (amount .> int thresholds.amount), (_is_round_number amount); reflexivity.
Qed.

(** *** The window of the history *)

Lemma detect_loop_window (current_time : datetime) (amount : F) (currency : string)
    (entities : list (Entity.t F)) (anomalies : list (Anomaly.t F)) (st : state)
    (name : string) :
  (exists h, st !! name = Some h /\ within_window current_time h) ->
  exists h,
    (fold_left (detect_entity current_time amount currency) entities (anomalies, st)).2
      !! name = Some h
    /\ within_window current_time h.
Proof.
  revert anomalies st. induction entities as [|e es IH]; intros anomalies st Hst;
    cbn [fold_left]; [exact Hst|].
  rewrite detect_entity_eq. apply IH.
  destruct (decide (Entity.name e = name)) as [<-|Hne].
  - rewrite update_lookup. eexists; split; [reflexivity|apply updated_within_window].
  - rewrite update_lookup_ne by exact Hne. exact Hst.
Qed.

Lemma detect_loop_entities_window (current_time : datetime) (amount : F)
    (currency : string) (entities : list (Entity.t F)) (anomalies : list (Anomaly.t F))
    (st : state) :
  Forall
    (fun e =>
       exists h,
         (fold_left (detect_entity current_time amount currency) entities (anomalies, st)).2
           !! Entity.name e = Some h
         /\ within_window current_time h)
    entities.
Proof.
  revert anomalies st. induction entities as [|e es IH]; intros anomalies st;
    cbn [fold_left]; constructor.
  - rewrite detect_entity_eq. apply detect_loop_window.
    rewrite update_lookup. eexists; split; [reflexivity|apply updated_within_window].
  - apply IH.
Qed.

(** C9.  After every update of the history of an entity, by
    [_update_transaction_history] alone or during [detect_anomalies], the
    stored transactions of that entity are all newer than 30 days before
    the current time, and the dates of its per-day amounts all lie after
    the date of that cutoff. *)
Theorem history_pruned_after_update (current_time : datetime) (amount : F)
    (currency : string) :
  (forall (entity_name : string) (st : state),
      exists h,
        _update_transaction_history current_time entity_name amount currency st
          !! entity_name = Some h
        /\ within_window current_time h)
  /\ (forall (entities : list (Entity.t F)) (st : state),
         Forall
           (fun e =>
              exists h,
                (detect_anomalies format_float current_time amount currency entities st).2
                  !! Entity.name e = Some h
                /\ within_window current_time h)
           entities).
Proof.
  split.
  - intros entity_name st. rewrite update_lookup.
    eexists; split; [reflexivity|apply updated_within_window].
  - intros entities st. apply detect_loop_entities_window.
Qed.

(** *** Frequency *)

(** A time of the current day is less than 30 days old. *)
Lemma same_date_recent (t current_time : datetime) :
  date_of t = date_of current_time -> current_time - timedelta_days 30 < t.
Proof.
  unfold date_of, timedelta_days, us_per_day. intros E.
  pose proof (Z.mul_div_le t 86400000000 ltac:(lia)).
  pose proof (Z.mul_succ_div_gt current_time 86400000000 ltac:(lia)).
  lia.
Qed.

Lemma filter_all {A} (P : A -> Prop) `{!forall x, Decision (P x)} (l : list A) :
  Forall P l -> filter P l = l.
Proof.
  induction 1 as [|x l Hx _ IH]; [reflexivity|].
  rewrite filter_cons_True by exact Hx. rewrite IH. reflexivity.
Qed.

(** One more transaction on day [D]: the history grows by one entry, and
    the frequency rule compares the new count with 5. *)
Lemma update_same_day (D : date) (k : nat) (name : string) (st : state)
    (current_time : datetime) (amount : F) (currency : string) :
  same_day_history D k name st -> date_of current_time = D ->
  let st' := _update_transaction_history current_time name amount currency st in
  same_day_history D (S k) name st'
  /\ _check_transaction_frequency current_time name st'
     = bool_decide (5 < Z.of_nat (S k)).
Proof.
  intros [Hlen Hday] Hnow st'.
  assert (E : st' !! name
              = Some (updated_history current_time amount currency
                        (default (fresh_history current_time) (st !! name))))
    by apply update_lookup.
  set (l := default [] (transactions <$> st !! name)) in *.
  assert (El : transactions (default (fresh_history current_time) (st !! name)) = l)
    by (unfold l; destruct (st !! name); reflexivity).
  assert (Et : transactions (updated_history current_time amount currency
                               (default (fresh_history current_time) (st !! name)))
               = l ++ [{| time := current_time; amount := amount; currency := currency |}]).
  { unfold updated_history; cbn [transactions]. rewrite El. apply filter_all.
    apply Forall_app_2.
    - eapply Forall_impl; [exact Hday|]. intros t Ht. cbn beta in *.
      apply same_date_recent. congruence.
    - repeat constructor. cbn [time]. apply same_date_recent. reflexivity. }
  assert (Hday' : Forall (fun t => date_of (time t) = D)
                    (l ++ [{| time := current_time; amount := amount;
                              currency := currency |}])).
  { apply Forall_app_2; [exact Hday|]. repeat constructor. exact Hnow. }
  split.
  - unfold same_day_history. rewrite E. cbn [fmap option_fmap option_map default].
    rewrite Et. unfold id. split; [|exact Hday'].
    rewrite length_app. cbn [length]. lia.
  - unfold _check_transaction_frequency. rewrite E, Et, Hnow.
    rewrite (filter_all _ _ Hday'), length_app. cbn [length].
    unfold thresholds.frequency. replace (length l + 1)%nat with (S k) by lia. reflexivity.
Qed.

Lemma detect_single (current_time : datetime) (amount : F) (currency : string)
    (entity : Entity.t F) (st : state) :
  let st' :=
    _update_transaction_history current_time (Entity.name entity) amount currency st in
  has_type "high_frequency"
    (detect_anomalies format_float current_time amount currency [entity] st).1
  = _check_transaction_frequency current_time (Entity.name entity) st'
  /\ (detect_anomalies format_float current_time amount currency [entity] st).2 = st'.
Proof.
  unfold detect_anomalies. cbn [fold_left]. rewrite detect_entity_eq. cbn [fst snd].
  split; [|reflexivity].
  rewrite has_type_app, entity_flags_high_frequency. unfold append.
  destruct (amount .> int thresholds.amount), (_is_round_number amount); reflexivity.
Qed.

Lemma run_cons (c : Run.call F) (calls : list (Run.call F)) (st : state) :
  let r := detect_anomalies format_float (Run.now c) (Run.amount c) (Run.currency c)
             (Run.entities c) st in
  Run.run format_float (c :: calls) st
  = (r.1 :: (Run.run format_float calls r.2).1, (Run.run format_float calls r.2).2).
Proof.
  cbn [Run.run]. destruct (detect_anomalies _ _ _ _ _ _) as [out st'].
  cbn [fst snd]. destruct (Run.run _ _ _); reflexivity.
Qed.

(** Calls of one day for one entity, on a history of [k] entries of that
    day: the i-th call (from 1) raises high_frequency exactly when
    [k + i] exceeds 5. *)
Lemma run_frequency (D : date) (name : string) (calls : list (Run.call F)) :
  forall (k : nat) (st : state),
    same_day_history D k name st ->
    Forall (single_entity_call D name) calls ->
    map (has_type "high_frequency") (Run.run format_float calls st).1
    = map (fun i => bool_decide (5 < Z.of_nat (k + i))) (seq 1 (length calls)).
Proof.
  induction calls as [|c calls IH]; intros k st Hst Hcalls; [reflexivity|].
  inversion Hcalls as [|? ? [Hday (e & He & Hname)] Hrest]; subst.
  rewrite run_cons. cbn [fst snd map length seq]. rewrite He.
  destruct (detect_single (Run.now c) (Run.amount c) (Run.currency c) e st) as [-> ->].
  destruct (update_same_day (date_of (Run.now c)) k (Entity.name e) st (Run.now c)
              (Run.amount c) (Run.currency c) Hst eq_refl) as [Hst' ->].
  rewrite (IH (S k) _ Hst' Hrest).
  replace (k + 1)%nat with (S k) by lia. f_equal.
  rewrite <- (seq_shift (length calls) 1), map_map.
  apply map_ext. intros i. replace (k + S i)%nat with (S k + i)%nat by lia. reflexivity.
Qed.

Lemma run_severity (calls : list (Run.call F)) (st : state) :
  Forall (Forall fixed_severity) (Run.run format_float calls st).1.
Proof.
  revert st. induction calls as [|c calls IH]; intros st; [constructor|].
  rewrite run_cons. cbn [fst]. constructor; [apply detect_anomalies_severity | apply IH].
Qed.

(** C5.  From an empty history, six calls of [detect_anomalies] at times
    of one calendar day, each for the one entity of the same name, return a
    high_frequency anomaly in the sixth call and in none of the first
    five; every high_frequency anomaly has severity 0.8. *)
Theorem high_frequency_on_sixth_call (D : date) (name : string)
    (calls : list (Run.call F)) :
  length calls = 6%nat ->
  Forall (single_entity_call D name) calls ->
  map (has_type "high_frequency") (Run.run format_float calls ∅).1
  = [false; false; false; false; false; true]
  /\ Forall (Forall fixed_severity) (Run.run format_float calls ∅).1.
Proof.
  intros Hlen Hcalls. split; [|apply run_severity].
  rewrite (run_frequency D name calls 0 ∅); [rewrite Hlen; reflexivity| |exact Hcalls].
  split; [reflexivity|constructor].
Qed.
End Detector.

(** Six calls for "Acme Corp" between 12:00 and 12:05 of 2024-06-01. *)
Lemma high_frequency_on_sixth_call_witness :
  map (has_type "high_frequency") (Run.run format_stub six_calls ∅).1
  = [false; false; false; false; false; true].
Proof.
  apply (high_frequency_on_sixth_call format_stub (ordinal 2024 6 1) "Acme Corp" six_calls).
  - reflexivity.
  - repeat constructor; eexists; split; reflexivity.
Defined.

(** ** The anomaly rules of FakeDataGenerator *)

Section Generator.
Context {F : Type} `{PyFloat F}.
Variable format_float : F -> string.
Variable strptime : string -> string -> result datetime.
Import FakeDataGenerator.

(** Fewer than [n] whole days is less than [n] days. *)
Lemma days_lt (delta n : Z) : days delta < n <-> delta < timedelta_days n.
Proof.
  unfold days, timedelta_days, us_per_day. split; intros Hlt.
  - pose proof (Z.mul_succ_div_gt delta 86400000000 ltac:(lia)). lia.
  - apply Z.div_lt_upper_bound; lia.
Qed.

(** The loop body, when it does not raise, appends the rules of the entity. *)
Lemma entity_anomalies_Ok (current_time : datetime) (anomalies l : list (Anomaly.t F))
    (entity : Entity.t F) :
  entity_anomalies strptime current_time anomalies entity = Ok l ->
  l = anomalies ++ entity_rules strptime current_time entity.
Proof.
  unfold entity_anomalies, entity_rules, jurisdiction_rule, shell_rule, incorporation_rule,
    recently_formed, append.
  set (a1 := match Entity.jurisdiction entity with Some _ => _ | None => _ end).
  set (r1 := match Entity.jurisdiction entity with Some _ => _ | None => _ end).
  assert (E1 : a1 = anomalies ++ r1).
  { unfold a1, r1. destruct (Entity.jurisdiction entity) as [j|]; [|by rewrite app_nil_r].
    destruct (country_risk !! j) as [risk|]; [|by rewrite app_nil_r].
    destruct (risk .> lit 0.6); [reflexivity | by rewrite app_nil_r]. }
  rewrite E1. clear E1 a1.
  destruct (decide (Entity.type entity = SHELL_COMPANY)) as [Hs|Hs];
    (destruct (Entity.incorporation_date entity) as [[|c text]|];
     cbn [truthy default from_option id];
     [ intros [= <-]; rewrite <- ?app_assoc, ?app_nil_r; reflexivity
     | destruct (strptime (String c text) "%Y-%m-%d") as [d|[]]; cbn;
       [ rewrite (bool_decide_ext _ _ (days_lt (current_time - d) 180));
         destruct (bool_decide _); intros [= <-]; rewrite <- ?app_assoc, ?app_nil_r;
         reflexivity
       | intros [= <-]; rewrite <- ?app_assoc, ?app_nil_r; reflexivity
       | discriminate ]
     | intros [= <-]; rewrite <- ?app_assoc, ?app_nil_r; reflexivity ]).
Qed.

(** The loop body does not raise when [strptime] keeps its contract. *)
Lemma entity_anomalies_total (current_time : datetime) (anomalies : list (Anomaly.t F))
    (entity : Entity.t F) :
  raises_only_ValueError strptime ->
  exists l, entity_anomalies strptime current_time anomalies entity = Ok l.
Proof.
  intros Hc. unfold entity_anomalies.
  destruct (truthy _); [|eauto].
  destruct (strptime _ _) as [d|e] eqn:E; cbn.
  - destruct (bool_decide _); eauto.
  - rewrite (Hc _ _ _ E). eauto.
Qed.

Lemma for_each_Ok (current_time : datetime) (entities : list (Entity.t F))
    (anomalies l : list (Anomaly.t F)) :
  for_each (entity_anomalies strptime current_time) entities anomalies = Ok l ->
  l = anomalies ++ concat (map (entity_rules strptime current_time) entities).
Proof.
  revert anomalies. induction entities as [|e es IH]; intros anomalies; cbn [for_each].
  - intros [= <-]. cbn. rewrite app_nil_r. reflexivity.
  - destruct (entity_anomalies strptime current_time anomalies e) as [a'|x] eqn:E;
      cbn; [|discriminate].
    intros Hl. apply IH in Hl. apply entity_anomalies_Ok in E. subst.
    rewrite <- app_assoc. reflexivity.
Qed.

Lemma for_each_total (current_time : datetime) (entities : list (Entity.t F))
    (anomalies : list (Anomaly.t F)) :
  raises_only_ValueError strptime ->
  exists l, for_each (entity_anomalies strptime current_time) entities anomalies = Ok l.
Proof.
  intros Hc. revert anomalies. induction entities as [|e es IH]; intros anomalies;
    cbn [for_each]; [eauto|].
  destruct (entity_anomalies_total current_time anomalies e Hc) as [a' ->]. cbn. apply IH.
Qed.

(** The list that the body builds: the rules on the amount, then the rules
    on each entity, in order. *)
Lemma generate_fake_anomalies_list_eq (current_time : datetime) (amount : F)
    (entities : list (Entity.t F)) :
  raises_only_ValueError strptime ->
  generate_fake_anomalies_list format_float strptime current_time amount entities
  = Ok (amount_anomalies format_float amount
        ++ concat (map (entity_rules strptime current_time) entities)).
Proof.
  intros Hc. unfold generate_fake_anomalies_list.
  destruct (for_each_total current_time entities (amount_anomalies format_float amount) Hc)
    as [l E].
  rewrite E. f_equal. apply for_each_Ok, E.
Qed.

Lemma has_type_concat (ty : string) (ls : list (list (Anomaly.t F))) :
  has_type ty (concat ls) = existsb (has_type ty) ls.
Proof.
  induction ls as [|l ls IH]; [reflexivity|].
  cbn [concat existsb]. rewrite has_type_app, IH. reflexivity.
Qed.

Lemma amount_anomalies_types (amount : F) :
  has_type "new_entity" (amount_anomalies format_float amount) = false
  /\ has_type "high_risk_jurisdiction" (amount_anomalies format_float amount) = false
  /\ has_type "round_amount" (amount_anomalies format_float amount)
     = (amount .% lit 1000 .== lit 0) && (amount .> lit 10000).
Proof.
  unfold amount_anomalies, append.
  destruct (amount .> lit 1000000), ((amount .% lit 1000 .== lit 0) && (amount .> lit 10000));
    repeat split; reflexivity.
Qed.

Lemma entity_rules_new_entity (current_time : datetime) (entity : Entity.t F) :
  has_type "new_entity" (entity_rules strptime current_time entity)
  = recently_formed strptime current_time entity.
Proof.
  unfold entity_rules, jurisdiction_rule, shell_rule, incorporation_rule.
  rewrite !has_type_app.
  destruct (Entity.jurisdiction entity) as [j|];
    [destruct (country_risk !! j) as [risk|]; [destruct (risk .> lit 0.6)|]|];
    destruct (decide _); destruct (recently_formed _ _ _); reflexivity.
Qed.

Lemma amount_anomalies_severity (amount : F) :
  Forall generator_severity (amount_anomalies format_float amount).
Proof.
  unfold amount_anomalies, append.
  destruct (amount .> lit 1000000), ((amount .% lit 1000 .== lit 0) && (amount .> lit 10000));
    repeat constructor; cbn; intros; congruence.
Qed.

Lemma entity_rules_severity (current_time : datetime) (entity : Entity.t F) :
  Forall generator_severity (entity_rules strptime current_time entity).
Proof.
  unfold entity_rules, jurisdiction_rule, shell_rule, incorporation_rule.
  destruct (Entity.jurisdiction entity) as [j|];
    [destruct (country_risk !! j) as [risk|]; [destruct (risk .> lit 0.6)|]|];
    destruct (decide _); destruct (recently_formed _ _ _);
    repeat constructor; cbn; intros; congruence.
Qed.

(** The test of the rule, [(now - date).days < 180], read on the fields of
    the entity. *)
Lemma recently_formed_spec (current_time : datetime) (entity : Entity.t F) :
  recently_formed strptime current_time entity = true
  <-> exists text d,
        Entity.incorporation_date entity = Some text /\ text <> ""
        /\ strptime text "%Y-%m-%d" = Ok d /\ days (current_time - d) < 180.
Proof.
  assert (Hdays : forall delta, delta < timedelta_days 180 <-> days delta < 180).
  { intros delta. unfold days, timedelta_days, us_per_day.
    pose proof (Z.div_mod delta 86400000000 ltac:(lia)) as Hd.
    pose proof (Z.mod_pos_bound delta 86400000000 ltac:(lia)) as Hm. lia. }
  unfold recently_formed. split.
  - destruct (Entity.incorporation_date entity) as [[|c text]|]; try discriminate.
    destruct (strptime (String c text) "%Y-%m-%d") as [d|] eqn:Ed; try discriminate.
    intros Hlt. apply bool_decide_eq_true_1 in Hlt.
    exists (String c text), d. repeat split; [discriminate | exact Ed | apply Hdays, Hlt].
  - intros (text & d & -> & Hne & -> & Hlt). destruct text as [|c text]; [contradiction|].
    apply bool_decide_eq_true_2, Hdays, Hlt.
Qed.

(** C7 (as amended).  When [strptime] raises nothing but ValueError,
    [generate_fake_anomalies] raises nothing for any input, and its body
    puts a new_entity anomaly (severity 0.6) on its list exactly for the
    entities whose incorporation date is given, parses with "%Y-%m-%d" and
    has [(now - date).days < 180]: the dates of the last 180 days and, the
    difference being negative then, every date after the current time.  An
    unparsable date is skipped. *)
Theorem new_entity_rule (current_time : datetime) (amount : F)
    (entities : list (Entity.t F)) :
  raises_only_ValueError strptime ->
  exists l,
    generate_fake_anomalies_list format_float strptime current_time amount entities = Ok l
    /\ (exists r,
           generate_fake_anomalies format_float strptime current_time amount entities = Ok r)
    /\ has_type "new_entity" l = existsb (recently_formed strptime current_time) entities
    /\ (forall entity : Entity.t F,
           recently_formed strptime current_time entity = true
           <-> exists text d,
                 Entity.incorporation_date entity = Some text /\ text <> ""
                 /\ strptime text "%Y-%m-%d" = Ok d /\ days (current_time - d) < 180)
    /\ (forall (entity : Entity.t F) text d,
           Entity.incorporation_date entity = Some text -> text <> "" ->
           strptime text "%Y-%m-%d" = Ok d -> current_time <= d ->
           recently_formed strptime current_time entity = true)
    /\ (forall (entity : Entity.t F) text,
           Entity.incorporation_date entity = Some text ->
           (forall d, strptime text "%Y-%m-%d" <> Ok d) ->
           recently_formed strptime current_time entity = false)
    /\ (forall entity,
           In entity entities -> recently_formed strptime current_time entity = true ->
           In {| Anomaly.type := "new_entity";
                 Anomaly.severity := lit 0.6;
                 Anomaly.description := "Recently formed entity: " +:+ Entity.name entity;
                 Anomaly.evidence :=
                   ["Incorporation date: "
                    +:+ default "" (Entity.incorporation_date entity)] |} l)
    /\ Forall generator_severity l.
Proof.
  intros Hc. eexists. split; [apply generate_fake_anomalies_list_eq, Hc|].
  split; [|split; [|split; [|split; [|split; [|split]]]]].
  - unfold generate_fake_anomalies.
    rewrite generate_fake_anomalies_list_eq by exact Hc. eexists. reflexivity.
  - rewrite has_type_app, has_type_concat.
    destruct (amount_anomalies_types amount) as (-> & _ & _). cbn [orb].
    induction entities as [|e es IH]; [reflexivity|].
    cbn [map existsb]. rewrite entity_rules_new_entity, IH. reflexivity.
  - apply recently_formed_spec.
  - intros entity text d Ht Hne Hd Hle. apply recently_formed_spec.
    exists text, d. repeat split; try assumption.
    unfold days, us_per_day. apply Z.div_lt_upper_bound; lia.
  - intros entity text Ht Hno. unfold recently_formed. rewrite Ht.
    destruct text as [|c text]; [reflexivity|].
    destruct (strptime (String c text) "%Y-%m-%d") as [d|]; [|reflexivity].
    destruct (Hno d eq_refl).
  - intros entity Hin Hrf. apply in_or_app. right. apply in_concat.
    exists (entity_rules strptime current_time entity). split; [apply in_map, Hin|].
    unfold entity_rules, incorporation_rule. rewrite Hrf.
    apply in_or_app. right. apply in_or_app. right. left. reflexivity.
  - apply Forall_app_2; [apply amount_anomalies_severity|].
    apply Forall_concat, Forall_map, Forall_forall. intros e _.
    apply entity_rules_severity.
Qed.

(** C6 (as amended).  When [strptime] raises nothing but ValueError, for
    every entity whose jurisdiction is, letter for letter, a key of
    [country_risk] with a weight above 0.6, the body of
    [generate_fake_anomalies] puts a high_risk_jurisdiction anomaly with
    that weight as severity on its list. *)
Theorem high_risk_jurisdiction_rule (current_time : datetime) (amount : F)
    (entities : list (Entity.t F)) (entity : Entity.t F) (j : string) (weight : F) :
  raises_only_ValueError strptime ->
  In entity entities ->
  Entity.jurisdiction entity = Some j ->
  country_risk !! j = Some weight ->
  (weight .> lit 0.6) = true ->
  exists l,
    generate_fake_anomalies_list format_float strptime current_time amount entities = Ok l
    /\ In {| Anomaly.type := "high_risk_jurisdiction";
             Anomaly.severity := weight;
             Anomaly.description := "Entity in high-risk jurisdiction: " +:+ j;
             Anomaly.evidence := ["Entity jurisdiction is " +:+ j] |} l.
Proof.
  intros Hc Hin Hj Hw Hgt. eexists. split; [apply generate_fake_anomalies_list_eq, Hc|].
  apply in_or_app. right. apply in_concat.
  exists (entity_rules strptime current_time entity). split.
  - apply in_map, Hin.
  - unfold entity_rules, jurisdiction_rule. rewrite Hj, Hw, Hgt. left. reflexivity.
Qed.

(** The function ends without a [return] statement: when [strptime] raises
    nothing but ValueError, the caller receives [None] for every amount and
    every list of entities, whatever the rules have put on the list. *)
Theorem generate_fake_anomalies_returns_None (current_time : datetime) (amount : F)
    (entities : list (Entity.t F)) :
  raises_only_ValueError strptime ->
  generate_fake_anomalies format_float strptime current_time amount entities = Ok None.
Proof.
  intros Hc. unfold generate_fake_anomalies.
  rewrite generate_fake_anomalies_list_eq by exact Hc. reflexivity.
Qed.
End Generator.

(** The model of [strptime] keeps the contract. *)
Lemma strptime_model_contract : raises_only_ValueError strptime_model.
Proof.
  intros text format e. unfold strptime_model, strptime_ymd.
  repeat case_match; congruence.
Qed.

(** A shell company registered in "RU" three months before noon of
    2024-06-01, and a corporation whose incorporation date does not parse. *)
Lemma new_entity_rule_witness :
  exists l,
    FakeDataGenerator.generate_fake_anomalies_list (F:=float) format_stub strptime_model
      noon (lit 5000)
      [registered "Nova Group" SHELL_COMPANY "RU" "2024-03-01";
       registered "Old Mill Corp" CORPORATION "US" "not a date"] = Ok l
    /\ has_type "new_entity" l
       = existsb (recently_formed strptime_model noon)
           [registered "Nova Group" SHELL_COMPANY "RU" "2024-03-01";
            registered (F:=float) "Old Mill Corp" CORPORATION "US" "not a date"]
    /\ Forall generator_severity l.
Proof.
  destruct (new_entity_rule (F:=float) format_stub strptime_model noon (lit 5000)
              [registered "Nova Group" SHELL_COMPANY "RU" "2024-03-01";
               registered "Old Mill Corp" CORPORATION "US" "not a date"]
              strptime_model_contract)
    as (l & Hl & _ & Hty & _ & _ & _ & _ & Hsev).
  exists l. repeat split; assumption.
Defined.

(** C7, the claim as written fails: at noon of 2024-06-01 a corporation
    whose incorporation date is 2024-12-01, half a year after the
    evaluation time and so not within the 180 days before it, gets the
    new_entity anomaly. *)
Lemma future_incorporation_date_flagged :
  strptime_model "2024-12-01" "%Y-%m-%d" = Ok (ordinal 2024 12 1 * us_per_day)
  /\ noon < ordinal 2024 12 1 * us_per_day
  /\ days (noon - ordinal 2024 12 1 * us_per_day) = -183
  /\ FakeDataGenerator.generate_fake_anomalies_list (F:=float) format_stub strptime_model
       noon (lit 5000) [registered "Baltic Freight" CORPORATION "US" "2024-12-01"]
     = Ok [{| Anomaly.type := "new_entity";
              Anomaly.severity := lit 0.6;
              Anomaly.description := "Recently formed entity: Baltic Freight";
              Anomaly.evidence := ["Incorporation date: 2024-12-01"] |}].
Proof. repeat split; vm_compute; reflexivity. Qed.

Lemma high_risk_jurisdiction_rule_witness :
  exists l,
    FakeDataGenerator.generate_fake_anomalies_list (F:=float) format_stub strptime_model
      noon (lit 5000) [registered "Volga Trading" CORPORATION "RU" "2001-05-17"] = Ok l
    /\ In {| Anomaly.type := "high_risk_jurisdiction";
             Anomaly.severity := lit 0.8;
             Anomaly.description := "Entity in high-risk jurisdiction: RU";
             Anomaly.evidence := ["Entity jurisdiction is RU"] |} l.
Proof.
  apply (high_risk_jurisdiction_rule (F:=float) format_stub strptime_model noon (lit 5000)
           [registered "Volga Trading" CORPORATION "RU" "2001-05-17"]
           (registered "Volga Trading" CORPORATION "RU" "2001-05-17") "RU" (lit 0.8)).
  - apply strptime_model_contract.
  - left. reflexivity.
  - reflexivity.
  - vm_compute. reflexivity.
  - vm_compute. reflexivity.
Defined.

(** A transaction of 2,000,000 for a young shell company in "RU": four rules
    fire, and the caller still receives [None]. *)
Lemma generate_fake_anomalies_returns_None_witness :
  FakeDataGenerator.generate_fake_anomalies (F:=float) format_stub strptime_model
    noon (lit 2000000) [registered "Nova Group" SHELL_COMPANY "RU" "2024-03-01"] = Ok None.
Proof.
  apply (generate_fake_anomalies_returns_None (F:=float) format_stub strptime_model).
  apply strptime_model_contract.
Defined.

(** C6, the claim as stated fails: "ru" matches the key "RU" of
    [country_risk] up to case and the weight 0.8 is above 0.6, yet the body
    of [generate_fake_anomalies] builds no anomaly for an entity whose
    jurisdiction is "ru". *)
Lemma lower_case_jurisdiction_not_flagged :
  lower "ru" = lower "RU"
  /\ FakeDataGenerator.country_risk (F:=float) !! "RU" = Some 0.8%float
  /\ PrimFloat.ltb 0.6 0.8 = true
  /\ FakeDataGenerator.generate_fake_anomalies_list (F:=float) format_stub strptime_model
       noon (lit 5000) [registered "Volga Trading" CORPORATION "ru" "2001-05-17"] = Ok []
  /\ FakeDataGenerator.generate_fake_anomalies (F:=float) format_stub strptime_model
       noon (lit 5000) [registered "Volga Trading" CORPORATION "ru" "2001-05-17"] = Ok None.
Proof. repeat split; vm_compute; reflexivity. Qed.

(** C4.  In [detect_anomalies] a round_amount anomaly, of severity 0.7, is
    returned exactly when the amount is a multiple of 1000: it is for 5000
    and is not for 5001.  In the rules of the generator the amount must
    also exceed 10000: 20000 is flagged, 5000 and 5001 are not. *)
Theorem round_amount_rule :
  (forall (F : Type) (PF : PyFloat F) format_float current_time amount currency entities st,
      has_type "round_amount"
        (AnomalyDetector.detect_anomalies (F:=F) format_float current_time amount currency
           entities st).1
      = AnomalyDetector._is_round_number amount
      /\ Forall fixed_severity
           (AnomalyDetector.detect_anomalies format_float current_time amount currency
              entities st).1)
  /\ (AnomalyDetector._is_round_number (F:=Q) (lit 5000) = true
      /\ AnomalyDetector._is_round_number (F:=Q) (lit 5001) = false
      /\ AnomalyDetector._is_round_number (F:=float) (lit 5000) = true
      /\ AnomalyDetector._is_round_number (F:=float) (lit 5001) = false)
  /\ (forall (F : Type) (PF : PyFloat F) format_float amount,
         has_type "round_amount"
           (FakeDataGenerator.amount_anomalies (F:=F) format_float amount)
         = (amount .% lit 1000 .== lit 0) && (amount .> lit 10000)
         /\ Forall generator_severity (FakeDataGenerator.amount_anomalies format_float amount))
  /\ (forall format_float,
         has_type "round_amount"
           (FakeDataGenerator.amount_anomalies (F:=float) format_float (lit 5000)) = false
         /\ has_type "round_amount"
              (FakeDataGenerator.amount_anomalies (F:=float) format_float (lit 5001)) = false
         /\ has_type "round_amount"
              (FakeDataGenerator.amount_anomalies (F:=float) format_float (lit 20000)) = true)
  /\ (forall format_float,
         has_type "round_amount"
           (FakeDataGenerator.amount_anomalies (F:=Q) format_float (lit 5000)) = false
         /\ has_type "round_amount"
              (FakeDataGenerator.amount_anomalies (F:=Q) format_float (lit 5001)) = false
         /\ has_type "round_amount"
              (FakeDataGenerator.amount_anomalies (F:=Q) format_float (lit 20000)) = true).
Proof.
  split; [|split; [|split; [|split]]].
  - intros. split;
      [apply detect_anomalies_round_amount | apply detect_anomalies_severity].
  - repeat split; vm_compute; reflexivity.
  - intros. split; [apply amount_anomalies_types | apply amount_anomalies_severity].
  - intros. repeat split; vm_compute; reflexivity.
  - intros. repeat split; vm_compute; reflexivity.
Qed.

(** ** EntityExtractor, continued *)

(** *** Patterns as lists of accepted endings *)

Lemma existsb_map {A B} (f : B -> bool) (g : A -> B) (l : list A) :
  existsb f (map g l) = existsb (fun x => f (g x)) l.
Proof. induction l as [|x l IH]; simpl; [reflexivity|]. rewrite IH. reflexivity. Qed.

Lemma existsb_orb {A} (f g : A -> bool) (l : list A) :
  existsb (fun x => f x || g x) l = existsb f l || existsb g l.
Proof.
  induction l as [|x l IH]; simpl; [reflexivity|]. rewrite IH.
  destruct (f x), (g x), (existsb f l), (existsb g l); reflexivity.
Qed.

Lemma existsb_concat_map {A B} (f : B -> bool) (g : A -> list B) (l : list A) :
  existsb (fun x => existsb f (g x)) l = existsb f (concat (map g l)).
Proof.
  induction l as [|x l IH]; simpl; [reflexivity|]. rewrite existsb_app, IH. reflexivity.
Qed.

Lemma existsb_false {A} (f : A -> bool) (l : list A) :
  (forall x, f x = false) -> existsb f l = false.
Proof. intros Hf. induction l as [|x l IH]; simpl; [reflexivity|]. rewrite Hf, IH. reflexivity. Qed.

Lemma existsb_ext {A} (f g : A -> bool) (l : list A) :
  (forall x, f x = g x) -> existsb f l = existsb g l.
Proof. intros E. induction l as [|x l IH]; simpl; [reflexivity|]. rewrite E, IH. reflexivity. Qed.

Lemma existsb_andb {A} (b : bool) (f : A -> bool) (l : list A) :
  existsb (fun x => b && f x) l = b && existsb f l.
Proof.
  induction l as [|x l IH]; simpl; [destruct b; reflexivity|]. rewrite IH.
  destruct b, (f x); reflexivity.
Qed.

Lemma eqb_cons_words (c d : ascii) (s : string) (ws : list string) :
  existsb (fun w => String.eqb (String d s) w || String.eqb (String d s) (w +:+ newline))
          (map (String c) ws)
  = Ascii.eqb c d
    && existsb (fun w => String.eqb s w || String.eqb s (w +:+ newline)) ws.
Proof.
  rewrite existsb_map, <- existsb_andb. apply existsb_ext. intros w.
  change (String c w +:+ newline) with (String c (w +:+ newline)).
  cbn [String.eqb]. rewrite (Ascii.eqb_sym c d).
  destruct (Ascii.eqb d c); reflexivity.
Qed.

Lemma eqb_nil_words (c : ascii) (ws : list string) :
  existsb (fun w => String.eqb "" w || String.eqb "" (w +:+ newline)) (map (String c) ws)
  = false.
Proof. rewrite existsb_map. apply existsb_false. reflexivity. Qed.

Lemma match_here_words (p : list atom) (s : string) :
  closed_by_eos p = true ->
  match_here p s
  = existsb (fun w => String.eqb s w || String.eqb s (w +:+ newline)) (words_of p).
Proof.
  revert s. induction p as [|a p IH]; intros s Hp; [discriminate|].
  destruct a as [c|c|].
  - cbn [match_here words_of]. destruct s as [|d s].
    + rewrite eqb_nil_words. reflexivity.
    + rewrite eqb_cons_words, (IH s Hp). reflexivity.
  - cbn [match_here words_of]. rewrite existsb_app. destruct s as [|d s].
    + rewrite eqb_nil_words, (IH "" Hp). reflexivity.
    + rewrite eqb_cons_words, (IH s Hp), (IH (String d s) Hp). reflexivity.
  - destruct p as [|b p]; [|destruct b; discriminate].
    cbn [match_here words_of existsb].
    change ("" +:+ newline) with newline. unfold newline, at_end.
    destruct s as [|d [|e s]]; cbn [String.eqb]; rewrite ?orb_false_r, ?andb_true_r;
      try reflexivity.
    all: destruct (Ascii.eqb d "010"); reflexivity.
Qed.

Lemma search_words (p : list atom) (s : string) :
  closed_by_eos p = true ->
  search_atoms p s = existsb (ends_with_word s) (words_of p).
Proof.
  intros Hp. unfold ends_with_word. induction s as [|d s IH].
  - cbn [search_atoms ends_with]. rewrite match_here_words by exact Hp.
    rewrite orb_false_r. apply existsb_ext. intros w. rewrite !orb_false_r. reflexivity.
  - cbn [search_atoms ends_with]. rewrite IH, match_here_words by exact Hp.
    rewrite <- existsb_orb. apply existsb_ext. intros w.
    destruct (String d s =? w)%string, (String d s =? w +:+ newline)%string,
      (ends_with s w), (ends_with s (w +:+ newline)); reflexivity.
Qed.

Lemma any_patterns (patterns : list string) (s : string) :
  forallb (fun p => closed_by_eos (compile p)) patterns = true ->
  any (fun pattern => re_search pattern s) patterns
  = any (ends_with_word s) (concat (map (fun p => words_of (compile p)) patterns)).
Proof.
  intros Hp. unfold any, re_search. rewrite <- existsb_concat_map.
  induction patterns as [|p l IH]; [reflexivity|].
  cbn [forallb] in Hp. apply andb_prop in Hp as [Hp Hl].
  cbn [existsb]. rewrite (IH Hl), (search_words _ _ Hp). reflexivity.
Qed.

Section ExtractorProperties.
Import EntityExtractor Extractor.

(** The classifier decides by suffix and substring tests on the lower-cased
    name. *)
Lemma classify_eq_words (entity_name : string) :
  _classify_entity_type entity_name = classify_by_words entity_name.
Proof.
  unfold _classify_entity_type, classify_by_words.
  rewrite !any_patterns by reflexivity. reflexivity.
Qed.

(** string facts *)
(** *** Texts *)

Lemma append_cons (c : ascii) (a b : string) : String c a +:+ b = String c (a +:+ b).
Proof. reflexivity. Qed.

Lemma append_nil_r (a : string) : a +:+ "" = a.
Proof. induction a as [|c a IH]; [reflexivity|]. rewrite append_cons, IH. reflexivity. Qed.

Lemma append_assoc (a b c : string) : (a +:+ b) +:+ c = a +:+ (b +:+ c).
Proof. induction a as [|x a IH]; [reflexivity|]. rewrite !append_cons, IH. reflexivity. Qed.

Lemma length_append (a b : string) :
  String.length (a +:+ b) = (String.length a + String.length b)%nat.
Proof. induction a as [|c a IH]; [reflexivity|]. rewrite append_cons. cbn. rewrite IH. reflexivity. Qed.

Lemma take_string_append (a b : string) : take_string (String.length a) (a +:+ b) = a.
Proof. induction a as [|c a IH]; [destruct b; reflexivity|]. rewrite append_cons. cbn. rewrite IH. reflexivity. Qed.

Lemma lower_append (a b : string) : lower (a +:+ b) = lower a +:+ lower b.
Proof. induction a as [|c a IH]; [reflexivity|]. rewrite append_cons. cbn [lower]. rewrite IH. reflexivity. Qed.

Lemma chars_append (a b : string) :
  list_ascii_of_string (a +:+ b) = list_ascii_of_string a ++ list_ascii_of_string b.
Proof. induction a as [|c a IH]; [reflexivity|]. rewrite append_cons. cbn. rewrite IH. reflexivity. Qed.

Lemma ends_with_refl (s : string) : ends_with s s = true.
Proof. destruct s; cbn; rewrite ?Ascii.eqb_refl, ?String.eqb_refl; reflexivity. Qed.

Lemma ends_with_append (a b : string) : ends_with (a +:+ b) b = true.
Proof.
  induction a as [|c a IH]; [apply ends_with_refl|].
  rewrite append_cons. cbn [ends_with]. rewrite IH. apply orb_true_r.
Qed.

Lemma ends_with_spec (s w : string) : ends_with s w = true <-> exists a, s = a +:+ w.
Proof.
  split.
  - induction s as [|c s IH]; cbn [ends_with]; intros Hs.
    + rewrite orb_false_r in Hs. apply String.eqb_eq in Hs. subst w. exists "". reflexivity.
    + apply orb_prop in Hs as [Hs|Hs].
      * apply String.eqb_eq in Hs. subst w. exists "". reflexivity.
      * destruct (IH Hs) as [a ->]. exists (String c a). reflexivity.
  - intros [a ->]. apply ends_with_append.
Qed.

(** Two endings of one text: one of them is an ending of the other. *)
Lemma ends_with_comparable (s a b : string) :
  ends_with s a = true -> ends_with s b = true ->
  ends_with a b = true \/ ends_with b a = true.
Proof.
  induction s as [|c s IH]; cbn [ends_with]; intros Ha Hb.
  - rewrite orb_false_r in Ha, Hb. apply String.eqb_eq in Ha, Hb. subst. left. reflexivity.
  - apply orb_prop in Ha as [Ha|Ha]; apply orb_prop in Hb as [Hb|Hb].
    + apply String.eqb_eq in Ha, Hb. subst. left. apply ends_with_refl.
    + apply String.eqb_eq in Ha. subst a. left. cbn [ends_with]. rewrite Hb. apply orb_true_r.
    + apply String.eqb_eq in Hb. subst b. right. cbn [ends_with]. rewrite Ha. apply orb_true_r.
    + exact (IH Ha Hb).
Qed.

(** *** The matcher of the company pattern *)

Lemma match_suffix_spec (p : list atom) (prev : option ascii) (s r : string) :
  closed_by_eos p = true -> match_suffix p prev s = Some r ->
  exists w, In w (words_of p) /\ s = w +:+ r /\ at_end r = true
            /\ word_boundary (last_char prev w) r = true.
Proof.
  revert prev s. induction p as [|a p IH]; intros prev s Hp; [discriminate|].
  destruct a as [c|c|]; cbn [match_suffix words_of].
  - destruct s as [|d s]; [discriminate|].
    destruct (Ascii.eqb_spec c d) as [<-|]; [|discriminate]. intros Hm.
    destruct (IH _ _ Hp Hm) as (w & Hw & -> & Hr & Hb).
    exists (String c w). repeat split; try assumption. apply in_map, Hw.
  - assert (Hskip : match_suffix p prev s = Some r ->
                    exists w, In w (map (String c) (words_of p) ++ words_of p)
                              /\ s = w +:+ r /\ at_end r = true
                              /\ word_boundary (last_char prev w) r = true).
    { intros Hm. destruct (IH _ _ Hp Hm) as (w & Hw & -> & Hr & Hb).
      exists w. repeat split; try assumption. apply in_or_app. right. exact Hw. }
    destruct s as [|d s]; [exact Hskip|].
    destruct (Ascii.eqb_spec c d) as [<-|]; [|exact Hskip].
    destruct (match_suffix p (Some c) s) as [r'|] eqn:Hm; [|exact Hskip].
    intros [= ->]. destruct (IH _ _ Hp Hm) as (w & Hw & -> & Hr & Hb).
    exists (String c w). repeat split; try assumption.
    apply in_or_app. left. apply in_map, Hw.
  - destruct p as [|b p]; [|destruct b; discriminate].
    destruct (at_end s) eqn:Hr; [|discriminate]. cbn [match_suffix].
    destruct (word_boundary prev s) eqn:Hb; [|discriminate]. intros [= <-].
    exists "". repeat split; try assumption. left. reflexivity.
Qed.

Lemma match_alternatives_spec (ps : list (list atom)) (prev : option ascii) (s r : string) :
  forallb closed_by_eos ps = true -> match_alternatives ps prev s = Some r ->
  exists w, In w (concat (map words_of ps)) /\ s = w +:+ r /\ at_end r = true
            /\ word_boundary (last_char prev w) r = true.
Proof.
  induction ps as [|p ps IH]; cbn [forallb match_alternatives]; [discriminate|].
  intros Hp. apply andb_prop in Hp as [Hp Hps].
  destruct (match_suffix p prev s) as [r'|] eqn:Hm.
  - intros [= ->]. destruct (match_suffix_spec _ _ _ _ Hp Hm) as (w & Hw & Hs).
    exists w. split; [|exact Hs]. cbn [map concat]. apply in_or_app. left. exact Hw.
  - intros Hr. destruct (IH Hps Hr) as (w & Hw & Hs).
    exists w. split; [|exact Hs]. cbn [map concat]. apply in_or_app. right. exact Hw.
Qed.

Lemma match_letters_spec (ps : list (list atom)) (prev : option ascii) (s r : string) :
  forallb closed_by_eos ps = true -> match_letters ps prev s = Some r ->
  exists l w prev',
    s = l +:+ w +:+ r
    /\ forallb is_letter_or_space (list_ascii_of_string l) = true
    /\ In w (concat (map words_of ps)) /\ at_end r = true
    /\ word_boundary (last_char prev' w) r = true.
Proof.
  intros Hps. revert prev. induction s as [|d s IH]; intros prev; cbn [match_letters].
  - intros Hm. destruct (match_alternatives_spec _ _ _ _ Hps Hm) as (w & Hw & Hs & Hr & Hb).
    exists "", w, prev. repeat split; assumption.
  - assert (Halt : match_alternatives ps prev (String d s) = Some r ->
                   exists l w prev',
                     String d s = l +:+ w +:+ r
                     /\ forallb is_letter_or_space (list_ascii_of_string l) = true
                     /\ In w (concat (map words_of ps)) /\ at_end r = true
                     /\ word_boundary (last_char prev' w) r = true).
    { intros Hm.
      destruct (match_alternatives_spec _ _ _ _ Hps Hm) as (w & Hw & Hs & Hr & Hb).
      exists "", w, prev. repeat split; assumption. }
    destruct (is_letter_or_space d) eqn:Hd; [|exact Halt].
    destruct (match_letters ps (Some d) s) as [r'|] eqn:Hm; [|exact Halt].
    intros [= ->]. destruct (IH _ Hm) as (l & w & prev' & -> & Hl & Hw & Hr & Hb).
    exists (String d l), w, prev'. repeat split; try assumption.
    cbn. rewrite Hd. exact Hl.
Qed.

Lemma match_company_spec (ps : list (list atom)) (prev : option ascii) (s r : string) :
  forallb closed_by_eos ps = true -> match_company ps prev s = Some r ->
  exists c l w prev',
    s = String c (l +:+ w) +:+ r
    /\ is_upper c = true
    /\ forallb is_letter_or_space (list_ascii_of_string l) = true
    /\ In w (concat (map words_of ps)) /\ at_end r = true
    /\ word_boundary (last_char prev' w) r = true.
Proof.
  intros Hps. unfold match_company.
  destruct (word_boundary prev s); [|discriminate].
  destruct s as [|c [|d s]]; try discriminate.
  destruct (is_upper c) eqn:Hc; [|discriminate].
  destruct (is_letter_or_space d) eqn:Hd; [|discriminate]. cbn [andb].
  intros Hm. destruct (match_letters_spec _ _ _ _ Hps Hm) as (l & w & prev' & -> & Hl & Hw & Hr & Hb).
  exists c, (String d l), w, prev'. repeat split; try assumption.
  - rewrite !append_cons, append_assoc. reflexivity.
  - cbn. rewrite Hd. exact Hl.
Qed.

Lemma at_end_cases (r : string) : at_end r = true -> r = "" \/ r = newline.
Proof.
  destruct r as [|c [|d r]]; cbn; intros Hr; try discriminate; [left; reflexivity|].
  apply Ascii.eqb_eq in Hr. subst c. right. reflexivity.
Qed.

Lemma boundary_at_end (lc : option ascii) (r : string) :
  at_end r = true -> word_boundary lc r = true -> from_option is_word false lc = true.
Proof.
  intros Hr. destruct (at_end_cases r Hr) as [->| ->]; unfold word_boundary; cbn;
    rewrite xorb_false_r; intros Hb; exact Hb.
Qed.

Lemma finditer_skip (ps : list (list atom)) (prev : option ascii) (a r : string) :
  at_end r = true -> finditer_from ps prev (a +:+ r) (String.length a) = [].
Proof.
  intros Hr. revert prev. induction a as [|c a IH]; intros prev.
  - destruct (at_end_cases r Hr) as [->| ->]; [reflexivity|].
    change ("" +:+ newline) with (String "010" ""). cbn [String.length finditer_from].
    unfold match_company. destruct (word_boundary prev _); reflexivity.
  - rewrite append_cons. cbn [String.length finditer_from]. apply IH.
Qed.

Lemma finditer_spec (ps : list (list atom)) (prev : option ascii) (s : string) :
  forallb closed_by_eos ps = true ->
  finditer_from ps prev s 0 = []
  \/ exists pre c l w r prev',
       s = pre +:+ (String c (l +:+ w) +:+ r)
       /\ finditer_from ps prev s 0 = [String c (l +:+ w)]
       /\ is_upper c = true
       /\ forallb is_letter_or_space (list_ascii_of_string l) = true
       /\ In w (concat (map words_of ps)) /\ at_end r = true
       /\ word_boundary (last_char prev' w) r = true.
Proof.
  intros Hps. revert prev. induction s as [|x s IH]; intros prev; [left; reflexivity|].
  cbn [finditer_from]. destruct (match_company ps prev (String x s)) as [r|] eqn:Hm.
  - right. destruct (match_company_spec _ _ _ _ Hps Hm)
      as (c & l & w & prev' & Hs & Hc & Hl & Hw & Hr & Hb).
    exists "", c, l, w, r, prev'. split; [exact Hs|]. split; [|repeat split; assumption].
    rewrite Hs. rewrite length_append.
    replace (String.length (String c (l +:+ w)) + String.length r - String.length r)%nat
      with (String.length (String c (l +:+ w))) by lia.
    rewrite take_string_append. f_equal.
    rewrite append_cons in Hs. injection Hs as -> ->.
    cbn [String.length].
    replace (S (String.length (l +:+ w)) - 1)%nat with (String.length (l +:+ w)) by lia.
    apply finditer_skip, Hr.
  - destruct (IH (Some x)) as [E|(pre & c & l & w & r & prev' & -> & E & Hrest)].
    + left. exact E.
    + right. exists (String x pre), c, l, w, r, prev'. split; [reflexivity|].
      split; [exact E | exact Hrest].
Qed.

Lemma upper_not_digit (c : ascii) : is_upper c = true -> isdigit c = false.
Proof.
  unfold is_upper, isdigit. generalize (nat_of_ascii c). intros n Hn.
  apply andb_prop in Hn as [H1 H2]. apply Nat.leb_le in H1, H2.
  apply andb_false_iff. right. apply Nat.leb_gt. lia.
Qed.

Lemma letter_or_space_not_digit (c : ascii) : is_letter_or_space c = true -> isdigit c = false.
Proof.
  unfold is_letter_or_space, is_lower, is_upper, is_space, isdigit.
  generalize (nat_of_ascii c). intros n Hn.
  repeat (apply orb_prop in Hn as [Hn|Hn]); apply andb_prop in Hn as [H1 H2];
    apply Nat.leb_le in H1, H2;
    (destruct (48 <=? n)%nat eqn:E1; [|reflexivity]); apply Nat.leb_le in E1;
    apply Nat.leb_gt || (cbn [andb]; apply Nat.leb_gt); lia.
Qed.

Lemma letters_no_digit (l : list ascii) :
  forallb is_letter_or_space l = true -> existsb isdigit l = false.
Proof.
  induction l as [|c l IH]; cbn; [reflexivity|]. intros Hl.
  apply andb_prop in Hl as [Hc Hl]. rewrite (letter_or_space_not_digit c Hc), (IH Hl).
  reflexivity.
Qed.

Lemma plain_words_apart :
  forallb (fun w =>
             forallb (incomparable w)
               (nonprofit_words ++ map (fun x => x +:+ newline) nonprofit_words
                ++ shell_words ++ map (fun x => x +:+ newline) shell_words))
          plain_company_words = true.
Proof. vm_compute. reflexivity. Qed.

Lemma ends_with_word_apart (s w : string) (others : list string) :
  ends_with s w = true ->
  forallb (incomparable w) (others ++ map (fun x => x +:+ newline) others) = true ->
  any (ends_with_word s) others = false.
Proof.
  intros Hw Hall. apply not_true_is_false. intros Hany.
  apply existsb_exists in Hany as (x & Hx & Hend).
  rewrite forallb_forall in Hall.
  unfold ends_with_word in Hend. apply orb_prop in Hend as [Hend|Hend].
  - specialize (Hall x (in_or_app _ _ _ (or_introl Hx))).
    unfold incomparable in Hall. apply andb_prop in Hall as [H1 H2].
    destruct (ends_with_comparable s w x Hw Hend) as [E|E]; rewrite E in *; discriminate.
  - specialize (Hall (x +:+ newline)
                  (in_or_app _ _ _ (or_intror (in_map (fun x => x +:+ newline) _ _ Hx)))).
    unfold incomparable in Hall. apply andb_prop in Hall as [H1 H2].
    destruct (ends_with_comparable s w _ Hw Hend) as [E|E]; rewrite E in *; discriminate.
Qed.


Lemma company_pattern_words :
  concat (map words_of Extractor.company_pattern) = company_words
  /\ forallb closed_by_eos Extractor.company_pattern = true.
Proof. split; reflexivity. Qed.

Lemma plain_word_of_match (prev : option ascii) (w r : string) :
  In w company_words -> at_end r = true -> word_boundary (last_char prev w) r = true ->
  In w plain_company_words /\ lower w = w
  /\ existsb isdigit (list_ascii_of_string w) = false.
Proof.
  intros Hw Hr Hb. pose proof (boundary_at_end _ _ Hr Hb) as Hlast. clear Hb Hr.
  unfold company_words in Hw. cbn [In] in Hw.
  repeat (destruct Hw as [<-|Hw];
          [first [discriminate Hlast
                 | split; [cbn; tauto | split; reflexivity]]|]).
  destruct Hw.
Qed.

Section PatternExtraction.
Context {F : Type} `{PyFloat F}.

Lemma match_is_corporation (c : ascii) (l w : string) :
  is_upper c = true ->
  forallb is_letter_or_space (list_ascii_of_string l) = true ->
  In w plain_company_words -> lower w = w ->
  existsb isdigit (list_ascii_of_string w) = false ->
  _classify_entity_type (String c (l +:+ w)) = CORPORATION
  /\ Extractor._calculate_confidence_score (F:=F) (String c (l +:+ w)) CORPORATION
     = py_min (lit 0.5 .+ lit 0.3 .+ lit 0.1) (lit 1.0)
  /\ any (ends_with (String c (l +:+ w))) plain_company_words = true.
Proof.
  intros Hc Hl Hw Hlow Hdig.
  assert (Hend : ends_with (lower (String c (l +:+ w))) w = true).
  { cbn [lower]. rewrite lower_append, Hlow, <- append_cons. apply ends_with_append. }
  pose proof plain_words_apart as Happ. rewrite forallb_forall in Happ.
  specialize (Happ w Hw). rewrite app_assoc, forallb_app in Happ.
  apply andb_prop in Happ as [Hnp Hsh].
  split; [|split].
  - rewrite classify_eq_words. unfold classify_by_words.
    rewrite (ends_with_word_apart _ w nonprofit_words Hend Hnp).
    rewrite (ends_with_word_apart _ w shell_words Hend Hsh).
    replace (any (ends_with_word (lower (String c (l +:+ w)))) company_words) with true;
      [reflexivity|].
    symmetry. apply existsb_exists. exists w. split.
    + unfold plain_company_words, company_words in *. cbn [In] in *. tauto.
    + unfold ends_with_word. rewrite Hend. reflexivity.
  - unfold Extractor._calculate_confidence_score.
    destruct (decide (CORPORATION <> UNKNOWN)) as [_|Hne]; [|exfalso; apply Hne; discriminate].
    cbn [list_ascii_of_string any existsb]. rewrite Hc. cbn [orb].
    rewrite (upper_not_digit c Hc). cbn [orb]. unfold any.
    rewrite chars_append, existsb_app, (letters_no_digit _ Hl), Hdig. reflexivity.
  - apply existsb_exists. exists w. split; [exact Hw|].
    rewrite <- append_cons. apply ends_with_append.
Qed.
End PatternExtraction.

Lemma ends_with_word_match (pre m r : string) :
  at_end r = true -> ends_with_word (pre +:+ (m +:+ r)) m = true.
Proof.
  intros Hr. unfold ends_with_word. destruct (at_end_cases r Hr) as [->| ->].
  - rewrite append_nil_r, ends_with_append. reflexivity.
  - rewrite ends_with_append. apply orb_true_r.
Qed.

(** [_extract_entities_by_pattern] returns at most one entity.  The
    pattern is case-sensitive and its alternatives are closed by [$], so a
    match needs a lower-case company suffix at the very end of the text (a
    final newline apart), and the closing [\b] rejects the suffixes that end
    with a dot.  The entity found runs from a capital letter to the end of
    the text, is always classified as a corporation, and always gets the
    confidence 0.5 + 0.3 + 0.1, which is 0.9 on doubles and in exact
    arithmetic.  "Payment to Acme corp" gives one entity; "Payment from Acme
    Corp to Beta Inc" and "Payment to Acme inc." give none. *)
Theorem pattern_extraction_finds_one_corporation :
  (forall (F : Type) (PF : PyFloat F) (text : string),
      let found := Extractor._extract_entities_by_pattern (F:=F) text in
      (length found <= 1)%nat
      /\ Forall (fun e =>
                   e = Entity.init (Entity.name e) CORPORATION
                         (py_min (lit 0.5 .+ lit 0.3 .+ lit 0.1) (lit 1.0))
                         ["Pattern Matching"]
                   /\ ends_with_word text (Entity.name e) = true
                   /\ any (ends_with (Entity.name e)) plain_company_words = true)
                found)
  /\ (py_min (lit 0.5 .+ lit 0.3 .+ lit 0.1) (lit 1.0) : float) = 0.9%float
  /\ (py_min (lit 0.5 .+ lit 0.3 .+ lit 0.1) (lit 1.0) == 0.9)%Q
  /\ map Entity.name (Extractor._extract_entities_by_pattern (F:=float) "Payment to Acme corp")
     = ["Payment to Acme corp"]
  /\ Extractor._extract_entities_by_pattern (F:=float) "Payment from Acme Corp to Beta Inc"
     = []
  /\ Extractor._extract_entities_by_pattern (F:=float) "Payment to Acme inc." = [].
Proof.
  split; [|repeat split; vm_compute; reflexivity].
  intros F PF text found. subst found. unfold Extractor._extract_entities_by_pattern.
  destruct company_pattern_words as [Hwords Hclosed].
  destruct (finditer_spec Extractor.company_pattern None text Hclosed)
    as [->|(pre & c & l & w & r & prev' & Htext & -> & Hc & Hl & Hw & Hr & Hb)].
  - split; [cbn; lia | constructor].
  - rewrite Hwords in Hw.
    destruct (plain_word_of_match prev' w r Hw Hr Hb) as (Hplain & Hlow & Hdig).
    destruct (match_is_corporation (F:=F) c l w Hc Hl Hplain Hlow Hdig) as (Hty & Hconf & Hend).
    cbn [map length]. split; [lia|]. repeat constructor; cbn [Entity.name Entity.init].
    + rewrite Hty, Hconf. reflexivity.
    + rewrite Htext. apply ends_with_word_match, Hr.
    + exact Hend.
Qed.

Lemma suffix_words_apart :
  forallb (fun w => forallb (incomparable w) (with_newline nonprofit_words))
          (with_newline shell_words) = true
  /\ forallb (fun w => forallb (incomparable w) (with_newline nonprofit_words))
             (with_newline company_words) = true
  /\ forallb (fun w => forallb (incomparable w) (with_newline shell_words))
             (with_newline company_words) = true.
Proof. vm_compute. repeat split. Qed.

Lemma any_apart (s : string) (ws others : list string) :
  forallb (fun w => forallb (incomparable w) (with_newline others)) (with_newline ws) = true ->
  any (ends_with_word s) ws = true -> any (ends_with_word s) others = false.
Proof.
  intros Hall Hany. apply existsb_exists in Hany as (w & Hw & Hend).
  rewrite forallb_forall in Hall. unfold ends_with_word in Hend.
  apply orb_prop in Hend as [Hend|Hend].
  - apply (ends_with_word_apart s w others Hend). apply Hall.
    apply in_or_app. left. exact Hw.
  - apply (ends_with_word_apart s _ others Hend). apply Hall.
    apply in_or_app. right. apply (in_map (fun x => x +:+ newline)), Hw.
Qed.

(** [_classify_entity_type] is a list of tests on the lower-cased name:
    it ends with a non-profit word, else with a shell word, else with a
    company suffix (with or without its optional dot), else it contains a
    government word, else a financial word.  No name ends with words of two
    of the three suffix lists, so the order of the first three tests never
    matters: a name is a shell company exactly when it ends with a shell
    word and a corporation exactly when it ends with a company suffix.  The
    result depends on the name up to case only. *)
Theorem classify_by_suffix_words :
  (forall entity_name, _classify_entity_type entity_name = classify_by_words entity_name)
  /\ (forall entity_name,
         _classify_entity_type entity_name = SHELL_COMPANY
         <-> any (ends_with_word (lower entity_name)) shell_words = true)
  /\ (forall entity_name,
         _classify_entity_type entity_name = CORPORATION
         <-> any (ends_with_word (lower entity_name)) company_words = true)
  /\ (forall a b, lower a = lower b -> _classify_entity_type a = _classify_entity_type b).
Proof.
  destruct suffix_words_apart as (Hsn & Hcn & Hcs).
  split; [exact classify_eq_words|]. split; [|split].
  - intros n. rewrite classify_eq_words. unfold classify_by_words. split.
    + repeat match goal with |- context [if ?b then _ else _] => destruct b eqn:? end;
        try discriminate; reflexivity.
    + intros Hs. rewrite (any_apart _ _ _ Hsn Hs), Hs. reflexivity.
  - intros n. rewrite classify_eq_words. unfold classify_by_words. split.
    + repeat match goal with |- context [if ?b then _ else _] => destruct b eqn:? end;
        try discriminate; reflexivity.
    + intros Hc. rewrite (any_apart _ _ _ Hcn Hc), (any_apart _ _ _ Hcs Hc), Hc. reflexivity.
  - intros a b E. unfold _classify_entity_type. rewrite E. reflexivity.
Qed.

(** [_calculate_confidence_score] never needs its cap: the score is 0.5,
    plus 0.3 for a classified entity, plus 0.1 for a capital letter, plus
    0.1 for a digit.  It is at most 0.7 for an unknown entity and at least
    0.8 for a classified one; on doubles it is one of 0.5, 0.6, 0.7 (unknown)
    or 0.8, 0.9, 1.0 (classified). *)
Theorem confidence_score_values :
  (forall entity_name entity_type,
      let s := _calculate_confidence_score (F:=Q) entity_name entity_type in
      (s == 0.5 + (if decide (entity_type <> UNKNOWN) then 0.3 else 0)
              + (if any is_upper (list_ascii_of_string entity_name) then 0.1 else 0)
              + (if any isdigit (list_ascii_of_string entity_name) then 0.1 else 0))%Q
      /\ (0.5 <= s <= 1)%Q
      /\ (entity_type = UNKNOWN -> s <= 0.7)%Q
      /\ (entity_type <> UNKNOWN -> 0.8 <= s)%Q)
  /\ (forall entity_name entity_type,
         let s := _calculate_confidence_score (F:=float) entity_name entity_type in
         (entity_type = UNKNOWN /\ In s [0.5; 0.6; 0.7]%float)
         \/ (entity_type <> UNKNOWN /\ In s [0.8; 0.9; 1]%float)).
Proof.
  split.
  - intros n ty s. subst s. unfold _calculate_confidence_score.
    destruct (decide (ty <> UNKNOWN)) as [Hty|Hty];
      destruct (any is_upper _); destruct (any isdigit _);
      (split; [vm_compute; reflexivity|]);
      (split; [split; vm_compute; discriminate|]);
      (split; [intros E | intros E]); try contradiction; try (vm_compute; discriminate).
  - intros n ty s. subst s. unfold _calculate_confidence_score.
    destruct (decide (ty <> UNKNOWN)) as [Hty|Hty];
      destruct (any is_upper _); destruct (any isdigit _).
    all: first [ right; split; [exact Hty|]; vm_compute; tauto
               | left; split; [destruct ty; try reflexivity; exfalso; apply Hty; discriminate|];
                 vm_compute; tauto ].
Qed.

End ExtractorProperties.

(** ** RiskScorer, continued *)

Section ScoreInputs.
Import RiskScorer.
Lemma truthy_lower (j : option string) :
  truthy j = negb (String.eqb (lower (default "" j)) "").
Proof. destruct j as [[|c s]|]; reflexivity. Qed.

Lemma geographic_risk_lower {F} `{PyFloat F} (j1 j2 : option string) :
  lower (default "" j1) = lower (default "" j2) ->
  _calculate_geographic_risk (F:=F) j1 = _calculate_geographic_risk j2.
Proof.
  intros E. unfold _calculate_geographic_risk. rewrite !truthy_lower, E. reflexivity.
Qed.

Lemma anomaly_risk_severities {F} `{PyFloat F} (a1 a2 : option (list (Anomaly.t F)))
    (amount : option F) :
  map Anomaly.severity (default [] a1) = map Anomaly.severity (default [] a2) ->
  _calculate_anomaly_risk a1 amount = _calculate_anomaly_risk a2 amount.
Proof.
  unfold _calculate_anomaly_risk.
  destruct a1 as [[|x1 l1]|], a2 as [[|x2 l2]|]; cbn [default from_option id map];
    try reflexivity; try discriminate.
  intros E. unfold len. cbn [map]. rewrite E. reflexivity.
Qed.

(** [calculate_risk_score] reads four fields of the entity and the
    severities of the anomalies, nothing else: two entities of the same type,
    with sanctions statuses of the same truth value (None counts as false),
    the same reputation score and jurisdictions that are equal up to case
    (None counts as the empty string) get the same score, whatever their
    names, confidence scores, evidence, registration data and
    [risk_factors] are; of the anomalies only the list of severities
    counts, and no list counts as the empty list. *)
Theorem score_reads_four_fields {F} `{PyFloat F} (e1 e2 : Entity.t F)
    (a1 a2 : option (list (Anomaly.t F))) (amount : option F) :
  same_risk_inputs e1 e2 ->
  map Anomaly.severity (default [] a1) = map Anomaly.severity (default [] a2) ->
  calculate_risk_score e1 a1 amount = calculate_risk_score e2 a2 amount.
Proof.
  intros (Hty & Hsa & Hre & Hju) Han.
  unfold calculate_risk_score, total_risk, factors, risk_scores. cbn [map].
  rewrite Hty, Hsa, Hre, (geographic_risk_lower _ _ Hju), (anomaly_risk_severities _ _ _ Han).
  reflexivity.
Qed.

(** Two corporations that differ in name, in the case of the jurisdiction
    and in the incorporation date, one scored without anomalies and one with
    the empty list. *)
Lemma score_reads_four_fields_witness :
  calculate_risk_score (F:=float)
    (registered "Volga Trading" CORPORATION "RU" "2001-05-17") None (Some (lit 5000))
  = calculate_risk_score
      (registered "Volga Export" CORPORATION "ru" "not a date") (Some []) (Some (lit 5000)).
Proof.
  apply (score_reads_four_fields (F:=float)); [repeat split | reflexivity].
Defined.

Lemma Q_clamp_monotone (t1 t2 : Q) :
  (t1 <= t2)%Q ->
  (py_min (py_max t1 (lit 0.0)) (lit 1.0) <= py_min (py_max t2 (lit 0.0)) (lit 1.0))%Q.
Proof.
  intros Ht. unfold py_max. cbn [lit flt PyFloat_Q].
  destruct (Q_ltb t1 0.0) eqn:E1; destruct (Q_ltb t2 0.0) eqn:E2;
    unfold py_min; cbn [lit flt PyFloat_Q];
    repeat match goal with
           | |- context [Q_ltb ?x ?y] => let E := fresh "E" in destruct (Q_ltb x y) eqn:E
           end;
    repeat match goal with
           | H : Q_ltb _ _ = true |- _ => apply Q_ltb_true in H
           | H : Q_ltb _ _ = false |- _ => apply Q_ltb_false in H
           end; lra.
Qed.

Lemma Q_total_risk_eq (e : Entity.t Q) a amount :
  (total_risk e a amount
   == risk_scores e a amount entity_type * 0.3
      + risk_scores e a amount sanctions * 0.25
      + risk_scores e a amount reputation * 0.2
      + risk_scores e a amount anomalies * 0.15
      + risk_scores e a amount geographic * 0.1)%Q.
Proof.
  unfold total_risk, factors. cbn [map fsum PyFloat_Q fmul weights lit].
  unfold Q_sum. cbn [fold_left]. lra.
Qed.

(** In exact arithmetic the weighted sum falls by 0.2 for each point of
    reputation and rises by exactly 0.2 when the entity is sanctioned (an
    absent status counts as not sanctioned), so the score never rises with
    a better reputation and never falls with a sanction. *)
Theorem reputation_and_sanctions_move_score :
  (forall (e : Entity.t Q) a amount r1 r2,
      (total_risk (with_reputation (Some r1) e) a amount
       - total_risk (with_reputation (Some r2) e) a amount == 0.2 * (r2 - r1))%Q
      /\ ((r1 <= r2)%Q ->
          (calculate_risk_score (with_reputation (Some r2) e) a amount
           <= calculate_risk_score (with_reputation (Some r1) e) a amount)%Q))
  /\ (forall (e : Entity.t Q) a amount,
         (total_risk (with_sanctions (Some true) e) a amount
          == total_risk (with_sanctions (Some false) e) a amount + 0.2)%Q
         /\ total_risk (with_sanctions None e) a amount
            = total_risk (with_sanctions (Some false) e) a amount
         /\ (calculate_risk_score (with_sanctions (Some false) e) a amount
             <= calculate_risk_score (with_sanctions (Some true) e) a amount)%Q).
Proof.
  split.
  - intros e a amount r1 r2.
    assert (E : (total_risk (with_reputation (Some r1) e) a amount
                 - total_risk (with_reputation (Some r2) e) a amount == 0.2 * (r2 - r1))%Q).
    { rewrite !Q_total_risk_eq. unfold risk_scores, with_reputation.
      cbn [Entity.type Entity.sanctions_status Entity.reputation_score Entity.jurisdiction
           lit fsub PyFloat_Q]. lra. }
    split; [exact E|]. intros Hr. apply Q_clamp_monotone. lra.
  - intros e a amount.
    assert (E : (total_risk (with_sanctions (Some true) e) a amount
                 == total_risk (with_sanctions (Some false) e) a amount + 0.2)%Q).
    { rewrite !Q_total_risk_eq. unfold risk_scores, with_sanctions.
      cbn [Entity.type Entity.sanctions_status Entity.reputation_score Entity.jurisdiction
           lit fsub PyFloat_Q default from_option id]. lra. }
    split; [exact E|]. split; [reflexivity|]. apply Q_clamp_monotone. lra.
Qed.

Lemma Q_geographic_risk_cases (j : option string) :
  match j with
  | Some s =>
      if bool_decide (is_Some (high_risk_jurisdictions (F:=Q) !! lower s))
      then (0.6 <= _calculate_geographic_risk (F:=Q) j <= 0.9)%Q
      else _calculate_geographic_risk (F:=Q) j = 0.5%Q
  | None => _calculate_geographic_risk (F:=Q) j = 0.5%Q
  end.
Proof.
  destruct j as [s|]; [|reflexivity].
  unfold _calculate_geographic_risk. destruct s as [|c s].
  - reflexivity.
  - cbn [truthy default from_option id]. generalize (lower (String c s)). intros k.
    destruct (high_risk_jurisdictions !! k) as [w|] eqn:E.
    + rewrite bool_decide_eq_true_2 by eauto. cbn [default from_option id].
      apply elem_of_list_to_map_2 in E.
      repeat (apply elem_of_cons in E as [E|E];
              [injection E as _ ->; cbn [lit PyFloat_Q]; lra|]).
      apply elem_of_nil in E. destruct E.
    + rewrite bool_decide_eq_false_2 by (intros [? ?]; discriminate). reflexivity.
Qed.

(** The reason and the score agree on geography: in exact arithmetic the
    geographic risk lies between 0.5 and 0.9, it is above the neutral 0.5
    exactly when the reason carries the clause for a high-risk jurisdiction
    (which quotes the jurisdiction as given, in its own case), and it is 0.5
    exactly when the reason has no such clause. *)
Theorem reason_names_jurisdiction_iff_geographic_risk (entity : Entity.t Q)
    (risk_score : Q) (anomalies : option (list (Anomaly.t Q))) (amount : option Q) :
  (0.5 <= risk_scores entity anomalies amount geographic <= 0.9)%Q
  /\ ((0.5 < risk_scores entity anomalies amount geographic)%Q
      <-> exists j, Entity.jurisdiction entity = Some j
                    /\ jurisdiction_clause entity
                       = ["Entity is based in a high-risk jurisdiction (" +:+ j +:+ ")"])
  /\ ((risk_scores entity anomalies amount geographic == 0.5)%Q
      <-> jurisdiction_clause entity = [])
  /\ generate_risk_reason entity risk_score anomalies
     = join " | "
         (match
            (type_clause entity ++ sanctions_clause entity ++ reputation_clause entity
             ++ anomaly_clauses anomalies ++ jurisdiction_clause entity)
          with
          | [] => [fallback_clause]
          | reasons => reasons
          end).
Proof.
  pose proof (Q_geographic_risk_cases (Entity.jurisdiction entity)) as Hgeo.
  unfold risk_scores, jurisdiction_clause.
  split; [|split; [|split; [|apply generate_risk_reason_clauses]]].
  - destruct (Entity.jurisdiction entity) as [j|]; [destruct (bool_decide _)|];
      try rewrite Hgeo; lra.
  - destruct (Entity.jurisdiction entity) as [j|]; [destruct (bool_decide _)|].
    + split; [eauto|]. intros _. lra.
    + rewrite Hgeo. split; [lra|]. intros (? & _ & [=]).
    + rewrite Hgeo. split; [lra|]. intros (? & [=] & _).
  - destruct (Entity.jurisdiction entity) as [j|]; [destruct (bool_decide _)|].
    + split; [lra | discriminate].
    + rewrite Hgeo. split; reflexivity.
    + rewrite Hgeo. split; reflexivity.
Qed.
End ScoreInputs.

Section AnomalyRisk.
Import RiskScorer.

Lemma amount_factor_monotone (x y : Q) : (x <= y)%Q -> (amount_factor x <= amount_factor y)%Q.
Proof.
  intros Hxy. unfold amount_factor, py_min. cbn [lit flt fdiv PyFloat_Q].
  assert (Hd : (x / 1000000 <= y / 1000000)%Q).
  { unfold Qdiv. apply Qmult_le_compat_r; [exact Hxy | vm_compute; discriminate]. }
  repeat match goal with
         | |- context [Q_ltb ?a ?b] => let E := fresh "E" in destruct (Q_ltb a b) eqn:E
         end;
  repeat match goal with
         | H : Q_ltb _ _ = true |- _ => apply Q_ltb_true in H
         | H : Q_ltb _ _ = false |- _ => apply Q_ltb_false in H
         end; lra.
Qed.

Lemma amount_factor_saturates (x : Q) : (1000000 <= x)%Q -> (amount_factor x == 1)%Q.
Proof.
  intros Hx. unfold amount_factor, py_min. cbn [lit flt fdiv PyFloat_Q].
  assert (Hd : (1 <= x / 1000000)%Q) by (apply Qle_shift_div_l; lra).
  destruct (Q_ltb 1.0 (x / 1000000)) eqn:E; [reflexivity|].
  apply Q_ltb_false in E. lra.
Qed.

Lemma Q_sum_permutation (l1 l2 : list Q) : Permutation l1 l2 -> (Q_sum l1 == Q_sum l2)%Q.
Proof.
  induction 1 as [|x l1 l2 _ IH|x y l|l1 l2 l3 _ IH1 _ IH2].
  - reflexivity.
  - rewrite !Q_sum_cons, IH. reflexivity.
  - rewrite !Q_sum_cons. lra.
  - rewrite IH1. exact IH2.
Qed.

Lemma Q_anomaly_risk_eq (a : Anomaly.t Q) (l : list (Anomaly.t Q)) (amount : option Q) :
  _calculate_anomaly_risk (Some (a :: l)) amount
  = let avg := (Q_sum (map Anomaly.severity (a :: l))
                / inject_Z (Z.of_nat (length (a :: l))))%Q in
    match amount with
    | Some x => ((avg + amount_factor x) / 2)%Q
    | None => avg
    end.
Proof.
  unfold _calculate_anomaly_risk, len, amount_factor.
  cbn [lit fsum fdiv fadd PyFloat_Q]. rewrite length_map. destruct amount; reflexivity.
Qed.

(** [_calculate_anomaly_risk] in exact arithmetic: a larger amount never
    lowers the risk; all amounts from 1,000,000 on give the same risk; the
    order of the anomalies does not matter.  Without anomalies (None or the
    empty list) the risk is 0.0 whatever the amount is, for every number
    type. *)
Theorem anomaly_risk_grows_with_amount :
  (forall (l : list (Anomaly.t Q)) x y,
      (x <= y)%Q ->
      (_calculate_anomaly_risk (Some l) (Some x) <= _calculate_anomaly_risk (Some l) (Some y))%Q)
  /\ (forall (l : list (Anomaly.t Q)) x y,
         (1000000 <= x)%Q -> (1000000 <= y)%Q ->
         (_calculate_anomaly_risk (Some l) (Some x)
          == _calculate_anomaly_risk (Some l) (Some y))%Q)
  /\ (forall (l1 l2 : list (Anomaly.t Q)) amount,
         Permutation l1 l2 ->
         (_calculate_anomaly_risk (Some l1) amount
          == _calculate_anomaly_risk (Some l2) amount)%Q)
  /\ (forall (F : Type) (PF : PyFloat F) (amount : option F),
         _calculate_anomaly_risk None amount = lit 0.0
         /\ _calculate_anomaly_risk (Some []) amount = lit 0.0).
Proof.
  split; [|split; [|split]].
  - intros [|a l] x y Hxy; [cbn; lra|]. rewrite !Q_anomaly_risk_eq. cbv zeta.
    pose proof (amount_factor_monotone x y Hxy).
    generalize dependent (amount_factor x). generalize dependent (amount_factor y).
    intros fy fx Hf. generalize (Q_sum (map Anomaly.severity (a :: l))
                                 / inject_Z (Z.of_nat (length (a :: l))))%Q.
    intros avg. apply Qmult_le_compat_r; [lra | vm_compute; discriminate].
  - intros [|a l] x y Hx Hy; [reflexivity|]. rewrite !Q_anomaly_risk_eq. cbv zeta.
    rewrite (amount_factor_saturates x Hx), (amount_factor_saturates y Hy). reflexivity.
  - intros l1 l2 amount Hp.
    destruct l1 as [|a1 l1], l2 as [|a2 l2]; try reflexivity.
    + apply Permutation_nil in Hp. discriminate.
    + symmetry in Hp. apply Permutation_nil in Hp. discriminate.
    + rewrite !Q_anomaly_risk_eq. cbv zeta.
      pose proof (Q_sum_permutation _ _ (Permutation_map Anomaly.severity Hp)) as Es.
      rewrite (Permutation_length Hp).
      destruct amount as [x|]; rewrite Es; reflexivity.
  - intros. split; reflexivity.
Qed.
End AnomalyRisk.

(** ** AnomalyDetector, continued *)

Section DetectorHistory.
Context {F : Type} `{PyFloat F}.
Variable format_float : F -> string.
Import AnomalyDetector.

Lemma first_seen_at_update (current_time : datetime) (name other : string) (amount : F)
    (currency : string) (st : gmap string (history F)) :
  first_seen_at current_time
    (_update_transaction_history current_time name amount currency st) other
  = first_seen_at current_time st other.
Proof.
  unfold first_seen_at. destruct (decide (name = other)) as [<-|Hne].
  - rewrite update_lookup. destruct (st !! name); reflexivity.
  - rewrite update_lookup_ne by exact Hne. reflexivity.
Qed.

Lemma is_new_entity_eq (current_time : datetime) (name : string) (st : gmap string (history F)) :
  _is_new_entity current_time name st
  = bool_decide (days (current_time - first_seen_at current_time st name) < 30).
Proof.
  unfold _is_new_entity, first_seen_at, thresholds.new_entity.
  destruct (st !! name) as [h|]; cbn [from_option]; [reflexivity|].
  rewrite Z.sub_diag. reflexivity.
Qed.

Lemma in_if_singleton {A} (b : bool) (x a : A) :
  In a (if b then [x] else []) <-> b = true /\ x = a.
Proof. destruct b; cbn; intuition discriminate. Qed.

Lemma entity_flags_new_entity (current_time : datetime) (name n : string) (st : gmap string (history F)) :
  In (new_entity_anomaly n) (entity_flags current_time name st)
  <-> name = n /\ _is_new_entity current_time name st = true.
Proof.
  unfold entity_flags. rewrite !in_app_iff, !in_if_singleton. unfold new_entity_anomaly.
  split.
  - intros [[_ [=]]|[[_ [=]]|[Hn [= E]]]]. split; [|exact Hn].
    eapply String.app_inj, E.
  - intros [-> Hn]. right. right. split; [exact Hn | reflexivity].
Qed.

Lemma detect_anomalies_eq (current_time : datetime) (amount : F) (currency : string)
    (entities : list (Entity.t F)) (st : gmap string (history F)) :
  detect_anomalies format_float current_time amount currency entities st
  = fold_left (detect_entity current_time amount currency) entities
      (amount_flags format_float amount currency, st).
Proof.
  unfold detect_anomalies, amount_flags, append.
  destruct (amount .> int thresholds.amount), (_is_round_number amount); reflexivity.
Qed.

Lemma detect_loop_new_entity (current_time : datetime) (amount : F) (currency : string)
    (entities : list (Entity.t F)) (anomalies : list (Anomaly.t F)) (st : gmap string (history F))
    (n : string) :
  In (new_entity_anomaly n)
     (fold_left (detect_entity current_time amount currency) entities (anomalies, st)).1
  <-> In (new_entity_anomaly n) anomalies
      \/ ((exists e, In e entities /\ Entity.name e = n)
          /\ days (current_time - first_seen_at current_time st n) < 30).
Proof.
  revert anomalies st. induction entities as [|e es IH]; intros anomalies st;
    cbn [fold_left fst].
  - split; [tauto|]. intros [Hin|[(e & [] & _) _]]. exact Hin.
  - rewrite detect_entity_eq, IH, in_app_iff, entity_flags_new_entity, is_new_entity_eq,
      bool_decide_eq_true, !first_seen_at_update.
    split.
    + intros [[Hin|[<- Hd]]|[(e' & He' & Hn) Hd]]; [tauto| |].
      * right. split; [exists e; split; [left|]; reflexivity | exact Hd].
      * right. split; [exists e'; split; [right|]; assumption | exact Hd].
    + intros [Hin|[(e' & [<-|He'] & Hn) Hd]]; [tauto| |].
      * left. right. subst n. split; [reflexivity | exact Hd].
      * right. split; [exists e'; split; assumption | exact Hd].
Qed.

Lemma detect_loop_first_seen_at (current_time : datetime) (amount : F) (currency : string)
    (entities : list (Entity.t F)) (anomalies : list (Anomaly.t F)) (st : gmap string (history F))
    (n : string) :
  first_seen_at current_time
    (fold_left (detect_entity current_time amount currency) entities (anomalies, st)).2 n
  = first_seen_at current_time st n.
Proof.
  revert anomalies st. induction entities as [|e es IH]; intros anomalies st;
    cbn [fold_left snd]; [reflexivity|].
  rewrite detect_entity_eq, IH. apply first_seen_at_update.
Qed.

Lemma detect_loop_keeps (current_time : datetime) (amount : F) (currency : string)
    (entities : list (Entity.t F)) (anomalies : list (Anomaly.t F)) (st : gmap string (history F))
    (n : string) (h : history F) :
  st !! n = Some h ->
  exists h',
    (fold_left (detect_entity current_time amount currency) entities (anomalies, st)).2 !! n
    = Some h' /\ first_seen h' = first_seen h.
Proof.
  revert anomalies st h. induction entities as [|e es IH]; intros anomalies st h Hn;
    cbn [fold_left snd]; [eauto|].
  rewrite detect_entity_eq.
  destruct (decide (Entity.name e = n)) as [<-|Hne].
  - edestruct IH as (h' & -> & E); [apply update_lookup|].
    exists h'. split; [reflexivity|]. rewrite E, Hn. reflexivity.
  - apply IH. rewrite update_lookup_ne by exact Hne. exact Hn.
Qed.

Lemma detect_loop_known (current_time : datetime) (amount : F) (currency : string)
    (entities : list (Entity.t F)) (anomalies : list (Anomaly.t F)) (st : gmap string (history F))
    (e : Entity.t F) :
  In e entities ->
  is_Some ((fold_left (detect_entity current_time amount currency) entities
              (anomalies, st)).2 !! Entity.name e).
Proof.
  revert anomalies st. induction entities as [|e' es IH]; intros anomalies st [];
    cbn [fold_left]; rewrite detect_entity_eq.
  - subst e'.
    edestruct (detect_loop_keeps current_time amount currency es) as (h' & -> & _);
      [apply update_lookup | eauto].
  - apply IH. assumption.
Qed.

(** One call of [detect_anomalies], from any history.  A new_entity
    anomaly for a name is returned exactly when the name is among the
    entities of the call and fewer than 30 whole days have passed since the
    entity was first seen; an entity without history is first seen now, so
    it is always flagged (the branch of [_is_new_entity] for an unknown name
    is never taken here, the history being updated first).  The call never
    changes the time an entity was first seen, and every entity of the call
    has a history afterwards. *)
Theorem new_entity_for_thirty_days (current_time : datetime) (amount : F)
    (currency : string) (entities : list (Entity.t F)) (st : gmap string (history F)) :
  let r := detect_anomalies format_float current_time amount currency entities st in
  (forall n,
      In (new_entity_anomaly n) r.1
      <-> (exists e, In e entities /\ Entity.name e = n)
          /\ days (current_time - first_seen_at current_time st n) < 30)
  /\ (forall e, In e entities -> st !! Entity.name e = None ->
                In (new_entity_anomaly (Entity.name e)) r.1)
  /\ (forall n h, st !! n = Some h ->
                  exists h', r.2 !! n = Some h' /\ first_seen h' = first_seen h)
  /\ (forall e, In e entities ->
                exists h', r.2 !! Entity.name e = Some h'
                           /\ first_seen h' = first_seen_at current_time st (Entity.name e)).
Proof.
  intros r. subst r. rewrite detect_anomalies_eq.
  assert (Hnew : forall n,
             In (new_entity_anomaly n)
                (fold_left (detect_entity current_time amount currency) entities
                   (amount_flags format_float amount currency, st)).1
             <-> (exists e, In e entities /\ Entity.name e = n)
                 /\ days (current_time - first_seen_at current_time st n) < 30).
  { intros n. rewrite detect_loop_new_entity.
    assert (Hno : ~ In (new_entity_anomaly n) (amount_flags format_float amount currency)).
    { unfold amount_flags. rewrite in_app_iff, !in_if_singleton. unfold new_entity_anomaly.
      intros [[_ [=]]|[_ [=]]]. }
    tauto. }
  split; [exact Hnew|]. split; [|split].
  - intros e He Hnone. apply Hnew. split; [eauto|].
    unfold first_seen_at. rewrite Hnone. cbn [from_option]. rewrite Z.sub_diag. reflexivity.
  - intros n h Hn. apply detect_loop_keeps, Hn.
  - intros e He.
    destruct (detect_loop_known current_time amount currency entities
                (amount_flags format_float amount currency) st e He) as [h' Hh'].
    exists h'. split; [exact Hh'|].
    pose proof (detect_loop_first_seen_at current_time amount currency entities
                  (amount_flags format_float amount currency) st (Entity.name e)) as E.
    unfold first_seen_at at 1 in E. rewrite Hh' in E. exact E.
Qed.
Lemma detect_loop_frame (current_time : datetime) (amount : F) (currency : string)
    (entities : list (Entity.t F)) (anomalies : list (Anomaly.t F))
    (st : gmap string (history F)) (n : string) :
  (forall e, In e entities -> Entity.name e <> n) ->
  (fold_left (detect_entity current_time amount currency) entities (anomalies, st)).2 !! n
  = st !! n.
Proof.
  revert anomalies st. induction entities as [|e es IH]; intros anomalies st Hn;
    cbn [fold_left snd]; [reflexivity|].
  rewrite detect_entity_eq, IH by (intros e' He'; apply Hn; right; exact He').
  apply update_lookup_ne, Hn. left. reflexivity.
Qed.

Lemma entity_flags_local (current_time : datetime) (name : string)
    (st st' : gmap string (history F)) :
  st !! name = st' !! name ->
  entity_flags current_time name st = entity_flags current_time name st'.
Proof.
  intros E. unfold entity_flags, _check_transaction_frequency, _check_transaction_velocity,
    _is_new_entity. rewrite E. reflexivity.
Qed.

Lemma update_local (current_time : datetime) (name other : string) (amount : F)
    (currency : string) (st st' : gmap string (history F)) :
  st !! name = st' !! name -> st !! other = st' !! other ->
  _update_transaction_history current_time name amount currency st !! other
  = _update_transaction_history current_time name amount currency st' !! other.
Proof.
  intros En Eo. destruct (decide (name = other)) as [<-|Hne].
  - rewrite !update_lookup, En. reflexivity.
  - rewrite !update_lookup_ne by exact Hne. exact Eo.
Qed.

Lemma detect_loop_local (current_time : datetime) (amount : F) (currency : string)
    (entities : list (Entity.t F)) (anomalies : list (Anomaly.t F))
    (st st' : gmap string (history F)) :
  agree_on entities st st' ->
  (fold_left (detect_entity current_time amount currency) entities (anomalies, st)).1
  = (fold_left (detect_entity current_time amount currency) entities (anomalies, st')).1
  /\ agree_on entities
       (fold_left (detect_entity current_time amount currency) entities (anomalies, st)).2
       (fold_left (detect_entity current_time amount currency) entities (anomalies, st')).2.
Proof.
  revert anomalies st st'. induction entities as [|e es IH]; intros anomalies st st' Hag;
    cbn [fold_left]; [split; [reflexivity | exact Hag]|].
  rewrite !detect_entity_eq.
  assert (He : st !! Entity.name e = st' !! Entity.name e) by (apply Hag; left; reflexivity).
  rewrite (entity_flags_local current_time (Entity.name e)
             (_update_transaction_history current_time (Entity.name e) amount currency st)
             (_update_transaction_history current_time (Entity.name e) amount currency st'))
    by (apply update_local; exact He).
  set (st1 := _update_transaction_history current_time (Entity.name e) amount currency st).
  set (st1' := _update_transaction_history current_time (Entity.name e) amount currency st').
  assert (Hag1 : forall e', In e' (e :: es) -> st1 !! Entity.name e' = st1' !! Entity.name e').
  { intros e' He'. apply update_local; [exact He | apply Hag, He']. }
  destruct (IH (anomalies ++ entity_flags current_time (Entity.name e) st1') st1 st1'
              (fun e' He' => Hag1 e' (or_intror He'))) as [Eout Hag'].
  split; [exact Eout|].
  intros e' [Ee|He']; [subst e' | exact (Hag' e' He')].
  destruct (in_dec (fun a b : string => decide (a = b)) (Entity.name e) (map Entity.name es))
    as [Hin|Hout].
  - apply in_map_iff in Hin as (e'' & En & Hin).
    pose proof (Hag' e'' Hin) as X. rewrite En in X. exact X.
  - rewrite !detect_loop_frame.
    + apply Hag1. left. reflexivity.
    + intros e'' He'' En. apply Hout. rewrite <- En. apply in_map, He''.
    + intros e'' He'' En. apply Hout. rewrite <- En. apply in_map, He''.
Qed.

(** [detect_anomalies] reads and writes the histories of the entities it
    is called with, and no others: the history of every other name is left as
    it was, two detectors that agree on the histories of the named entities
    return the same anomalies, and no entity is ever dropped from the
    history (pruning empties the lists, the entry stays). *)
Theorem detect_anomalies_touches_named_entities (current_time : datetime) (amount : F)
    (currency : string) (entities : list (Entity.t F)) :
  (forall (st : gmap string (history F)) n,
      (forall e, In e entities -> Entity.name e <> n) ->
      (detect_anomalies format_float current_time amount currency entities st).2 !! n
      = st !! n)
  /\ (forall st st' : gmap string (history F),
         agree_on entities st st' ->
         (detect_anomalies format_float current_time amount currency entities st).1
         = (detect_anomalies format_float current_time amount currency entities st').1)
  /\ (forall (st : gmap string (history F)) n,
         is_Some (st !! n) ->
         is_Some ((detect_anomalies format_float current_time amount currency entities st).2
                    !! n)).
Proof.
  split; [|split].
  - intros st n Hn. rewrite detect_anomalies_eq. apply detect_loop_frame, Hn.
  - intros st st' Hag. rewrite !detect_anomalies_eq. apply detect_loop_local, Hag.
  - intros st n [h Hn]. rewrite detect_anomalies_eq.
    destruct (detect_loop_keeps current_time amount currency entities
                (amount_flags format_float amount currency) st n h Hn) as (h' & -> & _).
    eauto.
Qed.
Lemma cutoff_date_lt (current_time : datetime) :
  date_of (current_time - timedelta_days 30) < date_of current_time.
Proof.
  unfold date_of, timedelta_days.
  replace (current_time - 30 * us_per_day) with (current_time + (-30) * us_per_day) by lia.
  rewrite Z.div_add by (unfold us_per_day; lia). lia.
Qed.

Lemma update_day_total (current_time : datetime) (name : string) (amount : F)
    (currency : string) (st : gmap string (history F)) :
  let st' := _update_transaction_history current_time name amount currency st in
  exists h, st' !! name = Some h
            /\ daily_amounts h !! date_of current_time
               = Some (day_total (date_of current_time) st name .+ amount).
Proof.
  intros st'. subst st'. rewrite update_lookup. eexists. split; [reflexivity|].
  unfold updated_history, day_total. cbn [daily_amounts].
  apply map_lookup_filter_Some_2; [|cbn; apply cutoff_date_lt].
  rewrite lookup_alter_eq.
  destruct (st !! name) as [h|]; cbn [default from_option id mbind option_bind fresh_history
                                       daily_amounts].
  - destruct (daily_amounts h !! date_of current_time) as [v|] eqn:E.
    + rewrite E. reflexivity.
    + rewrite lookup_insert_eq. reflexivity.
  - rewrite lookup_empty, lookup_insert_eq. reflexivity.
Qed.

Lemma entity_flags_high_velocity (current_time : datetime) (name : string)
    (st : gmap string (history F)) :
  has_type "high_velocity" (entity_flags current_time name st)
  = _check_transaction_velocity current_time name st.
Proof.
  unfold entity_flags.
  destruct (_check_transaction_frequency _ _ _), (_check_transaction_velocity _ _ _),
    (_is_new_entity _ _ _); reflexivity.
Qed.

Lemma detect_single_velocity (current_time : datetime) (amount : F) (currency : string)
    (entity : Entity.t F) (st : gmap string (history F)) :
  let st' :=
    _update_transaction_history current_time (Entity.name entity) amount currency st in
  has_type "high_velocity"
    (detect_anomalies format_float current_time amount currency [entity] st).1
  = (day_total (date_of current_time) st (Entity.name entity) .+ amount
     .> int thresholds.velocity)
  /\ (detect_anomalies format_float current_time amount currency [entity] st).2 = st'
  /\ day_total (date_of current_time) st' (Entity.name entity)
     = day_total (date_of current_time) st (Entity.name entity) .+ amount.
Proof.
  intros st'. rewrite detect_anomalies_eq. cbn [fold_left]. rewrite detect_entity_eq.
  cbn [fst snd]. fold st'.
  destruct (update_day_total current_time (Entity.name entity) amount currency st)
    as (h & Hh & Hd). fold st' in Hh.
  split; [|split; [reflexivity|]].
  - rewrite has_type_app, entity_flags_high_velocity.
    unfold _check_transaction_velocity. rewrite Hh, Hd. cbn [default from_option id].
    unfold amount_flags.
    destruct (amount .> int thresholds.amount), (_is_round_number amount); reflexivity.
  - unfold day_total at 1. rewrite Hh. cbn [mbind option_bind]. rewrite Hd. reflexivity.
Qed.

Lemma run_velocity (D : date) (name : string) (calls : list (Run.call F)) :
  forall st : gmap string (history F),
    Forall (single_entity_call D name) calls ->
    map (has_type "high_velocity") (Run.run format_float calls st).1
    = map (fun total => total .> int thresholds.velocity)
          (running_totals (day_total D st name) (map Run.amount calls)).
Proof.
  induction calls as [|c calls IH]; intros st Hcalls; [reflexivity|].
  inversion Hcalls as [|? ? [Hday (e & He & Hname)] Hrest]; subst.
  rewrite run_cons. cbn [fst snd map running_totals]. rewrite He.
  destruct (detect_single_velocity (Run.now c) (Run.amount c) (Run.currency c) e st)
    as (-> & -> & Etotal).
  rewrite (IH _ Hrest), Etotal. reflexivity.
Qed.
(** Velocity is cumulative per calendar day.  In calls of one day for one
    entity, each call adds its amount to the amount recorded for that day,
    from left to right, and returns a high_velocity anomaly exactly when the
    total so far exceeds 100000; the recorded amount of the day survives
    whatever happens to the list of transactions. *)
Theorem high_velocity_on_running_total (D : date) (name : string)
    (calls : list (Run.call F)) (st : gmap string (history F)) :
  Forall (single_entity_call D name) calls ->
  map (has_type "high_velocity") (Run.run format_float calls st).1
  = map (fun total => total .> int 100000)
        (running_totals (day_total D st name) (map Run.amount calls))
  /\ day_total D (∅ : gmap string (history F)) name = int 0.
Proof.
  intros Hcalls. split; [apply run_velocity, Hcalls | reflexivity].
Qed.

Lemma detect_loop_large (current_time : datetime) (amount : F) (currency : string)
    (entities : list (Entity.t F)) (anomalies : list (Anomaly.t F))
    (st : gmap string (history F)) (P : Anomaly.t F -> Prop) :
  (forall a, Anomaly.type a <> "large_transaction" -> P a) ->
  Forall P anomalies ->
  has_type "large_transaction"
    (fold_left (detect_entity current_time amount currency) entities (anomalies, st)).1
  = has_type "large_transaction" anomalies
  /\ Forall P
       (fold_left (detect_entity current_time amount currency) entities (anomalies, st)).1.
Proof.
  intros HP. revert anomalies st. induction entities as [|e es IH]; intros anomalies st Ha;
    cbn [fold_left]; [split; [reflexivity | exact Ha]|].
  rewrite detect_entity_eq.
  assert (Hflags : has_type "large_transaction"
                     (entity_flags current_time (Entity.name e)
                        (_update_transaction_history current_time (Entity.name e) amount
                           currency st)) = false
                   /\ Forall P
                        (entity_flags current_time (Entity.name e)
                           (_update_transaction_history current_time (Entity.name e) amount
                              currency st))).
  { unfold entity_flags.
    destruct (_check_transaction_frequency _ _ _), (_check_transaction_velocity _ _ _),
      (_is_new_entity _ _ _); (split; [reflexivity|]); repeat constructor;
      apply HP; discriminate. }
  destruct Hflags as [Hno Hall].
  destruct (IH (anomalies ++ entity_flags current_time (Entity.name e)
                               (_update_transaction_history current_time (Entity.name e)
                                  amount currency st))
               (_update_transaction_history current_time (Entity.name e) amount currency st)
               (Forall_app_2 _ _ _ Ha Hall)) as [-> Hres].
  split; [|exact Hres]. rewrite has_type_app, Hno. apply orb_false_r.
Qed.
End DetectorHistory.

(** Two calls of 60000.5 within a minute: the second one exceeds the daily
    limit. *)
Lemma high_velocity_on_running_total_witness :
  map (has_type "high_velocity") (Run.run format_stub velocity_calls ∅).1 = [false; true].
Proof.
  rewrite (proj1 (high_velocity_on_running_total format_stub (ordinal 2024 6 1) "Acme Corp"
                    velocity_calls ∅
                    ltac:(repeat constructor; eexists; split; reflexivity))).
  vm_compute. reflexivity.
Defined.

Lemma Q_large_severity (amount : Q) :
  Q_ltb 1000000 amount = true -> py_min (amount ./ lit 1000000) (lit 1.0) = (lit 1.0 : Q).
Proof.
  intros Hgt. apply Q_ltb_true in Hgt. unfold py_min. cbn [lit flt fdiv PyFloat_Q].
  assert (Hd : (1 < amount / 1000000)%Q) by (apply Qlt_shift_div_l; lra).
  destruct (Q_ltb 1.0 (amount / 1000000)) eqn:E; [reflexivity|].
  apply Q_ltb_false in E. lra.
Qed.

(** The severity of a large_transaction anomaly is written as
    min(amount / 1000000, 1.0), but the anomaly is only made for amounts
    above 1,000,000: in exact arithmetic the severity is always 1.0, in
    [detect_anomalies] and in the rules of the generator alike.  A
    large_transaction anomaly is returned exactly when the amount exceeds
    1,000,000, for every number type. *)
Theorem large_transaction_severity_is_one :
  (forall (F : Type) (PF : PyFloat F) format_float current_time (amount : F) currency
          entities st,
      has_type "large_transaction"
        (AnomalyDetector.detect_anomalies format_float current_time amount currency
           entities st).1
      = (amount .> lit 1000000))
  /\ (forall format_float current_time (amount : Q) currency entities st,
         Forall (fun a => Anomaly.type a = "large_transaction" -> Anomaly.severity a = lit 1.0)
                (AnomalyDetector.detect_anomalies format_float current_time amount currency
                   entities st).1)
  /\ (forall (F : Type) (PF : PyFloat F) format_float (amount : F),
         has_type "large_transaction" (FakeDataGenerator.amount_anomalies format_float amount)
         = (amount .> lit 1000000))
  /\ (forall format_float (amount : Q),
         Forall (fun a => Anomaly.type a = "large_transaction" -> Anomaly.severity a = lit 1.0)
                (FakeDataGenerator.amount_anomalies format_float amount)).
Proof.
  split; [|split; [|split]].
  - intros. rewrite detect_anomalies_eq.
    destruct (detect_loop_large current_time amount currency entities
                (amount_flags format_float amount currency) st (fun _ => True)) as [-> _];
      [tauto | apply Forall_forall; tauto|].
    unfold amount_flags, AnomalyDetector.int, AnomalyDetector.thresholds.amount.
    change (inject_Z 1000000) with (1000000 : Q).
    destruct (amount .> lit 1000000), (AnomalyDetector._is_round_number amount); reflexivity.
  - intros. rewrite detect_anomalies_eq.
    apply detect_loop_large; [intros a Ha Hty; contradiction|].
    unfold amount_flags, AnomalyDetector.int, AnomalyDetector.thresholds.amount.
    change (inject_Z 1000000) with (1000000 : Q).
    destruct (amount .> lit 1000000) eqn:E;
      destruct (AnomalyDetector._is_round_number amount);
      cbn [app]; repeat first [apply Forall_cons_2 | apply Forall_nil_2];
      cbn [Anomaly.type Anomaly.severity]; intros Hty; try discriminate Hty;
      apply Q_large_severity, E.
  - intros. unfold FakeDataGenerator.amount_anomalies, FakeDataGenerator.append.
    destruct (amount .> lit 1000000),
      ((amount .% lit 1000 .== lit 0) && (amount .> lit 10000)); reflexivity.
  - intros. unfold FakeDataGenerator.amount_anomalies, FakeDataGenerator.append.
    destruct (amount .> lit 1000000) eqn:E;
      destruct ((amount .% lit 1000 .== lit 0) && (amount .> lit 10000));
      cbn [app]; repeat first [apply Forall_cons_2 | apply Forall_nil_2];
      cbn [Anomaly.type Anomaly.severity]; intros Hty; try discriminate Hty;
      apply Q_large_severity, E.
Qed.

(** ** FakeDataGenerator, continued *)

Section FakeEntities.
Context {R F : Type} `{PyFloat F} `{Library R F}.
Import FakeData.

Lemma get_hit (current_time : datetime) (name : string) (w : world R F) (e : Entity.t F) :
  fake_entity_db w !! name = Some e ->
  get_fake_entity_data current_time name w = (e, w).
Proof. intros E. unfold get_fake_entity_data. rewrite E. reflexivity. Qed.

Lemma get_miss (current_time : datetime) (name : string) (w : world R F) :
  fake_entity_db w !! name = None ->
  let r := get_fake_entity_data current_time name w in
  fake_entity_db r.2 = <[name := r.1]> (fake_entity_db w)
  /\ Entity.name r.1 = name
  /\ Entity.type r.1 = _determine_entity_type name.
Proof.
  intros E. unfold get_fake_entity_data. rewrite E.
  repeat match goal with |- context [let '(_, _) := ?x in _] => destruct x end.
  cbn. repeat split.
Qed.

Lemma get_stores (current_time : datetime) (name : string) (w : world R F) :
  let r := get_fake_entity_data current_time name w in
  fake_entity_db r.2 !! name = Some r.1
  /\ (forall n e, fake_entity_db w !! n = Some e -> fake_entity_db r.2 !! n = Some e).
Proof.
  destruct (fake_entity_db w !! name) as [e|] eqn:E.
  - rewrite (get_hit _ _ _ _ E). cbn. split; [exact E | tauto].
  - destruct (get_miss current_time name w E) as (Hdb & _). cbv zeta. rewrite Hdb. split.
    + apply lookup_insert_eq.
    + intros n e' Hn. rewrite lookup_insert_ne; [exact Hn|]. intros <-. congruence.
Qed.

Lemma get_all_keeps (requests : list (datetime * string)) (w : world R F) (n : string)
    (e : Entity.t F) :
  fake_entity_db w !! n = Some e -> fake_entity_db (get_all requests w) !! n = Some e.
Proof.
  revert w. induction requests as [|[t m] l IH]; intros w Hn; [exact Hn|].
  cbn [get_all fold_left]. apply IH.
  exact (proj2 (get_stores t m w) n e Hn).
Qed.

Lemma get_keyed (current_time : datetime) (name : string) (w : world R F) :
  keyed_by_name w ->
  keyed_by_name (get_fake_entity_data current_time name w).2
  /\ Entity.name (get_fake_entity_data current_time name w).1 = name.
Proof.
  intros Hk. destruct (fake_entity_db w !! name) as [e|] eqn:E.
  - rewrite (get_hit _ _ _ _ E). split; [exact Hk | exact (Hk _ _ E)].
  - destruct (get_miss current_time name w E) as (Hdb & Hname & _). split; [|exact Hname].
    intros n e'. rewrite Hdb. destruct (decide (name = n)) as [<-|Hne].
    + rewrite lookup_insert_eq. intros [= <-]. exact Hname.
    + rewrite lookup_insert_ne by exact Hne. apply Hk.
Qed.

(** [get_fake_entity_data] generates an entity once per name.  After a
    call for a name, every later call for that name, at any time and after
    requests for any other names, returns the same entity and leaves the
    generator as it is, random sources included; a name that is in the cache
    is answered from it; no entry is ever replaced or removed, and a call
    touches no entry but that of its name.  When every entry is stored under
    its own name this stays so, and the entity returned carries the name
    asked for. *)
Theorem fake_entity_is_cached (current_time : datetime) (name : string) (w : world R F) :
  let r := get_fake_entity_data current_time name w in
  (forall requests later,
      get_fake_entity_data later name (get_all requests r.2)
      = (r.1, get_all requests r.2))
  /\ (forall e, fake_entity_db w !! name = Some e -> r = (e, w))
  /\ (forall n e, fake_entity_db w !! n = Some e -> fake_entity_db r.2 !! n = Some e)
  /\ (forall n, n <> name -> fake_entity_db r.2 !! n = fake_entity_db w !! n)
  /\ (keyed_by_name w -> keyed_by_name r.2 /\ Entity.name r.1 = name).
Proof.
  intros r. subst r. split; [|split; [|split; [|split]]].
  - intros requests later. apply get_hit, get_all_keeps.
    exact (proj1 (get_stores current_time name w)).
  - intros e. apply get_hit.
  - exact (proj2 (get_stores current_time name w)).
  - intros n Hn. destruct (fake_entity_db w !! name) as [e|] eqn:E.
    + rewrite (get_hit _ _ _ _ E). reflexivity.
    + destruct (get_miss current_time name w E) as (-> & _).
      apply lookup_insert_ne. congruence.
  - apply get_keyed.
Qed.
End FakeEntities.

(** The next draw of the goal, with its equation. *)
Ltac draw :=
  match goal with
  | |- context [let '(_, _) := ?x in _] =>
      lazymatch x with
      | context [let '(_, _) := _ in _] => fail
      | _ => let E := fresh "E" in destruct x eqn:E
      end
  end.

Section GeneratedEntities.
Context {R : Type} {L : Library R Q}.
Import FakeData.

Lemma repeat_draw_length {A} (draw : R -> A * R) (n : nat) (g : R) :
  length (repeat_draw draw n g).1 = n.
Proof.
  revert g. induction n as [|n IH]; intros g; [reflexivity|].
  cbn [repeat_draw]. destruct (draw g) as [x g1]. specialize (IH g1).
  destruct (repeat_draw draw n g1) as [l g2]. cbn in *. rewrite IH. reflexivity.
Qed.

Lemma registration_data_spec (current_time : datetime) (name : string) (ty : EntityType)
    (g : R) :
  choice_in_list L -> randint_in_range L ->
  let rd := (_generate_registration_data current_time name ty g).1 in
  In (jurisdiction rd) country_risk_keys
  /\ (ty = SHELL_COMPANY -> In (jurisdiction rd) high_risk_codes)
  /\ (exists digits, registration_number rd = jurisdiction rd +:+ digits)
  /\ (1 <= length (directors rd) <= 5)%nat
  /\ (if decide (ty = SHELL_COMPANY)
      then (length (shareholders rd) <= 2)%nat
      else (1 <= length (shareholders rd) <= 8)%nat).
Proof.
  intros Hc Hr. unfold _generate_registration_data.
  destruct (decide (ty = SHELL_COMPANY)) as [Hty|Hty].
  - repeat draw. cbn.
    repeat match goal with
           | E : random_choice ?x ?l ?g = _ |- _ =>
               let Hin := fresh "Hin" in
               pose proof (Hc _ x l g) as Hin; rewrite E in Hin; cbn [fst] in Hin; clear E
           | E : random_randint ?a ?b ?g = _ |- _ =>
               let Hin := fresh "Hin" in
               pose proof (Hr a b g ltac:(lia)) as Hin; rewrite E in Hin; cbn [fst] in Hin;
               clear E
           | E : repeat_draw ?d ?n ?g = _ |- _ =>
               let Hlen := fresh "Hlen" in
               pose proof (repeat_draw_length d n g) as Hlen; rewrite E in Hlen;
               cbn [fst] in Hlen; clear E
           end.
    split; [|split; [tauto|split; [eauto|split; lia]]].
    unfold country_risk_keys.
    repeat match goal with H : In _ (_ :: _) |- _ => cbn [In] in H end. cbn [In].
    intuition.
  - repeat draw. cbn.
    repeat match goal with
           | E : random_choice ?x ?l ?g = _ |- _ =>
               let Hin := fresh "Hin" in
               pose proof (Hc _ x l g) as Hin; rewrite E in Hin; cbn [fst] in Hin; clear E
           | E : random_randint ?a ?b ?g = _ |- _ =>
               let Hin := fresh "Hin" in
               pose proof (Hr a b g ltac:(lia)) as Hin; rewrite E in Hin; cbn [fst] in Hin;
               clear E
           | E : repeat_draw ?d ?n ?g = _ |- _ =>
               let Hlen := fresh "Hlen" in
               pose proof (repeat_draw_length d n g) as Hlen; rewrite E in Hlen;
               cbn [fst] in Hlen; clear E
           end.
    split; [assumption|split; [tauto|split; [eauto|split; lia]]].
Qed.

Lemma base_range_ordered (ty : EntityType) :
  ((base_range (F:=Q) ty).1 <= (base_range ty).2)%Q.
Proof. destruct ty; vm_compute; discriminate. Qed.

Lemma base_range_values (ty : EntityType) :
  base_range (F:=Q) ty
  = match ty with
    | SHELL_COMPANY => (0.2, 0.5)
    | FINANCIAL_INTERMEDIARY => (0.3, 0.7)
    | GOVERNMENT_AGENCY => (0.5, 0.8)
    | _ => (0.4, 0.9)
    end%Q.
Proof. destruct ty; reflexivity. Qed.

Lemma determine_never_unknown (name : string) : _determine_entity_type name <> UNKNOWN.
Proof.
  unfold _determine_entity_type.
  repeat match goal with |- context [if ?b then _ else _] => destruct b end; discriminate.
Qed.

Lemma get_miss_generated (current_time : datetime) (name : string) (w : world R Q) :
  uniform_in_range L -> choice_in_list L -> randint_in_range L ->
  fake_entity_db w !! name = None ->
  generated name (get_fake_entity_data current_time name w).1
  /\ fake_entity_db (get_fake_entity_data current_time name w).2
     = <[name := (get_fake_entity_data current_time name w).1]> (fake_entity_db w).
Proof.
  intros Hu Hc Hr E. unfold get_fake_entity_data. rewrite E.
  pose proof (registration_data_spec current_time name (_determine_entity_type name) (rng w)
                Hc Hr) as Hrd. cbv zeta in Hrd.
  destruct (_generate_registration_data _ _ _ _) as [rd g1]. cbn [fst] in Hrd.
  pose proof (Hu 0.7%Q 1.0%Q g1 ltac:(lra)) as Hconf.
  change (random_uniform (lit 0.7) (lit 1.0) g1) with (random_uniform 0.7%Q 1.0%Q g1).
  destruct (random_uniform 0.7%Q 1.0%Q g1) as [c g2]. cbn [fst] in Hconf.
  destruct (_generate_evidence_sources g2) as [ev g3].
  destruct (_determine_sanctions_status _ _ _ g3) as [sa g4].
  destruct (_generate_risk_factors _ g4) as [rf g5].
  unfold _generate_reputation_score.
  pose proof (Hu _ _ g5 (base_range_ordered (_determine_entity_type name))) as Hrep.
  destruct (random_uniform _ _ g5) as [r g6]. cbn [fst] in Hrep.
  split; [|reflexivity]. cbn [fst].
  destruct Hrd as (Hj & Hsh & (digits & Hnum) & Hd & Hs).
  unfold generated. cbn [Entity.name Entity.type Entity.sanctions_status
    Entity.reputation_score Entity.confidence_score Entity.jurisdiction
    Entity.registration_number Entity.directors Entity.shareholders].
  repeat split; eauto; try lra; try lia.
  - exists (jurisdiction rd), digits. rewrite Hnum. repeat split; assumption.
  - eexists _, _. repeat split; try reflexivity; try lia. exact Hs.
Qed.

Lemma get_generated (current_time : datetime) (name : string) (w : world R Q) :
  uniform_in_range L -> choice_in_list L -> randint_in_range L ->
  all_generated w ->
  generated name (get_fake_entity_data current_time name w).1
  /\ all_generated (get_fake_entity_data current_time name w).2.
Proof.
  intros Hu Hc Hr Hw. destruct (fake_entity_db w !! name) as [e|] eqn:E.
  - unfold get_fake_entity_data. rewrite E. split; [exact (Hw _ _ E) | exact Hw].
  - destruct (get_miss_generated current_time name w Hu Hc Hr E) as [Hg Hdb].
    split; [exact Hg|]. intros n e. rewrite Hdb.
    destruct (decide (name = n)) as [<-|Hne].
    + rewrite lookup_insert_eq. intros [= <-]. exact Hg.
    + rewrite lookup_insert_ne by exact Hne. apply Hw.
Qed.

Lemma generated_score (name : string) (e : Entity.t Q) :
  generated name e ->
  (0.15 <= RiskScorer.total_risk e None None <= 0.69)%Q
  /\ RiskScorer.calculate_risk_score e None None = RiskScorer.total_risk e None None.
Proof.
  intros (_ & Hty & [b Hsa] & (r & Hre & Hr) & _).
  assert (Hb : (0.15 <= RiskScorer.total_risk e None None <= 0.69)%Q).
  { unfold RiskScorer.total_risk, RiskScorer.factors.
    cbn [map fsum PyFloat_Q fmul RiskScorer.weights lit RiskScorer.risk_scores
         RiskScorer._calculate_anomaly_risk].
    unfold Q_sum. cbn [fold_left].
    pose proof (determine_never_unknown name) as Hne. rewrite <- Hty in Hne.
    rewrite Hsa, Hre. cbn [default from_option id].
    pose proof (Q_geographic_risk_bounds (Entity.jurisdiction e)) as Hgeo.
    assert (Hgeo' : (0.5 <= RiskScorer._calculate_geographic_risk (F:=Q)
                               (Entity.jurisdiction e))%Q).
    { unfold RiskScorer._calculate_geographic_risk.
      destruct (truthy _); [|cbn; lra].
      destruct (RiskScorer.high_risk_jurisdictions !! _) as [x|] eqn:Ex; [|cbn; lra].
      apply elem_of_list_to_map_2 in Ex. cbn [default from_option id].
      repeat (apply elem_of_cons in Ex as [Ex|Ex];
              [injection Ex as _ ->; cbn [lit PyFloat_Q]; lra|]).
      apply elem_of_nil in Ex. destruct Ex. }
    set (geo := RiskScorer._calculate_geographic_risk _) in *.
    rewrite base_range_values in Hr.
    destruct (Entity.type e); try congruence; cbn [fst snd] in Hr;
      cbn [RiskScorer.entity_type_risk default from_option id lit PyFloat_Q fsub];
      destruct b; lra. }
  split; [exact Hb|]. apply Q_clamp_id. lra.
Qed.
(** When [random.uniform], [random.choice] and [random.randint] return
    values of their range or list, every entity that [get_fake_entity_data]
    returns, fresh or cached, is as the generator makes it for the name:
    the type that the name determines, a reputation score in the range of
    that type, a confidence between 0.7 and 1, a jurisdiction of
    [country_risk] that starts the registration number, a high-risk
    jurisdiction for a shell company, one to five directors, at most two
    shareholders for a shell company and one to eight otherwise; and the
    cache keeps holding such entities only. *)
Theorem generated_entities_keep_invariant (current_time : datetime) (name : string)
    (w : world R Q) :
  uniform_in_range L -> choice_in_list L -> randint_in_range L -> all_generated w ->
  generated name (get_fake_entity_data current_time name w).1
  /\ all_generated (get_fake_entity_data current_time name w).2.
Proof. apply get_generated. Qed.
End GeneratedEntities.

Lemma empty_world_generated {R} (g : R) :
  all_generated {| FakeData.rng := g; FakeData.fake_entity_db := ∅ |}.
Proof. intros n e. cbn. rewrite lookup_empty. discriminate. Qed.

(** The library of first choices keeps the contracts. *)
Lemma first_choice_contracts :
  uniform_in_range (first_choice_library (F:=Q))
  /\ (forall (F : Type) (PF : PyFloat F), choice_in_list (first_choice_library (F:=F)))
  /\ (forall (F : Type) (PF : PyFloat F), randint_in_range (first_choice_library (F:=F))).
Proof.
  split; [|split].
  - intros a b g Hab. cbn. lra.
  - intros F PF A x l g. left. reflexivity.
  - intros F PF a b g Hab. cbn. lia.
Qed.

(** The first entity of a new generator. *)
Lemma generated_entities_keep_invariant_witness :
  generated "Nova Holdings"
    (@FakeData.get_fake_entity_data nat Q _ first_choice_library noon "Nova Holdings"
       new_world).1
  /\ all_generated
       (@FakeData.get_fake_entity_data nat Q _ first_choice_library noon "Nova Holdings"
          new_world).2.
Proof.
  destruct first_choice_contracts as (Hu & Hc & Hr).
  apply (generated_entities_keep_invariant (L:=first_choice_library) noon "Nova Holdings"
           new_world Hu (Hc Q _) (Hr Q _)).
  apply empty_world_generated.
Defined.

(** ** The endpoints *)

Section Endpoints.
Context {R F : Type} `{PyFloat F} `{Library R F}.
Variable format_float : F -> string.
Variable strptime : string -> string -> result datetime.
Variable nlp_ents : string -> list (string * string).
Import FakeData Api.

Lemma enrich_acc (current_time : datetime) (entities : list (Entity.t F))
    (acc : list (Entity.t F)) (w : world R F) :
  fold_left
    (fun (acc : list (Entity.t F) * world R F) entity =>
       let '(enriched_entities, w) := acc in
       let '(enriched_entity, w) :=
         get_fake_entity_data current_time (Entity.name entity) w in
       (enriched_entities ++ [enriched_entity], w))
    entities (acc, w)
  = (acc ++ (enrich current_time entities w).1, (enrich current_time entities w).2).
Proof.
  unfold enrich. revert acc w. induction entities as [|e es IH]; intros acc w;
    cbn [fold_left].
  - cbn. rewrite app_nil_r. reflexivity.
  - destruct (get_fake_entity_data current_time (Entity.name e) w) as [x w1].
    rewrite (IH (acc ++ [x])), (IH ([] ++ [x])). cbn [fst snd app].
    rewrite <- app_assoc. reflexivity.
Qed.

Lemma enrich_cons (current_time : datetime) (e : Entity.t F) (es : list (Entity.t F))
    (w : world R F) :
  enrich current_time (e :: es) w
  = ((get_fake_entity_data current_time (Entity.name e) w).1
     :: (enrich current_time es (get_fake_entity_data current_time (Entity.name e) w).2).1,
     (enrich current_time es (get_fake_entity_data current_time (Entity.name e) w).2).2).
Proof.
  unfold enrich at 1. cbn [fold_left].
  destruct (get_fake_entity_data current_time (Entity.name e) w) as [x w1].
  rewrite enrich_acc. reflexivity.
Qed.

Lemma score_without_anomalies (request : TransactionRequest.t F)
    (enriched_entities : list (Entity.t F)) :
  score request None enriched_entities
  = map (result_without_anomalies (TransactionRequest.transaction_id request))
        enriched_entities.
Proof.
  unfold score.
  assert (Hacc : forall l acc,
             fold_left
               (fun results entity =>
                  let risk_score :=
                    RiskScorer.calculate_risk_score entity None
                      (Some (TransactionRequest.amount request)) in
                  let result :=
                    {| AnalysisResult.transaction_id :=
                         TransactionRequest.transaction_id request;
                       AnalysisResult.extracted_entity := [Entity.name entity];
                       AnalysisResult.entity_type := [Entity.type entity];
                       AnalysisResult.risk_score := risk_score;
                       AnalysisResult.supporting_evidence := Entity.evidence_sources entity;
                       AnalysisResult.confidence_score := Entity.confidence_score entity;
                       AnalysisResult.reason :=
                         RiskScorer.generate_risk_reason entity risk_score None |} in
                  results ++ [result]) l acc
             = acc ++ map (result_without_anomalies
                             (TransactionRequest.transaction_id request)) l).
  { induction l as [|e l IH]; intros acc; cbn [fold_left map].
    - rewrite app_nil_r. reflexivity.
    - rewrite IH, <- app_assoc. reflexivity. }
  apply Hacc.
Qed.

Lemma analyze_eq (current_time : datetime) (request : TransactionRequest.t F)
    (w : world R F) :
  raises_only_ValueError strptime ->
  analyze_transaction format_float strptime nlp_ents current_time request w
  = (Respond
       (map (result_without_anomalies (TransactionRequest.transaction_id request))
            (enrich current_time
               (Extractor.extract_entities nlp_ents
                  (TransactionRequest.transaction_data request)) w).1),
     (enrich current_time
        (Extractor.extract_entities nlp_ents
           (TransactionRequest.transaction_data request)) w).2).
Proof.
  intros Hc. unfold analyze_transaction.
  destruct (enrich current_time _ w) as [enriched w1].
  unfold FakeDataGenerator.generate_fake_anomalies.
  rewrite generate_fake_anomalies_list_eq by exact Hc. cbn [mbind result_bind].
  rewrite score_without_anomalies. reflexivity.
Qed.

(** [analyze_transaction] hands the scorer what [generate_fake_anomalies]
    returns, which is None: when [strptime] raises nothing but ValueError,
    the response is never an error, it holds one result per extracted
    entity, in order, each with the score and the reason of the enriched
    entity without any anomaly, and so it does not depend on the amount of
    the request: two requests with the same id and the same text get the
    same response and leave the same generator behind. *)
Theorem analysis_ignores_amount (current_time : datetime) (w : world R F) :
  raises_only_ValueError strptime ->
  (forall request,
      analyze_transaction format_float strptime nlp_ents current_time request w
      = (Respond
           (map (result_without_anomalies (TransactionRequest.transaction_id request))
                (enrich current_time
                   (Extractor.extract_entities nlp_ents
                      (TransactionRequest.transaction_data request)) w).1),
         (enrich current_time
            (Extractor.extract_entities nlp_ents
               (TransactionRequest.transaction_data request)) w).2))
  /\ (forall request request',
         TransactionRequest.transaction_id request = TransactionRequest.transaction_id request' ->
         TransactionRequest.transaction_data request
         = TransactionRequest.transaction_data request' ->
         analyze_transaction format_float strptime nlp_ents current_time request w
         = analyze_transaction format_float strptime nlp_ents current_time request' w).
Proof.
  intros Hc. split.
  - intros request. apply analyze_eq, Hc.
  - intros request request' Eid Edata. rewrite !analyze_eq by exact Hc.
    rewrite Eid, Edata. reflexivity.
Qed.
End Endpoints.

(** A payment of 5000 and a payment of 2,000,000 with the same text. *)
Lemma analysis_ignores_amount_witness :
  @Api.analyze_transaction nat float _ first_choice_library format_stub strptime_model
    one_organisation noon (payment_request (lit 5000)) new_world
  = @Api.analyze_transaction nat float _ first_choice_library format_stub strptime_model
      one_organisation noon (payment_request (lit 2000000)) new_world.
Proof.
  apply (proj2 (@analysis_ignores_amount nat float _ first_choice_library format_stub
                  strptime_model one_organisation noon new_world strptime_model_contract));
    reflexivity.
Defined.

Section EndpointRange.
Context {R : Type} {L : Library R Q}.
Variable format_float : Q -> string.
Variable strptime : string -> string -> result datetime.
Variable nlp_ents : string -> list (string * string).
Import FakeData Api.

Lemma enrich_generated (current_time : datetime) (entities : list (Entity.t Q))
    (w : world R Q) :
  uniform_in_range L -> choice_in_list L -> randint_in_range L -> all_generated w ->
  Forall2 (fun entity enriched => generated (Entity.name entity) enriched)
          entities (enrich current_time entities w).1
  /\ all_generated (enrich current_time entities w).2.
Proof.
  intros Hu Hc Hr. revert w. induction entities as [|e es IH]; intros w Hw.
  - split; [constructor | exact Hw].
  - rewrite enrich_cons. cbn [fst snd].
    destruct (get_generated current_time (Entity.name e) w Hu Hc Hr Hw) as [Hg Hw1].
    destruct (IH _ Hw1) as [Hes Hw2]. split; [constructor; assumption | exact Hw2].
Qed.

Lemma results_in_range (transaction_id : string) (entities enriched : list (Entity.t Q)) :
  Forall2 (fun entity e => generated (Entity.name entity) e) entities enriched ->
  Forall score_in_range (map (result_without_anomalies transaction_id) enriched)
  /\ map AnalysisResult.extracted_entity (map (result_without_anomalies transaction_id) enriched)
     = map (fun entity => [Entity.name entity]) entities.
Proof.
  induction 1 as [|entity e entities enriched Hg _ [IH1 IH2]]; [split; [constructor|reflexivity]|].
  cbn [map]. split.
  - constructor; [|exact IH1]. unfold score_in_range, result_without_anomalies.
    cbn [AnalysisResult.risk_score].
    destruct (generated_score _ _ Hg) as [Hb ->]. exact Hb.
  - rewrite IH2. cbn [AnalysisResult.extracted_entity result_without_anomalies].
    destruct Hg as (-> & _). reflexivity.
Qed.

Lemma analyze_in_range (current_time : datetime) (request : TransactionRequest.t Q)
    (w : world R Q) :
  raises_only_ValueError strptime ->
  uniform_in_range L -> choice_in_list L -> randint_in_range L -> all_generated w ->
  exists results w',
    analyze_transaction format_float strptime nlp_ents current_time request w
    = (Respond results, w')
    /\ all_generated w'
    /\ Forall score_in_range results
    /\ map AnalysisResult.extracted_entity results
       = map (fun entity => [Entity.name entity])
             (Extractor.extract_entities (F:=Q) nlp_ents
                (TransactionRequest.transaction_data request)).
Proof.
  intros Hs Hu Hc Hr Hw. rewrite analyze_eq by exact Hs.
  destruct (enrich_generated current_time
              (Extractor.extract_entities (F:=Q) nlp_ents
                 (TransactionRequest.transaction_data request)) w Hu Hc Hr Hw) as [Hg Hw'].
  destruct (results_in_range (TransactionRequest.transaction_id request) _ _ Hg) as [H1 H2].
  eexists _, _. split; [reflexivity|]. split; [exact Hw'|]. split; [exact H1 | exact H2].
Qed.

Lemma batch_loop_in_range (current_time : datetime) (n : nat) :
  raises_only_ValueError strptime ->
  uniform_in_range L -> choice_in_list L -> randint_in_range L ->
  forall results (w : world R Q),
    all_generated w -> Forall score_in_range results ->
    exists results' w',
      batch_loop format_float strptime nlp_ents n current_time results w
      = (Respond results', w')
      /\ all_generated w' /\ Forall score_in_range results'.
Proof.
  intros Hs Hu Hc Hr. induction n as [|n IH]; intros results w Hw Hres; cbn [batch_loop].
  - eauto.
  - destruct (generate_fake_transaction current_time (rng w)) as [transaction g].
    destruct (analyze_in_range current_time (request_of transaction)
                {| rng := g; fake_entity_db := fake_entity_db w |} Hs Hu Hc Hr Hw)
      as (rs & w1 & -> & Hw1 & Hrs & _).
    apply IH; [exact Hw1 | apply Forall_app_2; assumption].
Qed.

(** The scores that the endpoints return, in exact arithmetic.  When the
    library keeps its contracts and the cache holds generated entities only,
    [get_entity_risk_score], [analyze_transaction] and [batch_analyze]
    never answer with an error, every risk score they return lies between
    0.15 and 0.69 (so the clamp of the scorer never acts), the results of
    [analyze_transaction] name the extracted entities in order, and the
    cache holds generated entities only afterwards. *)
Theorem endpoint_scores_in_range (current_time : datetime) (w : world R Q) :
  raises_only_ValueError strptime ->
  uniform_in_range L -> choice_in_list L -> randint_in_range L -> all_generated w ->
  (forall entity_id,
      exists risk_score w',
        get_entity_risk_score current_time entity_id w = (Respond (entity_id, risk_score), w')
        /\ (0.15 <= risk_score <= 0.69)%Q /\ all_generated w')
  /\ (forall request,
         exists results w',
           analyze_transaction format_float strptime nlp_ents current_time request w
           = (Respond results, w')
           /\ all_generated w'
           /\ Forall score_in_range results
           /\ map AnalysisResult.extracted_entity results
              = map (fun entity => [Entity.name entity])
                    (Extractor.extract_entities (F:=Q) nlp_ents
                       (TransactionRequest.transaction_data request)))
  /\ (exists results w',
         batch_analyze format_float strptime nlp_ents current_time w = (Respond results, w')
         /\ all_generated w' /\ Forall score_in_range results).
Proof.
  intros Hs Hu Hc Hr Hw. split; [|split].
  - intros entity_id. unfold get_entity_risk_score.
    destruct (get_generated current_time entity_id w Hu Hc Hr Hw) as [Hg Hw1].
    destruct (get_fake_entity_data current_time entity_id w) as [e w1]. cbn [fst snd] in *.
    destruct (generated_score _ _ Hg) as [Hb E].
    eexists _, _. split; [reflexivity|]. rewrite E. split; assumption.
  - intros request. apply analyze_in_range; assumption.
  - apply batch_loop_in_range; try assumption. constructor.
Qed.
End EndpointRange.

(** The score of "Nova Holdings" on a new generator. *)
Lemma endpoint_scores_in_range_witness :
  exists risk_score w',
    @Api.get_entity_risk_score nat Q _ first_choice_library noon "Nova Holdings" new_world
    = (Respond ("Nova Holdings", risk_score), w')
    /\ (0.15 <= risk_score <= 0.69)%Q /\ all_generated w'.
Proof.
  destruct first_choice_contracts as (Hu & Hc & Hr).
  apply (proj1 (@endpoint_scores_in_range nat first_choice_library format_stub
                  strptime_model one_organisation noon new_world strptime_model_contract
                  Hu (Hc Q _) (Hr Q _) (empty_world_generated 0%nat))).
Defined.

(** ** Generated transactions *)

Lemma round_to_thousands_spec (a : Z) :
  round_to_thousands a mod 1000 = 0
  /\ -500 <= round_to_thousands a - a <= 500
  /\ (forall k, 1000 * k <= a -> 1000 * k <= round_to_thousands a)
  /\ (forall k, a <= 1000 * k -> round_to_thousands a <= 1000 * k).
Proof.
  unfold round_to_thousands.
  pose proof (Z.div_mod a 1000 ltac:(lia)) as Hdm.
  pose proof (Z.mod_pos_bound a 1000 ltac:(lia)) as Hm.
  set (q := a / 1000) in *. set (r := a mod 1000) in *.
  destruct ((500 <? r)%Z || ((r =? 500)%Z && Z.odd q))%bool eqn:E.
  - assert (Hr : 500 <= r).
    { apply orb_prop in E as [E|E]; [apply Z.ltb_lt in E; lia|].
      apply andb_prop in E as [E _]. apply Z.eqb_eq in E. lia. }
    split; [apply Z.mod_mul; lia|]. split; [lia|]. split; intros k Hk; lia.
  - apply orb_false_elim in E as [E1 E2]. apply Z.ltb_ge in E1.
    split; [apply Z.mod_mul; lia|]. split; [lia|]. split; intros k Hk; lia.
Qed.

Section Tx.
Context {R F : Type} `{PyFloat F} {L : Library R F}.
Import FakeData.

Lemma draw_amount_range (g : R) :
  randint_in_range L -> choice_in_list L ->
  1000 <= (draw_amount g).1 <= 2000000.
Proof.
  intros Hr Hc. unfold draw_amount.
  pose proof (Hr 1000 50000 g ltac:(lia)) as H1.
  destruct (random_randint 1000 50000 g) as [a1 g1]. cbn [fst] in H1.
  pose proof (Hr 50000 200000 g1 ltac:(lia)) as H2.
  destruct (random_randint 50000 200000 g1) as [a2 g2]. cbn [fst] in H2.
  pose proof (Hr 500000 2000000 g2 ltac:(lia)) as H3.
  destruct (random_randint 500000 2000000 g2) as [a3 g3]. cbn [fst] in H3.
  pose proof (Hr 1000 50000 g3 ltac:(lia)) as H4.
  destruct (random_randint 1000 50000 g3) as [a4 g4]. cbn [fst] in H4.
  pose proof (Hc _ a1 ([a2; a3] ++ replicate 8 a4) g4) as Hin.
  destruct (random_choice a1 _ g4) as [a g5]. cbn [fst] in *.
  cbn [app replicate In] in Hin. intuition lia.
Qed.

(** When [random.randint] and [random.choice] keep their contracts, the
    amount of a generated transaction is an integer between 1000 and
    2,000,000; it is either the amount drawn or that amount rounded to the
    nearest thousand, which is a multiple of 1000 at most 500 away and still
    between 1000 and 2,000,000; the currency is one of the five listed; and
    [batch_analyze] passes the integer on as the number of the same value. *)
Theorem fake_transaction_amount (current_time : datetime) (g : R) :
  randint_in_range L -> choice_in_list L ->
  let transaction := (generate_fake_transaction current_time g).1 in
  1000 <= amount transaction <= 2000000
  /\ (amount transaction = (draw_amount g).1
      \/ (amount transaction = round_to_thousands (draw_amount g).1
          /\ amount transaction mod 1000 = 0
          /\ -500 <= amount transaction - (draw_amount g).1 <= 500))
  /\ In (currency transaction) ["USD"; "EUR"; "GBP"; "JPY"; "CHF"]
  /\ TransactionRequest.amount (Api.request_of (F:=F) transaction)
     = lit (inject_Z (amount transaction)).
Proof.
  intros Hr Hc. pose proof (draw_amount_range g Hr Hc) as Hd.
  unfold generate_fake_transaction.
  destruct (draw_amount g) as [a g1]. cbn [fst] in Hd.
  destruct (random_random g1) as [r g2].
  destruct (random_choice "Payment" _ g2) as [ty g3].
  destruct (_generate_entity_name g3) as [sender g4].
  destruct (_generate_entity_name g4) as [recipient g5].
  destruct (uuid4_hex g5) as [hex g6].
  pose proof (Hc _ "USD" ["EUR"; "GBP"; "JPY"; "CHF"] g6) as Hcur.
  destruct (random_choice "USD" _ g6) as [cur g7]. cbn [fst] in Hcur.
  destruct (faker_date_time_between _ _ g7) as [t g8].
  cbn [fst amount currency]. 
  destruct (round_to_thousands_spec a) as (Hm & Hdiff & Hlo & Hhi).
  split; [|split; [|split; [exact Hcur | reflexivity]]].
  - destruct (r .< lit 0.2); [|exact Hd]. split; [apply (Hlo 1) | apply (Hhi 2000)]; lia.
  - destruct (r .< lit 0.2); [right | left; reflexivity]. repeat split; lia.
Qed.
End Tx.

Lemma fake_transaction_amount_witness :
  1000 <= FakeData.amount
            (@FakeData.generate_fake_transaction nat float _ first_choice_library noon
               0%nat).1 <= 2000000.
Proof.
  destruct first_choice_contracts as (_ & Hc & Hr).
  apply (@fake_transaction_amount nat float _ first_choice_library noon 0%nat
           (Hr float _) (Hc float _)).
Defined.

Lemma thousands_round_on_doubles :
  forallb (fun k => AnomalyDetector._is_round_number (F:=float)
                      (lit (inject_Z (1000 * Z.of_nat k))))
          (seq 1 2000) = true.
Proof. vm_compute. reflexivity. Qed.

Lemma multiple_round_on_doubles (a : Z) :
  1000 <= a <= 2000000 -> a mod 1000 = 0 ->
  AnomalyDetector._is_round_number (F:=float) (lit (inject_Z a)) = true.
Proof.
  intros Ha Hm. pose proof thousands_round_on_doubles as Hall.
  rewrite forallb_forall in Hall.
  pose proof (Z.div_mod a 1000 ltac:(lia)) as Hdm. rewrite Hm, Z.add_0_r in Hdm.
  specialize (Hall (Z.to_nat (a / 1000))).
  rewrite Z2Nat.id in Hall by lia. rewrite <- Hdm in Hall. apply Hall.
  apply in_seq. lia.
Qed.

Lemma multiple_round_exactly (a : Z) :
  a mod 1000 = 0 -> AnomalyDetector._is_round_number (F:=Q) (lit (inject_Z a)) = true.
Proof.
  intros Hm. pose proof (Z.div_mod a 1000 ltac:(lia)) as Hdm. rewrite Hm, Z.add_0_r in Hdm.
  unfold AnomalyDetector._is_round_number, AnomalyDetector.int,
    AnomalyDetector.thresholds.round_amount.
  cbn [lit fmod feq PyFloat_Q]. apply Qeq_bool_iff. unfold Q_mod.
  assert (E : (inject_Z a / inject_Z 1000 == inject_Z (a / 1000))%Q).
  { rewrite Hdm at 1. rewrite inject_Z_mult. field. }
  rewrite E, Qfloor_Z. rewrite Hdm at 1. rewrite inject_Z_mult. ring.
Qed.

(** A round number is a multiple of 1000.  In exact arithmetic
    [_is_round_number] holds exactly for the integer multiples of 1000,
    zero and the negative ones included; on doubles it holds for every
    multiple of 1000 between 1000 and 2,000,000, which are the amounts that
    the generator rounds to, and for 0 and -5000. *)
Theorem round_numbers_are_multiples :
  (forall x : Q,
      AnomalyDetector._is_round_number x = true
      <-> exists k : Z, (x == 1000 * inject_Z k)%Q)
  /\ (forall a : Z,
         1000 <= a <= 2000000 -> a mod 1000 = 0 ->
         AnomalyDetector._is_round_number (F:=float) (lit (inject_Z a)) = true)
  /\ AnomalyDetector._is_round_number (F:=float) (lit 0) = true
  /\ AnomalyDetector._is_round_number (F:=float) (lit (-5000)) = true
  /\ AnomalyDetector._is_round_number (F:=float) (lit 1000.5) = false.
Proof.
  split; [|split; [exact multiple_round_on_doubles | repeat split; vm_compute; reflexivity]].
  intros x. split.
  - unfold AnomalyDetector._is_round_number, AnomalyDetector.int,
      AnomalyDetector.thresholds.round_amount.
    cbn [lit fmod feq PyFloat_Q]. intros Hx. apply Qeq_bool_iff in Hx. unfold Q_mod in Hx.
    exists (Qfloor (x / inject_Z 1000)). change (inject_Z 1000) with 1000%Q in *.
    change (inject_Z 0) with 0%Q in *. lra.
  - intros [k Hk].
    unfold AnomalyDetector._is_round_number, AnomalyDetector.int,
      AnomalyDetector.thresholds.round_amount.
    cbn [lit fmod feq PyFloat_Q]. apply Qeq_bool_iff. unfold Q_mod.
    assert (E : (x / inject_Z 1000 == inject_Z k)%Q).
    { rewrite Hk. change (inject_Z 1000) with 1000%Q. field. }
    rewrite E, Qfloor_Z, Hk. change (inject_Z 1000) with 1000%Q.
    change (inject_Z 0) with 0%Q. ring.
Qed.

(** ** The two classifiers *)

Section TypeRules.
Import EntityExtractor FakeData.

Lemma prefix_append (w r : string) : String.prefix w (w +:+ r) = true.
Proof.
  induction w as [|c w IH]; [destruct r; reflexivity|].
  rewrite append_cons. cbn. rewrite IH. destruct (ascii_dec c c); [reflexivity | congruence].
Qed.

Lemma contains_append (a w r : string) : contains (a +:+ (w +:+ r)) w = true.
Proof.
  induction a as [|c a IH].
  - change ("" +:+ (w +:+ r)) with (w +:+ r).
    destruct (w +:+ r) eqn:E; cbn [contains]; rewrite <- E, prefix_append; reflexivity.
  - rewrite append_cons. cbn [contains]. rewrite IH. apply orb_true_r.
Qed.

Lemma ends_with_word_contains (s w : string) :
  ends_with_word s w = true -> contains s w = true.
Proof.
  unfold ends_with_word. intros Hs. apply orb_prop in Hs as [Hs|Hs];
    apply ends_with_spec in Hs as [a ->].
  - rewrite <- (append_nil_r w) at 1. apply contains_append.
  - apply contains_append.
Qed.

(** [_determine_entity_type] of the generator never returns UNKNOWN; a
    name is a financial intermediary only if it contains "bank",
    "financial", "invest" or "fund" (the word "capital" of that list never
    decides, since every name that contains it is a shell company already);
    the result depends on the name up to case only; and a name that ends
    with one of the five shell words which the two classifiers share is a
    shell company for both of them. *)
Theorem generator_type_rules :
  (forall entity_name,
      In (_determine_entity_type entity_name)
         [SHELL_COMPANY; FINANCIAL_INTERMEDIARY; GOVERNMENT_AGENCY; NON_PROFIT; CORPORATION])
  /\ (forall entity_name,
         _determine_entity_type entity_name = FINANCIAL_INTERMEDIARY ->
         any (contains (lower entity_name)) ["bank"; "financial"; "invest"; "fund"] = true
         /\ contains (lower entity_name) "capital" = false)
  /\ (forall a b, lower a = lower b -> _determine_entity_type a = _determine_entity_type b)
  /\ (forall entity_name,
         any (ends_with_word (lower entity_name)) common_shell_words = true ->
         _determine_entity_type entity_name = SHELL_COMPANY
         /\ _classify_entity_type entity_name = SHELL_COMPANY).
Proof.
  split; [|split; [|split]].
  - intros n. unfold _determine_entity_type.
    repeat match goal with |- context [if ?b then _ else _] => destruct b end;
      cbn [In]; tauto.
  - intros n. unfold _determine_entity_type.
    destruct (any _ ["holdings"; "investments"; "group"; "capital"; "partners"]) eqn:Es;
      [discriminate|].
    destruct (any _ ["bank"; "financial"; "invest"; "capital"; "fund"]) eqn:Ef;
      [|repeat match goal with |- context [if ?b then _ else _] => destruct b end;
        discriminate].
    intros _. cbn [any existsb] in *.
    assert (Hcap : contains (lower n) "capital" = false).
    { repeat (apply orb_false_elim in Es as [? Es]). assumption. }
    rewrite Hcap in Ef. split; [|exact Hcap].
    destruct (contains (lower n) "bank"), (contains (lower n) "financial"),
      (contains (lower n) "invest"), (contains (lower n) "fund"); try reflexivity;
      discriminate Ef.
  - intros a b E. unfold _determine_entity_type. rewrite E. reflexivity.
  - intros n Hs. split.
    + unfold _determine_entity_type.
      replace (any (fun word => contains (lower n) word)
                   ["holdings"; "investments"; "group"; "capital"; "partners"]) with true;
        [reflexivity|].
      symmetry. apply existsb_exists in Hs as (w & Hw & Hend).
      apply existsb_exists. exists w. split; [exact Hw|].
      apply ends_with_word_contains, Hend.
    + destruct suffix_words_apart as (Hsn & _).
      assert (Hs' : any (ends_with_word (lower n)) shell_words = true).
      { apply existsb_exists in Hs as (w & Hw & Hend). apply existsb_exists. exists w.
        split; [|exact Hend]. unfold common_shell_words, shell_words in *.
        cbn [In] in *. tauto. }
      rewrite classify_eq_words. unfold classify_by_words.
      rewrite (any_apart _ _ _ Hsn Hs'), Hs'. reflexivity.
Qed.

End TypeRules.

(** ** EntityEnricher *)

Section Enricher.
Import EntityEnricher.

(** [_update_confidence_score] in exact arithmetic: the result is the old
    confidence plus one tenth for each evidence source and for each of the
    registration number, jurisdiction, incorporation date, directors and
    shareholders that is given and not empty, capped at 1; it never exceeds
    1 and never lowers a confidence that is at most 1. *)
Theorem updated_confidence_is_capped_sum (entity : Entity.t Q) :
  let total := (Entity.confidence_score entity + 0.1 * inject_Z (evidence_count entity))%Q in
  ((total <= 1)%Q -> (_update_confidence_score entity == total)%Q)
  /\ ((1 <= total)%Q -> (_update_confidence_score entity == 1)%Q)
  /\ (_update_confidence_score entity <= 1)%Q
  /\ ((Entity.confidence_score entity <= 1)%Q ->
      (Entity.confidence_score entity <= _update_confidence_score entity)%Q).
Proof.
  intros total.
  assert (Hcount : 0 <= evidence_count entity).
  { unfold evidence_count.
    destruct (truthy (Entity.registration_number entity)),
      (truthy (Entity.jurisdiction entity)), (truthy (Entity.incorporation_date entity)),
      (truthy_list (Entity.directors entity)), (truthy_list (Entity.shareholders entity));
      lia. }
  assert (Hk : (0 <= inject_Z (evidence_count entity))%Q) by (rewrite <- (Zle_Qle 0); exact Hcount).
  assert (Hmin : forall a b, (a == b)%Q -> (py_min a 1.0 == py_min b 1)%Q).
  { intros a b Eab. unfold py_min. cbn [lit flt PyFloat_Q].
    destruct (Q_ltb 1.0 a) eqn:E1; destruct (Q_ltb 1 b) eqn:E2;
      repeat match goal with
             | H : Q_ltb _ _ = true |- _ => apply Q_ltb_true in H
             | H : Q_ltb _ _ = false |- _ => apply Q_ltb_false in H
             end; lra. }
  assert (Eup : (_update_confidence_score entity == py_min total 1)%Q).
  { subst total. unfold _update_confidence_score, evidence_count, len.
    cbn [lit fadd fmul PyFloat_Q]. apply Hmin.
    destruct (truthy (Entity.registration_number entity)),
      (truthy (Entity.jurisdiction entity)), (truthy (Entity.incorporation_date entity)),
      (truthy_list (Entity.directors entity)), (truthy_list (Entity.shareholders entity));
      rewrite !inject_Z_plus; change (inject_Z 1) with 1%Q; change (inject_Z 0) with 0%Q;
      ring. }
  rewrite Eup. subst total. generalize dependent (inject_Z (evidence_count entity)).
  intros k Hk. unfold py_min. cbn [lit flt PyFloat_Q].
  destruct (Q_ltb 1 (Entity.confidence_score entity + 0.1 * k)) eqn:E1;
    [apply Q_ltb_true in E1 | apply Q_ltb_false in E1];
    repeat split; intros; lra.
Qed.
End Enricher.

Section RiskFactors.
Context {R F : Type} `{PyFloat F} {L : Library R F}.
Import FakeData.

(** Extra (generator, risk factors): the risk factors the generator draws
    follow the entity type.  The keys shell_structure and complex_ownership
    are present exactly for a shell company, high_volume exactly for a
    financial intermediary, and no key other than these three, news_mention
    and regulatory_issue is ever set, whatever the random source gives. *)
Theorem risk_factors_follow_type (entity_type : EntityType) (g : R) :
  let risk_factors := (_generate_risk_factors entity_type g).1 in
  (is_Some (risk_factors !! "shell_structure") <-> entity_type = SHELL_COMPANY)
  /\ (is_Some (risk_factors !! "complex_ownership") <-> entity_type = SHELL_COMPANY)
  /\ (is_Some (risk_factors !! "high_volume") <-> entity_type = FINANCIAL_INTERMEDIARY)
  /\ (forall k, is_Some (risk_factors !! k) ->
                In k ["shell_structure"; "complex_ownership"; "high_volume"; "news_mention";
                      "regulatory_issue"]).
Proof.
  unfold _generate_risk_factors.
  destruct (decide (entity_type = SHELL_COMPANY)) as [Hs|Hs];
    destruct (decide (entity_type = FINANCIAL_INTERMEDIARY)) as [Hf|Hf];
    try congruence;
    repeat (cbv beta iota zeta;
            first [match goal with |- context [if ?b then _ else _] => destruct b end
                  | draw]);
    cbv beta iota zeta; cbn [fst];
    (split; [|split; [|split]]);
    try (split;
         [ intros Hk; try assumption; exfalso; revert Hk;
           repeat first [rewrite lookup_insert_eq
                        | rewrite lookup_insert_ne by discriminate
                        | rewrite lookup_empty];
           intros [? [=]]
         | intros Hty; try congruence;
           repeat first [rewrite lookup_insert_eq
                        | rewrite lookup_insert_ne by discriminate
                        | rewrite lookup_empty];
           eauto; congruence ]).
  all: intros k [x Hx];
    repeat match goal with
           | H : <[?i := _]> _ !! k = Some _ |- _ =>
               destruct (decide (i = k)) as [<-|];
               [cbn [In]; tauto | rewrite lookup_insert_ne in H by assumption]
           end;
    rewrite lookup_empty in Hx; discriminate.
Qed.
End RiskFactors.

Section ShellCompanies.
Context {R : Type} {L : Library R Q}.
Variable format_float : Q -> string.
Variable strptime : string -> string -> result datetime.
Import FakeData.

(** The keys of the generator's country table, as listed for the random
    choice, are the keys of [country_risk]. *)
Lemma country_risk_keys_spec (k : string) :
  In k country_risk_keys <-> is_Some (FakeDataGenerator.country_risk (F:=Q) !! k).
Proof.
  split.
  - unfold country_risk_keys. cbn [In]. intros Hk.
    repeat (destruct Hk as [<-|Hk]; [eexists; reflexivity|]). destruct Hk.
  - intros [x Hx]. apply elem_of_list_to_map_2 in Hx. unfold country_risk_keys.
    repeat (apply elem_of_cons in Hx as [Hx|Hx]; [injection Hx as -> _; cbn [In]; tauto|]).
    apply elem_of_nil in Hx. destruct Hx.
Qed.

(** Each high-risk code is a key of the scorer's table (through [lower]) and
    of the generator's table. *)
Lemma high_risk_code_facts (j : string) :
  In j high_risk_codes ->
  (0.6 <= RiskScorer._calculate_geographic_risk (F:=Q) (Some j) <= 0.9)%Q
  /\ bool_decide (is_Some (RiskScorer.high_risk_jurisdictions (F:=Q) !! lower j)) = true
  /\ exists weight,
       FakeDataGenerator.country_risk (F:=Q) !! j = Some weight
       /\ (weight .> lit 0.6) = negb (String.eqb j "ZW").
Proof.
  unfold high_risk_codes. cbn [In]. intros Hj.
  repeat (destruct Hj as [<-|Hj];
          [split; [split; vm_compute; discriminate|];
           split; [vm_compute; reflexivity|];
           eexists; split; [reflexivity | vm_compute; reflexivity]|]).
  destruct Hj.
Qed.

(** Extra (generator to scorer), in exact arithmetic: an entity generated
    for a name that the generator types as a shell company gets one of the
    eight high-risk country codes as jurisdiction.  The scorer then gives it
    a geographic risk between 0.6 and 0.9 and, without anomalies, a score
    between 0.40 and 0.69; the reason starts with the shell company clause and ends with
    the clause that names the jurisdiction.  The generator's own anomaly
    rules flag it as shell_company, and as high_risk_jurisdiction for every
    code but ZW, whose weight 0.6 is not above the threshold 0.6. *)
Theorem generated_shell_companies_are_high_risk (current_time : datetime) (name : string)
    (w : world R Q) (amount : Q) :
  uniform_in_range L -> choice_in_list L -> randint_in_range L -> all_generated w ->
  raises_only_ValueError strptime ->
  _determine_entity_type name = SHELL_COMPANY ->
  let e := (get_fake_entity_data current_time name w).1 in
  exists j,
    Entity.jurisdiction e = Some j /\ In j high_risk_codes
    /\ (0.6 <= RiskScorer.risk_scores e None None RiskScorer.geographic <= 0.9)%Q
    /\ (0.40 <= RiskScorer.calculate_risk_score e None None <= 0.69)%Q
    /\ (forall risk_score anomalies,
           RiskScorer.generate_risk_reason e risk_score anomalies
           = join " | "
               (["Entity is classified as a shell company"] ++ sanctions_clause e
                ++ reputation_clause e ++ anomaly_clauses anomalies
                ++ ["Entity is based in a high-risk jurisdiction (" +:+ j +:+ ")"]))
    /\ (exists l,
           FakeDataGenerator.generate_fake_anomalies_list format_float strptime current_time
             amount [e] = Ok l
           /\ has_type "shell_company" l = true
           /\ has_type "high_risk_jurisdiction" l = negb (String.eqb j "ZW")).
Proof.
  intros Hu Hc Hr Hw Hs Hname e.
  destruct (get_generated current_time name w Hu Hc Hr Hw) as [Hg _]. fold e in Hg.
  destruct Hg as (_ & Hty & [b Hsa] & (r & Hre & Hrange) & _ & (j & digits & Hj & _ & _ & Hhigh)
                  & _).
  rewrite Hname in Hty. specialize (Hhigh Hty).
  destruct (high_risk_code_facts j Hhigh) as (Hgeo & Hclause & weight & Hweight & Hgt).
  exists j. split; [exact Hj|]. split; [exact Hhigh|].
  assert (Hgeo' : (0.6 <= RiskScorer.risk_scores e None None RiskScorer.geographic <= 0.9)%Q).
  { cbn [RiskScorer.risk_scores]. rewrite Hj. exact Hgeo. }
  split; [exact Hgeo'|]. split; [|split].
  - assert (Hb : (0.40 <= RiskScorer.total_risk e None None <= 0.69)%Q).
    { rewrite Q_total_risk_eq. revert Hgeo'.
      generalize (RiskScorer.risk_scores e None None RiskScorer.geographic). intros geo Hgeo'.
      cbn [RiskScorer.risk_scores RiskScorer._calculate_anomaly_risk].
      rewrite Hty, Hsa, Hre. rewrite Hty, base_range_values in Hrange.
      cbn [fst snd] in Hrange.
      cbn [RiskScorer.entity_type_risk default from_option id lit PyFloat_Q fsub].
      destruct b; lra. }
    unfold RiskScorer.calculate_risk_score. rewrite Q_clamp_id by lra. exact Hb.
  - intros risk_score anomalies. rewrite generate_risk_reason_clauses.
    unfold clauses, type_clause, jurisdiction_clause. rewrite Hty, Hj, Hclause. reflexivity.
  - eexists. split; [apply generate_fake_anomalies_list_eq, Hs|].
    cbn [map concat]. rewrite app_nil_r. unfold entity_rules.
    rewrite !has_type_app.
    assert (Ham : has_type "shell_company" (FakeDataGenerator.amount_anomalies format_float amount)
                  = false
                  /\ has_type "high_risk_jurisdiction"
                       (FakeDataGenerator.amount_anomalies format_float amount) = false).
    { unfold FakeDataGenerator.amount_anomalies, FakeDataGenerator.append.
      destruct (amount .> lit 1000000),
        ((amount .% lit 1000 .== lit 0) && (amount .> lit 10000)); split; reflexivity. }
    destruct Ham as [-> ->].
    unfold jurisdiction_rule, shell_rule, incorporation_rule. rewrite Hj, Hweight, Hgt.
    destruct (decide (Entity.type e = SHELL_COMPANY)) as [_|Hne]; [|contradiction].
    destruct (recently_formed strptime current_time e), (negb (j =? "ZW"))%string;
      split; reflexivity.
Qed.
End ShellCompanies.

Lemma generated_shell_companies_are_high_risk_witness :
  exists j,
    Entity.jurisdiction
      (@FakeData.get_fake_entity_data nat Q _ first_choice_library noon "Nova Holdings"
         new_world).1 = Some j
    /\ In j high_risk_codes.
Proof.
  destruct first_choice_contracts as (Hu & Hc & Hr).
  destruct (@generated_shell_companies_are_high_risk nat first_choice_library format_stub
              strptime_model noon "Nova Holdings" new_world 5000%Q Hu (Hc Q _) (Hr Q _)
              (empty_world_generated 0%nat) strptime_model_contract eq_refl)
    as (j & Hj & Hin & _).
  exists j. split; assumption.
Defined.
